(** * Verification of the unified API service (stack_data/api/app/main.py)

    A shallow embedding of the orchestration service: the magic-byte format
    detector, the classification-answer parser and the five request handlers
    (/chat, /voice, /image, /document, /classify), together with the
    language-selection step of the TTS service they call.

    Python values are modelled as follows.
    - [str] is a list of Unicode code points ([N]); [bytes] is a list of
      [Byte.byte].
    - The case tables of the Python runtime (str.upper, str.lower) are an
      interface, [Unicode], with the three laws the proofs use; [latin1] is
      an instance.
    - The external services and processes (STT, LLM, TTS, ffmpeg,
      LibreOffice, pdf2image) are oracles of a [World]; a handler is a
      computation that threads the trace of the calls made so far and
      either returns a value or raises. *)

From Stdlib Require Import List NArith ZArith Bool Lia.
From Stdlib.Strings Require Import String Ascii Byte.
Import ListNotations.

Set Implicit Arguments.

(** ** Python strings and bytes *)

Definition str := list N.
Definition bytes := list byte.

(** UTF-8 decoding, used only to write the string literals of the source. *)
Fixpoint utf8_decode (l : list N) : str :=
  match l with
  | [] => []
  | b0 :: t =>
    if (b0 <? 128)%N then b0 :: utf8_decode t
    else match t with
    | [] => []
    | b1 :: t1 =>
      if (b0 <? 224)%N
      then ((b0 - 192) * 64 + (b1 - 128))%N :: utf8_decode t1
      else match t1 with
      | [] => []
      | b2 :: t2 =>
        if (b0 <? 240)%N
        then ((b0 - 224) * 4096 + (b1 - 128) * 64 + (b2 - 128))%N
               :: utf8_decode t2
        else match t2 with
        | [] => []
        | b3 :: t3 =>
          ((b0 - 240) * 262144 + (b1 - 128) * 4096
           + (b2 - 128) * 64 + (b3 - 128))%N :: utf8_decode t3
        end
      end
    end
  end.

Definition py (s : string) : str :=
  utf8_decode (map Byte.to_N (list_byte_of_string s)).

Definition bytes_of (s : string) : bytes := list_byte_of_string s.

Definition NL : str := [10%N].

Fixpoint str_eqb (s t : str) : bool :=
  match s, t with
  | [], [] => true
  | c :: s', d :: t' => (c =? d)%N && str_eqb s' t'
  | _, _ => false
  end.

Fixpoint bytes_eqb (s t : bytes) : bool :=
  match s, t with
  | [], [] => true
  | c :: s', d :: t' => Byte.eqb c d && bytes_eqb s' t'
  | _, _ => false
  end.

(** [x in (a, b, ...)] and [x in LIST] on strings. *)
Definition str_in (x : str) (l : list str) : bool := existsb (str_eqb x) l.

(** Truthiness of a sequence: [not x] is [is_empty x]. *)
Definition is_empty {A} (l : list A) : bool :=
  match l with [] => true | _ => false end.

(** [a or default] on an optional string: None and the empty string are
    falsy. *)
Definition py_or (a : option str) (default : str) : str :=
  match a with
  | None => default
  | Some s => if is_empty s then default else s
  end.

(** [b[i:j]] never raises: it is cut to the length of the buffer. *)
Definition slice {A} (i j : nat) (l : list A) : list A :=
  firstn (j - i) (skipn i l).

(** [needle in hay] on bytes. *)
Fixpoint bytes_startswith (p s : bytes) : bool :=
  match p, s with
  | [], _ => true
  | c :: p', d :: s' => Byte.eqb c d && bytes_startswith p' s'
  | _ :: _, [] => false
  end.

Fixpoint bytes_in (needle hay : bytes) : bool :=
  bytes_startswith needle hay ||
  match hay with
  | [] => false
  | _ :: t => bytes_in needle t
  end.

(** str.startswith *)
Fixpoint startswith (s p : str) : bool :=
  match p, s with
  | [], _ => true
  | c :: p', d :: s' => (c =? d)%N && startswith s' p'
  | _ :: _, [] => false
  end.

(** Py_UNICODE_ISSPACE: the code points str.strip() removes. *)
Definition isspace (c : N) : bool :=
  ((9 <=? c) && (c <=? 13) || (28 <=? c) && (c <=? 32)
   || (c =? 133) || (c =? 160) || (c =? 5760)
   || (8192 <=? c) && (c <=? 8202)
   || (c =? 8232) || (c =? 8233) || (c =? 8239) || (c =? 8287)
   || (c =? 12288))%N.

Fixpoint lstrip (s : str) : str :=
  match s with
  | [] => []
  | c :: t => if isspace c then lstrip t else s
  end.

Definition rstrip (s : str) : str := rev (lstrip (rev s)).

Definition strip (s : str) : str := rstrip (lstrip s).

(** [s.split(sep)] for a one-character separator. *)
Fixpoint split (sep : N) (s : str) : list str :=
  match s with
  | [] => [[]]
  | c :: t =>
    if (c =? sep)%N then [] :: split sep t
    else match split sep t with
         | l :: ls => (c :: l) :: ls
         | [] => [[c]]
         end
  end.

(** [s.split(sep, 1)]: at most one cut. *)
Fixpoint split1 (sep : N) (s : str) : list str :=
  match s with
  | [] => [[]]
  | c :: t =>
    if (c =? sep)%N then [[]; t]
    else match split1 sep t with
         | l :: ls => (c :: l) :: ls
         | [] => [[c]]
         end
  end.

(** [sep.join(parts)] *)
Fixpoint join (sep : str) (parts : list str) : str :=
  match parts with
  | [] => []
  | [p] => p
  | p :: rest => p ++ sep ++ join sep rest
  end.

(** [str(n)] for a non-negative integer. *)
Fixpoint digits (d : Decimal.uint) : str :=
  match d with
  | Decimal.Nil => []
  | Decimal.D0 r => 48%N :: digits r
  | Decimal.D1 r => 49%N :: digits r
  | Decimal.D2 r => 50%N :: digits r
  | Decimal.D3 r => 51%N :: digits r
  | Decimal.D4 r => 52%N :: digits r
  | Decimal.D5 r => 53%N :: digits r
  | Decimal.D6 r => 54%N :: digits r
  | Decimal.D7 r => 55%N :: digits r
  | Decimal.D8 r => 56%N :: digits r
  | Decimal.D9 r => 57%N :: digits r
  end.

Definition str_of_nat (n : nat) : str := digits (Nat.to_uint n).

(** base64.b64encode(...).decode("utf-8") *)
Definition b64_char (n : N) : N :=
  (if n <? 26 then 65 + n
   else if n <? 52 then 97 + (n - 26)
   else if n <? 62 then 48 + (n - 52)
   else if n =? 62 then 43 else 47)%N.

Fixpoint b64encode_N (l : list N) : str :=
  match l with
  | [] => []
  | [x] => [b64_char (x / 4); b64_char ((x mod 4) * 16); 61; 61]%N
  | [x; y] =>
    [b64_char (x / 4); b64_char ((x mod 4) * 16 + y / 16);
     b64_char ((y mod 16) * 4); 61]%N
  | x :: y :: z :: rest =>
    [b64_char (x / 4); b64_char ((x mod 4) * 16 + y / 16);
     b64_char ((y mod 16) * 4 + z / 64); b64_char (z mod 64)]%N
      ++ b64encode_N rest
  end.

Definition b64encode (data : bytes) : str := b64encode_N (map Byte.to_N data).

(** ** Exceptions *)

Inductive exn :=
| HTTPException (status_code : Z) (detail : str)
| Exception (msg : str).

Inductive result (A : Type) :=
| Ok (a : A)
| Raise (e : exn).
Arguments Ok {A} a.
Arguments Raise {A} e.

Definition IndexError_msg : str := Eval cbv in py "list index out of range".
Definition IndexError : exn := Exception IndexError_msg.

(** [l[i]] *)
Definition index {A} (l : list A) (i : nat) : result A :=
  match nth_error l i with
  | Some x => Ok x
  | None => Raise IndexError
  end.

(** ** The case tables of the runtime *)

Definition ascii_toupper (c : N) : N :=
  (if (97 <=? c) && (c <=? 122) then c - 32 else c)%N.

Definition ascii_tolower (c : N) : N :=
  (if (65 <=? c) && (c <=? 90) then c + 32 else c)%N.

(** str.upper() maps each code point through the full uppercase mapping,
    which may yield several code points; str.lower() is taken whole, since
    it is context sensitive (final sigma). The laws: both agree with the
    ASCII tables on ASCII, and only a colon uppercases to something that
    holds a colon. *)
Class Unicode := {
  to_upper_full : N -> list N;
  lower : str -> str;
  upper_ascii : forall c, (c < 128)%N -> to_upper_full c = [ascii_toupper c];
  upper_colon : forall c, In 58%N (to_upper_full c) -> c = 58%N;
  lower_ascii : forall s, Forall (fun c => (c < 128)%N) s ->
                          lower s = map ascii_tolower s
}.

Definition upper `{Unicode} (s : str) : str := flat_map to_upper_full s.

(** An instance: Basic Latin and Latin-1 Supplement as Python maps them
    (sharp s uppercases to SS, micro sign to Greek capital mu, y with
    diaeresis to U+0178); code points above U+00FF are left unchanged by
    this instance. *)
Definition latin1_to_upper_full (c : N) : list N :=
  (if c <? 128 then [ascii_toupper c]
   else if c =? 181 then [924]
   else if c =? 223 then [83; 83]
   else if c =? 247 then [c]
   else if c =? 255 then [376]
   else if (224 <=? c) && (c <=? 254) then [c - 32]
   else [c])%N.

Definition latin1_tolower (c : N) : N :=
  (if c <? 128 then ascii_tolower c
   else if c =? 215 then c
   else if (192 <=? c) && (c <=? 222) then c + 32
   else c)%N.

Definition latin1_lower (s : str) : str := map latin1_tolower s.

(** ** Configuration and constants of the service *)

(** TIPOS_DOCUMENTO *)
Definition TIPOS_DOCUMENTO : list str := Eval cbv in
  [ py "CSF"; py "INE"; py "Pasaporte"; py "Título de propiedad";
    py "Recibo de luz"; py "Recibo de agua"; py "Recibo de gas";
    py "Predial"; py "Acta constitutiva"; py "Poder notarial";
    py "Comprobante de domicilio"; py "Estado de cuenta bancario";
    py "CURP"; py "Acta de nacimiento"; py "Comprobante de ingresos";
    py "Contrato"; py "Factura"; py "Otro" ].

Definition Otro : str := Eval cbv in py "Otro".
Definition baja : str := Eval cbv in py "baja".
Definition media : str := Eval cbv in py "media".
Definition alta : str := Eval cbv in py "alta".

(** PROMPT_CLASIFICACION *)
Definition PROMPT_CLASIFICACION : str := Eval cbv in
  py "Analiza este documento y clasifícalo en una de las siguientes categorías:"
  ++ NL ++ join (py ", ") TIPOS_DOCUMENTO ++ NL
  ++ NL ++ py "Responde SOLO con el formato:"
  ++ NL ++ py "TIPO: [categoría]"
  ++ NL ++ py "CONFIANZA: [alta/media/baja]"
  ++ NL ++ py "DESCRIPCION: [breve descripción del documento]"
  ++ NL
  ++ NL ++ py "Si no puedes identificar el documento, usa "
  ++ [34%N] ++ py "Otro" ++ [34%N] ++ py " como tipo.".

(** ** detect_file_type *)

Definition SIG_PDF : bytes := Eval cbv in bytes_of "%PDF".
Definition SIG_PNG : bytes := [x89; x50; x4e; x47; x0d; x0a; x1a; x0a].
Definition SIG_JPEG : bytes := [xff; xd8].
Definition SIG_GIF : bytes := Eval cbv in bytes_of "GIF8".
Definition SIG_RIFF : bytes := Eval cbv in bytes_of "RIFF".
Definition SIG_WEBP : bytes := Eval cbv in bytes_of "WEBP".
Definition SIG_ZIP : bytes := [x50; x4b; x03; x04].
Definition SIG_OLE2 : bytes := [xd0; xcf; x11; xe0; xa1; xb1; x1a; xe1].
Definition MARK_WORD : bytes := Eval cbv in bytes_of "word/".
Definition MARK_XL : bytes := Eval cbv in bytes_of "xl/".
Definition MARK_PPT : bytes := Eval cbv in bytes_of "ppt/".

Definition T_pdf : str := Eval cbv in py "pdf".
Definition T_png : str := Eval cbv in py "png".
Definition T_jpeg : str := Eval cbv in py "jpeg".
Definition T_gif : str := Eval cbv in py "gif".
Definition T_webp : str := Eval cbv in py "webp".
Definition T_docx : str := Eval cbv in py "docx".
Definition T_doc : str := Eval cbv in py "doc".
Definition T_xlsx : str := Eval cbv in py "xlsx".
Definition T_xls : str := Eval cbv in py "xls".
Definition T_pptx : str := Eval cbv in py "pptx".
Definition T_ppt : str := Eval cbv in py "ppt".
Definition T_zip : str := Eval cbv in py "zip".
Definition T_unknown : str := Eval cbv in py "unknown".

Definition detect_file_type (file_bytes : bytes) : str :=
  if bytes_eqb (firstn 4 file_bytes) SIG_PDF then T_pdf
  else if bytes_eqb (firstn 8 file_bytes) SIG_PNG then T_png
  else if bytes_eqb (firstn 2 file_bytes) SIG_JPEG then T_jpeg
  else if bytes_eqb (firstn 4 file_bytes) SIG_GIF then T_gif
  else if bytes_eqb (firstn 4 file_bytes) SIG_RIFF
          && bytes_eqb (slice 8 12 file_bytes) SIG_WEBP then T_webp
  else if bytes_eqb (firstn 4 file_bytes) SIG_ZIP then
    if bytes_in MARK_WORD (firstn 2000 file_bytes) then T_docx
    else if bytes_in MARK_XL (firstn 2000 file_bytes) then T_xlsx
    else if bytes_in MARK_PPT (firstn 2000 file_bytes) then T_pptx
    else T_zip
  else if bytes_eqb (firstn 8 file_bytes) SIG_OLE2 then T_doc
  else T_unknown.

(** ** parse_clasificacion *)

Definition KEY_TIPO : str := Eval cbv in py "TIPO:".
Definition KEY_CONFIANZA : str := Eval cbv in py "CONFIANZA:".
Definition KEY_DESCRIPCION : str := Eval cbv in py "DESCRIPCION:".
Definition KEY_DESCRIPCION_acc : str := Eval cbv in py "DESCRIPCIÓN:".
Definition COLON : N := 58%N.

(** A parsed answer: (tipo, confianza, descripcion). *)
Definition clasificacion := (str * str * str)%type.

Section Parser.
Context `{Unicode}.

(** The body of the loop over the lines. [line.split(":", 1)[1]] raises
    IndexError on a line without a colon. *)
Definition parse_line (st : clasificacion) (line : str) : result clasificacion :=
  let '(tipo, confianza, descripcion) := st in
  let line_upper := upper line in
  if startswith line_upper KEY_TIPO then
    match index (split1 COLON line) 1 with
    | Ok v => Ok (strip v, confianza, descripcion)
    | Raise e => Raise e
    end
  else if startswith line_upper KEY_CONFIANZA then
    match index (split1 COLON line) 1 with
    | Ok v => Ok (tipo, lower (strip v), descripcion)
    | Raise e => Raise e
    end
  else if startswith line_upper KEY_DESCRIPCION
          || startswith line_upper KEY_DESCRIPCION_acc then
    match index (split1 COLON line) 1 with
    | Ok v => Ok (tipo, confianza, strip v)
    | Raise e => Raise e
    end
  else Ok st.

Fixpoint parse_lines (st : clasificacion) (lines : list str)
  : result clasificacion :=
  match lines with
  | [] => Ok st
  | line :: rest =>
    match parse_line st line with
    | Ok st' => parse_lines st' rest
    | Raise e => Raise e
    end
  end.

(** "Validar tipo" *)
Definition validar_tipo (c : clasificacion) : clasificacion :=
  let '(tipo, confianza, descripcion) := c in
  (if str_in tipo TIPOS_DOCUMENTO then tipo else Otro, confianza, descripcion).

Definition parse_clasificacion (texto : str) : result clasificacion :=
  match parse_lines (Otro, baja, texto) (split 10%N (strip texto)) with
  | Ok c => Ok (validar_tipo c)
  | Raise e => Raise e
  end.

End Parser.

(** ** Request and response models *)

Record UploadFile := {
  filename : option str;
  file_content : bytes          (* what [await archivo.read()] returns *)
}.

Record ChatRequest := {
  req_texto : str;
  req_idioma : option str;
  req_system_prompt : option str
}.

Module ChatResponse.
Record t := { texto : str; audio_b64 : str; idioma : str }.

(** The JSON object FastAPI sends for the response model. *)
Definition model_dump (r : t) : list (string * str) :=
  [ ("texto"%string, texto r); ("audio_b64"%string, audio_b64 r);
    ("idioma"%string, idioma r) ].
End ChatResponse.

Module ClassifyResponse.
Record t := {
  tipo_documento : str;
  confianza : str;
  descripcion : str;
  texto : str;
  audio_b64 : str;
  idioma : str
}.

Definition model_dump (r : t) : list (string * str) :=
  [ ("tipo_documento"%string, tipo_documento r);
    ("confianza"%string, confianza r);
    ("descripcion"%string, descripcion r);
    ("texto"%string, texto r); ("audio_b64"%string, audio_b64 r);
    ("idioma"%string, idioma r) ].
End ClassifyResponse.

(** The keys of a JSON object. *)
Definition keys (o : list (string * str)) : list string := map fst o.

(** ** The collaborators *)

(** What a library call yields: a value, or an exception that is not an
    HTTPException, with its message. *)
Inductive outcome (A : Type) :=
| Returned (a : A)
| Failed (msg : str).
Arguments Returned {A} a.
Arguments Failed {A} msg.

(** An HTTP response: [body] is [response.json()] or [response.content]. *)
Record Response (J : Type) := {
  status_code : Z;
  text : str;
  body : J
}.

(** The fields read from the STT answer; None is an absent key. *)
Record SttJson := { stt_texto : option str; stt_idioma : option str }.

(** One message of the chat payload; [images] is None when the key is absent. *)
Record Message := { role : str; content : str; images : option (list str) }.

Record ChatPayload := { model : str; messages : list Message; stream : bool }.

(** What the LibreOffice run leaves: exit code, stderr, and input.pdf when
    it exists. *)
Record Soffice := { returncode : Z; stderr : str; output_pdf : option bytes }.

(** The calls a handler makes, each with what came back. *)
Inductive event :=
| STT_transcribe (filename : str) (audio : bytes)
                 (r : outcome (Response (outcome SttJson)))
| LLM_chat (payload : ChatPayload)
           (r : outcome (Response (outcome (option str))))
| TTS_synthesize (texto idioma : str) (r : outcome (Response bytes))
| Ffmpeg (wav : bytes) (r : outcome bytes)
| LibreOffice (ext : str) (input : bytes) (r : outcome Soffice)
| Pdf2Image (pdf : bytes) (r : outcome (list bytes)).

Definition trace := list event.

(** The environment of a request: the configuration read at start-up and
    the collaborators, whose answers may depend on the calls made so far. *)
Record World := {
  LLM_MODEL : str;
  LLM_IMG_MODEL : str;
  SYSTEM_PROMPT : str;
  stt_post : trace -> str -> bytes -> outcome (Response (outcome SttJson));
  llm_post : trace -> ChatPayload
             -> outcome (Response (outcome (option str)));
  tts_post : trace -> str -> str -> outcome (Response bytes);
  ffmpeg_run : trace -> bytes -> outcome bytes;
  libreoffice_run : trace -> str -> bytes -> outcome Soffice;
  convert_from_bytes : trace -> bytes -> outcome (list bytes)
}.

(** ** Computations: a trace is threaded, an exception stops the run *)

Definition M (A : Type) := trace -> result A * trace.

Definition ret {A} (a : A) : M A := fun h => (Ok a, h).

Definition raise {A} (e : exn) : M A := fun h => (Raise e, h).

Definition bind {A B} (m : M A) (f : A -> M B) : M B :=
  fun h =>
    match m h with
    | (Ok a, h') => f a h'
    | (Raise e, h') => (Raise e, h')
    end.

Notation "x <- m ;; k" := (bind m (fun x => k))
  (at level 61, m at next level, right associativity).

(** An external call: the answer is logged, a failure is raised. *)
Definition call {A} (oracle : trace -> outcome A) (log : outcome A -> event)
  : M A :=
  fun h =>
    let r := oracle h in
    match r with
    | Returned a => (Ok a, h ++ [log r])
    | Failed msg => (Raise (Exception msg), h ++ [log r])
    end.

(** [try: ... except HTTPException: raise
     except Exception as e: raise HTTPException(500, label + str(e))] *)
Definition endpoint {A} (label : str) (m : M A) : M A :=
  fun h =>
    match m h with
    | (Raise (Exception msg), h') =>
        (Raise (HTTPException 500 (label ++ msg)), h')
    | r => r
    end.

(** A request starts with no call made. *)
Definition run {A} (m : M A) : result A * trace := m [].

Definition dict_get (d : list (str * str)) (k : str) (default : str) : str :=
  match find (fun kv => str_eqb (fst kv) k) d with
  | Some kv => snd kv
  | None => default
  end.

Definition get (o : option str) (default : str) : str :=
  match o with Some v => v | None => default end.

(** ** Messages and defaults *)

Definition es : str := Eval cbv in py "es".
Definition audio_ogg : str := Eval cbv in py "audio.ogg".
Definition R_system : str := Eval cbv in py "system".
Definition R_user : str := Eval cbv in py "user".
Definition VISION_SYSTEM_PROMPT : str := Eval cbv in
  py "Eres un asistente experto en análisis de imágenes y documentos.".
Definition IMAGE_PROMPT : str := Eval cbv in
  py "Describe esta imagen en detalle.".
Definition DOCUMENT_PROMPT : str := Eval cbv in
  py "Analiza este documento y extrae la información importante.".

Definition D_error_stt : str := Eval cbv in py "Error en STT: ".
Definition D_error_llm : str := Eval cbv in py "Error en LLM: ".
Definition D_error_vision : str := Eval cbv in py "Error en LLM Vision: ".
Definition D_error_tts : str := Eval cbv in py "Error en TTS: ".
Definition D_error_office : str := Eval cbv in
  py "Error convirtiendo Office a PDF: ".
Definition D_no_pdf : str := Eval cbv in py "No se generó el PDF".
Definition D_texto_vacio : str := Eval cbv in
  py "El texto no puede estar vacío".
Definition D_llm_vacio : str := Eval cbv in py "LLM no generó respuesta".
Definition D_vision_vacio : str := Eval cbv in
  py "LLM Vision no generó respuesta".
Definition D_audio_vacio : str := Eval cbv in py "Archivo de audio vacío".
Definition D_no_transcrito : str := Eval cbv in
  py "No se pudo transcribir el audio".
Definition D_imagen_vacia : str := Eval cbv in py "Archivo de imagen vacío".
Definition D_archivo_vacio : str := Eval cbv in py "Archivo vacío".
Definition D_sin_paginas : str := Eval cbv in
  py "No se pudieron extraer páginas del PDF".
Definition D_no_soportado : str := Eval cbv in
  py "Tipo de archivo no soportado. Use PDF, Office (DOCX, XLSX, PPTX) o imágenes".
Definition L_chat : str := Eval cbv in py "Error procesando chat: ".
Definition L_voice : str := Eval cbv in py "Error procesando voice: ".
Definition L_imagen : str := Eval cbv in py "Error procesando imagen: ".
Definition L_documento : str := Eval cbv in py "Error procesando documento: ".
Definition L_clasificando : str := Eval cbv in
  py "Error clasificando documento: ".
Definition S_pagina : str := Eval cbv in py "Página ".
Definition S_colon_sp : str := Eval cbv in py ": ".
Definition S_hdr_open : str := Eval cbv in py "--- Página ".
Definition S_hdr_close : str := Eval cbv in py " ---".
Definition S_identificado : str := Eval cbv in
  py "Documento identificado como ".
Definition S_dot_sp : str := Eval cbv in py ". ".

Definition OFFICE_TYPES : list str :=
  [T_docx; T_doc; T_xlsx; T_xls; T_pptx; T_ppt].
Definition IMAGE_TYPES : list str := [T_png; T_jpeg; T_gif; T_webp].

Definition extensions : list (str * str) := Eval cbv in
  [ (T_docx, py ".docx"); (T_doc, py ".doc");
    (T_xlsx, py ".xlsx"); (T_xls, py ".xls");
    (T_pptx, py ".pptx"); (T_ppt, py ".ppt") ].
Definition EXT_docx : str := Eval cbv in py ".docx".

(** ** The service *)

Section Service.
Context `{Unicode} (W : World).

Definition image_to_base64 (image_bytes : bytes) : str := b64encode image_bytes.

(** The temporary files of the conversion are not modelled: ffmpeg is a
    function from the WAV bytes to the OGG bytes, or fails. *)
Definition wav_to_ogg_base64 (wav_bytes : bytes) : M str :=
  ogg_bytes <- call (fun h => ffmpeg_run W h wav_bytes) (Ffmpeg wav_bytes) ;;
  ret (b64encode ogg_bytes).

(** pdf2image followed by the PNG encoding of every page. *)
Definition pdf_to_images (pdf_bytes : bytes) : M (list bytes) :=
  call (fun h => convert_from_bytes W h pdf_bytes) (Pdf2Image pdf_bytes).

Definition office_to_pdf (file_bytes : bytes) (file_type : str) : M bytes :=
  let ext := dict_get extensions file_type EXT_docx in
  res <- call (fun h => libreoffice_run W h ext file_bytes)
              (LibreOffice ext file_bytes) ;;
  if negb (returncode res =? 0)%Z
  then raise (Exception (D_error_office ++ stderr res))
  else match output_pdf res with
       | None => raise (Exception D_no_pdf)
       | Some pdf => ret pdf
       end.

Definition call_stt (audio_bytes : bytes) (filename : str) : M SttJson :=
  response <- call (fun h => stt_post W h filename audio_bytes)
                   (STT_transcribe filename audio_bytes) ;;
  if negb (status_code response =? 200)%Z
  then raise (HTTPException 500 (D_error_stt ++ text response))
  else match body response with
       | Returned j => ret j
       | Failed msg => raise (Exception msg)
       end.

Definition call_llm (texto : str) (system_prompt : option str) : M str :=
  let prompt := py_or system_prompt (SYSTEM_PROMPT W) in
  let payload :=
    {| model := LLM_MODEL W;
       messages :=
         [ {| role := R_system; content := prompt; images := None |};
           {| role := R_user; content := texto; images := None |} ];
       stream := false |} in
  response <- call (fun h => llm_post W h payload) (LLM_chat payload) ;;
  if negb (status_code response =? 200)%Z
  then raise (HTTPException 500 (D_error_llm ++ text response))
  else match body response with
       | Returned c => ret (get c [])
       | Failed msg => raise (Exception msg)
       end.

Definition vision_payload (image_b64 prompt : str)
           (system_prompt : option str) : ChatPayload :=
  {| model := LLM_IMG_MODEL W;
     messages :=
       [ {| role := R_system;
            content := py_or system_prompt VISION_SYSTEM_PROMPT;
            images := None |};
         {| role := R_user; content := prompt; images := Some [image_b64] |} ];
     stream := false |}.

Definition call_llm_vision (image_b64 prompt : str)
           (system_prompt : option str) : M str :=
  let payload := vision_payload image_b64 prompt system_prompt in
  response <- call (fun h => llm_post W h payload) (LLM_chat payload) ;;
  if negb (status_code response =? 200)%Z
  then raise (HTTPException 500 (D_error_vision ++ text response))
  else match body response with
       | Returned c => ret (get c [])
       | Failed msg => raise (Exception msg)
       end.

Definition call_tts (texto idioma : str) : M bytes :=
  response <- call (fun h => tts_post W h texto idioma)
                   (TTS_synthesize texto idioma) ;;
  if negb (status_code response =? 200)%Z
  then raise (HTTPException 500 (D_error_tts ++ text response))
  else ret (body response).

(** POST /chat *)
Definition chat (request : ChatRequest) : M ChatResponse.t :=
  if is_empty (strip (req_texto request))
  then raise (HTTPException 400 D_texto_vacio)
  else
    let idioma := py_or (req_idioma request) es in
    endpoint L_chat (
      respuesta_texto <- call_llm (req_texto request)
                                  (req_system_prompt request) ;;
      if is_empty respuesta_texto
      then raise (HTTPException 500 D_llm_vacio)
      else
        wav_bytes <- call_tts respuesta_texto idioma ;;
        audio_b64 <- wav_to_ogg_base64 wav_bytes ;;
        ret {| ChatResponse.texto := respuesta_texto;
               ChatResponse.audio_b64 := audio_b64;
               ChatResponse.idioma := idioma |}).

(** POST /voice *)
Definition voice (audio : UploadFile) : M ChatResponse.t :=
  endpoint L_voice (
    let audio_bytes := file_content audio in
    if is_empty audio_bytes
    then raise (HTTPException 400 D_audio_vacio)
    else
      let filename := py_or (filename audio) audio_ogg in
      stt_result <- call_stt audio_bytes filename ;;
      let texto_usuario := get (stt_texto stt_result) [] in
      let idioma := get (stt_idioma stt_result) es in
      if is_empty texto_usuario
      then raise (HTTPException 400 D_no_transcrito)
      else
        respuesta_texto <- call_llm texto_usuario None ;;
        if is_empty respuesta_texto
        then raise (HTTPException 500 D_llm_vacio)
        else
          wav_bytes <- call_tts respuesta_texto idioma ;;
          audio_b64 <- wav_to_ogg_base64 wav_bytes ;;
          ret {| ChatResponse.texto := respuesta_texto;
                 ChatResponse.audio_b64 := audio_b64;
                 ChatResponse.idioma := idioma |}).

(** POST /image; [prompt] and [idioma] are the form fields as the handler
    receives them. *)
Definition image (imagen : UploadFile) (prompt idioma : str)
  : M ChatResponse.t :=
  endpoint L_imagen (
    let image_bytes := file_content imagen in
    if is_empty image_bytes
    then raise (HTTPException 400 D_imagen_vacia)
    else
      let image_b64 := image_to_base64 image_bytes in
      respuesta_texto <- call_llm_vision image_b64 prompt None ;;
      if is_empty respuesta_texto
      then raise (HTTPException 500 D_vision_vacio)
      else
        wav_bytes <- call_tts respuesta_texto idioma ;;
        audio_b64 <- wav_to_ogg_base64 wav_bytes ;;
        ret {| ChatResponse.texto := respuesta_texto;
               ChatResponse.audio_b64 := audio_b64;
               ChatResponse.idioma := idioma |}).

Definition page_prompt (n : nat) (prompt : str) : str :=
  S_pagina ++ str_of_nat n ++ S_colon_sp ++ prompt.

Definition page_result (n : nat) (resultado : str) : str :=
  S_hdr_open ++ str_of_nat n ++ S_hdr_close ++ NL ++ resultado.

(** [for i, img_bytes in enumerate(images): ...] of /document, started at
    index [i] with the results gathered so far. *)
Fixpoint for_each_page (prompt : str) (i : nat) (images : list bytes)
         (resultados : list str) : M (list str) :=
  match images with
  | [] => ret resultados
  | img_bytes :: rest =>
    let image_b64 := image_to_base64 img_bytes in
    resultado <- call_llm_vision image_b64 (page_prompt (i + 1) prompt) None ;;
    for_each_page prompt (S i) rest
                  (resultados ++ [page_result (i + 1) resultado])
  end.

(** The conversion of Office files that opens /document and /classify. *)
Definition normalize_office (file_bytes : bytes) (file_type : str)
  : M (bytes * str) :=
  if str_in file_type OFFICE_TYPES
  then pdf <- office_to_pdf file_bytes file_type ;; ret (pdf, T_pdf)
  else ret (file_bytes, file_type).

(** POST /document *)
Definition document (archivo : UploadFile) (prompt idioma : str)
  : M ChatResponse.t :=
  endpoint L_documento (
    let file_bytes := file_content archivo in
    if is_empty file_bytes
    then raise (HTTPException 400 D_archivo_vacio)
    else
      let file_type := detect_file_type file_bytes in
      ft <- normalize_office file_bytes file_type ;;
      let '(file_bytes, file_type) := ft in
      respuesta_texto <-
        (if str_eqb file_type T_pdf then
           images <- pdf_to_images file_bytes ;;
           if is_empty images
           then raise (HTTPException 400 D_sin_paginas)
           else
             resultados <- for_each_page prompt 0 images [] ;;
             ret (join (NL ++ NL) resultados)
         else if str_in file_type IMAGE_TYPES then
           call_llm_vision (image_to_base64 file_bytes) prompt None
         else raise (HTTPException 400 D_no_soportado)) ;;
      if is_empty respuesta_texto
      then raise (HTTPException 500 D_vision_vacio)
      else
        wav_bytes <- call_tts respuesta_texto idioma ;;
        audio_b64 <- wav_to_ogg_base64 wav_bytes ;;
        ret {| ChatResponse.texto := respuesta_texto;
               ChatResponse.audio_b64 := audio_b64;
               ChatResponse.idioma := idioma |}).

(** [images[0]] *)
Definition first_page (images : list bytes) : M bytes :=
  match index images 0 with
  | Ok img => ret img
  | Raise e => raise e
  end.

(** POST /classify *)
Definition classify (archivo : UploadFile) (idioma : str)
  : M ClassifyResponse.t :=
  endpoint L_clasificando (
    let file_bytes := file_content archivo in
    if is_empty file_bytes
    then raise (HTTPException 400 D_archivo_vacio)
    else
      let file_type := detect_file_type file_bytes in
      ft <- normalize_office file_bytes file_type ;;
      let '(file_bytes, file_type) := ft in
      image_b64 <-
        (if str_eqb file_type T_pdf then
           images <- pdf_to_images file_bytes ;;
           if is_empty images
           then raise (HTTPException 400 D_sin_paginas)
           else img <- first_page images ;; ret (image_to_base64 img)
         else if str_in file_type IMAGE_TYPES then
           ret (image_to_base64 file_bytes)
         else raise (HTTPException 400 D_no_soportado)) ;;
      respuesta_raw <- call_llm_vision image_b64 PROMPT_CLASIFICACION None ;;
      if is_empty respuesta_raw
      then raise (HTTPException 500 D_vision_vacio)
      else
        match parse_clasificacion respuesta_raw with
        | Raise e => raise e
        | Ok (tipo, confianza, descripcion) =>
          let texto_audio :=
            S_identificado ++ tipo ++ S_dot_sp ++ descripcion in
          wav_bytes <- call_tts texto_audio idioma ;;
          audio_b64 <- wav_to_ogg_base64 wav_bytes ;;
          ret {| ClassifyResponse.tipo_documento := tipo;
                 ClassifyResponse.confianza := confianza;
                 ClassifyResponse.descripcion := descripcion;
                 ClassifyResponse.texto := texto_audio;
                 ClassifyResponse.audio_b64 := audio_b64;
                 ClassifyResponse.idioma := idioma |}
        end).

End Service.

(** [Form(default=...)]: FastAPI gives the handler the default declared in
    its signature when the field is omitted, and also when it is submitted
    empty; otherwise the handler gets the value submitted. *)
Definition Form (default : str) (submitted : option str) : str :=
  py_or submitted default.

(** POST /image, /document and /classify as FastAPI calls the handlers, from
    the form fields as the caller submitted them:
    [prompt: str = Form(default=...)], [idioma: str = Form(default="es")]. *)
Definition image_form (W : World) (imagen : UploadFile)
           (prompt idioma : option str) : M ChatResponse.t :=
  image W imagen (Form IMAGE_PROMPT prompt) (Form es idioma).

Definition document_form (W : World) (archivo : UploadFile)
           (prompt idioma : option str) : M ChatResponse.t :=
  document W archivo (Form DOCUMENT_PROMPT prompt) (Form es idioma).

Definition classify_form `{Unicode} (W : World) (archivo : UploadFile)
           (idioma : option str) : M ClassifyResponse.t :=
  classify W archivo (Form es idioma).

(** ** The TTS service: which language is synthesized
    (stack_data/tts/app/main.py) *)

Module TTS.
Record TextoEntrada := { texto : str; idioma : option str }.

Definition MODELOS_TTS : list str := Eval cbv in
  [py "es"; py "en"; py "de"; py "fr"; py "pt"; py "it"].

(** [detect] is langdetect; a failure is LangDetectException. *)
Definition detectar_idioma (detect : str -> outcome str) (texto : str)
  : str :=
  match detect texto with
  | Returned idioma => if str_in idioma MODELOS_TTS then idioma else es
  | Failed _ => es
  end.

(** [entrada.idioma or detectar_idioma(entrada.texto)] *)
Definition idioma_solicitado (detect : str -> outcome str)
           (entrada : TextoEntrada) : str :=
  match idioma entrada with
  | None => detectar_idioma detect (texto entrada)
  | Some i => if is_empty i then detectar_idioma detect (texto entrada)
              else i
  end.

(** The body of the request the API sends: both keys are present. *)
Definition entrada_of_call (texto idioma : str) : TextoEntrada :=
  {| texto := texto; idioma := Some idioma |}.
End TTS.

Unset Implicit Arguments.

(** ** An instance of the case tables *)

Lemma latin1_upper_ascii (c : N) :
  (c < 128)%N -> latin1_to_upper_full c = [ascii_toupper c].
Proof.
  intros Hc. unfold latin1_to_upper_full.
  apply N.ltb_lt in Hc. now rewrite Hc.
Qed.

Lemma latin1_upper_colon (c : N) :
  In 58%N (latin1_to_upper_full c) -> c = 58%N.
Proof.
  unfold latin1_to_upper_full, ascii_toupper.
  repeat match goal with
         | |- context [if ?x then _ else _] => destruct x eqn:?
         end; simpl; intros Hin;
    repeat match goal with
           | H : _ \/ _ |- _ => destruct H
           | H : False |- _ => destruct H
           | H : (_ && _)%bool = true |- _ => apply andb_prop in H; destruct H
           | H : (_ <=? _)%N = true |- _ => apply N.leb_le in H
           | H : (_ <=? _)%N = false |- _ => apply N.leb_gt in H
           | H : (_ <? _)%N = true |- _ => apply N.ltb_lt in H
           | H : (_ <? _)%N = false |- _ => apply N.ltb_ge in H
           | H : (_ =? _)%N = true |- _ => apply N.eqb_eq in H
           | H : (_ =? _)%N = false |- _ => apply N.eqb_neq in H
           end; try lia.
Qed.

Lemma latin1_lower_ascii (s : str) :
  Forall (fun c => (c < 128)%N) s -> latin1_lower s = map ascii_tolower s.
Proof.
  unfold latin1_lower. induction 1 as [|c s Hc _ IH]; simpl; [reflexivity|].
  f_equal; [|exact IH].
  unfold latin1_tolower. apply N.ltb_lt in Hc. now rewrite Hc.
Qed.

#[export] Instance latin1 : Unicode := {
  to_upper_full := latin1_to_upper_full;
  lower := latin1_lower;
  upper_ascii := latin1_upper_ascii;
  upper_colon := latin1_upper_colon;
  lower_ascii := latin1_lower_ascii
}.

(** * Properties *)

(** ** Equality tests *)

Lemma byte_eqb_eq (x y : byte) : Byte.eqb x y = true <-> x = y.
Proof.
  split; [apply Byte.byte_dec_bl | apply Byte.byte_dec_lb].
Qed.

Lemma bytes_eqb_eq (s t : bytes) : bytes_eqb s t = true <-> s = t.
Proof.
  revert t. induction s as [|c s IH]; intros [|d t]; simpl;
    try (split; [discriminate | discriminate]); [tauto|].
  rewrite andb_true_iff, byte_eqb_eq, IH.
  split; [intros [-> ->]; reflexivity | intros E; inversion E; auto].
Qed.

Lemma bytes_eqb_neq (s t : bytes) : bytes_eqb s t = false <-> s <> t.
Proof.
  rewrite <- bytes_eqb_eq. destruct (bytes_eqb s t); split; congruence.
Qed.

Lemma str_eqb_eq (s t : str) : str_eqb s t = true <-> s = t.
Proof.
  revert t. induction s as [|c s IH]; intros [|d t]; simpl;
    try (split; [discriminate | discriminate]); [tauto|].
  rewrite andb_true_iff, N.eqb_eq, IH.
  split; [intros [-> ->]; reflexivity | intros E; inversion E; auto].
Qed.

Lemma str_eqb_refl (s : str) : str_eqb s s = true.
Proof. now apply str_eqb_eq. Qed.

Lemma str_in_In (x : str) (l : list str) : str_in x l = true <-> In x l.
Proof.
  unfold str_in. rewrite existsb_exists. split.
  - intros [y [Hy E]]. apply str_eqb_eq in E. now subst.
  - intros Hx. exists x. split; [exact Hx | apply str_eqb_refl].
Qed.

(** ** The format detector *)

(** [m] occurs in [h] as a contiguous run. *)
Definition occurs (m h : bytes) : Prop :=
  exists pre post, h = pre ++ m ++ post.

Lemma bytes_startswith_spec (p s : bytes) :
  bytes_startswith p s = true <-> exists post, s = p ++ post.
Proof.
  revert s. induction p as [|c p IH]; intros s; simpl.
  - split; [intros _; now exists s | reflexivity].
  - destruct s as [|d s].
    + split; [discriminate | intros [post E]; discriminate].
    + rewrite andb_true_iff, byte_eqb_eq, IH. split.
      * intros [-> [post ->]]. now exists post.
      * intros [post E]. inversion E. split; [reflexivity | now exists post].
Qed.

Lemma bytes_in_spec (m h : bytes) : bytes_in m h = true <-> occurs m h.
Proof.
  unfold occurs. induction h as [|x h IH].
  - simpl. rewrite orb_false_r, bytes_startswith_spec. split.
    + intros [post E]. now exists [], post.
    + intros [pre [post E]]. destruct pre as [|y pre]; [|discriminate].
      now exists post.
  - cbn [bytes_in]. rewrite orb_true_iff, bytes_startswith_spec, IH. split.
    + intros [[post E] | [pre [post E]]].
      * now exists [], post.
      * exists (x :: pre), post. now rewrite E.
    + intros [pre [post E]]. destruct pre as [|y pre].
      * left. now exists post.
      * right. inversion E. now exists pre, post.
Qed.

Lemma hd_firstn (n : nat) (l s : bytes) (c : byte) :
  firstn (S n) l = s -> hd_error s = Some c -> hd_error l = Some c.
Proof.
  intros <-. destruct l; simpl; auto.
Qed.

Lemma eqb_firstn_hd (n : nat) (l s : bytes) (c : byte) :
  hd_error l = Some c -> hd_error s <> Some c ->
  bytes_eqb (firstn (S n) l) s = false.
Proof.
  intros Hl Hs. apply bytes_eqb_neq. intros E.
  apply Hs. rewrite <- E. destruct l; simpl in *; [discriminate | exact Hl].
Qed.

Ltac skip_tests Hd :=
  repeat (rewrite (eqb_firstn_hd _ _ _ _ Hd) by (cbv; discriminate));
  cbn [andb].

Lemma detect_pdf (l : bytes) : firstn 4 l = SIG_PDF -> detect_file_type l = T_pdf.
Proof.
  intros E. unfold detect_file_type. now rewrite E.
Qed.

Lemma detect_png (l : bytes) : firstn 8 l = SIG_PNG -> detect_file_type l = T_png.
Proof.
  intros E. pose proof (hd_firstn _ _ _ _ E eq_refl) as Hd.
  unfold detect_file_type. skip_tests Hd. now rewrite E.
Qed.

Lemma detect_jpeg (l : bytes) :
  firstn 2 l = SIG_JPEG -> detect_file_type l = T_jpeg.
Proof.
  intros E. pose proof (hd_firstn _ _ _ _ E eq_refl) as Hd.
  unfold detect_file_type. skip_tests Hd. now rewrite E.
Qed.

Lemma detect_gif (l : bytes) : firstn 4 l = SIG_GIF -> detect_file_type l = T_gif.
Proof.
  intros E. pose proof (hd_firstn _ _ _ _ E eq_refl) as Hd.
  unfold detect_file_type. skip_tests Hd. now rewrite E.
Qed.

Lemma detect_riff (l : bytes) :
  firstn 4 l = SIG_RIFF ->
  detect_file_type l =
  if bytes_eqb (slice 8 12 l) SIG_WEBP then T_webp else T_unknown.
Proof.
  intros E. pose proof (hd_firstn _ _ _ _ E eq_refl) as Hd.
  unfold detect_file_type.
  rewrite (eqb_firstn_hd 3 _ SIG_PDF _ Hd) by (cbv; discriminate).
  rewrite (eqb_firstn_hd 7 _ SIG_PNG _ Hd) by (cbv; discriminate).
  rewrite (eqb_firstn_hd 1 _ SIG_JPEG _ Hd) by (cbv; discriminate).
  rewrite (eqb_firstn_hd 3 _ SIG_GIF _ Hd) by (cbv; discriminate).
  rewrite (eqb_firstn_hd 3 _ SIG_ZIP _ Hd) by (cbv; discriminate).
  rewrite (eqb_firstn_hd 7 _ SIG_OLE2 _ Hd) by (cbv; discriminate).
  rewrite E. change (bytes_eqb SIG_RIFF SIG_RIFF) with true. cbn [andb].
  reflexivity.
Qed.

Lemma detect_zip (l : bytes) :
  firstn 4 l = SIG_ZIP ->
  detect_file_type l =
  if bytes_in MARK_WORD (firstn 2000 l) then T_docx
  else if bytes_in MARK_XL (firstn 2000 l) then T_xlsx
  else if bytes_in MARK_PPT (firstn 2000 l) then T_pptx
  else T_zip.
Proof.
  intros E. pose proof (hd_firstn _ _ _ _ E eq_refl) as Hd.
  unfold detect_file_type.
  rewrite (eqb_firstn_hd 3 _ SIG_PDF _ Hd) by (cbv; discriminate).
  rewrite (eqb_firstn_hd 7 _ SIG_PNG _ Hd) by (cbv; discriminate).
  rewrite (eqb_firstn_hd 1 _ SIG_JPEG _ Hd) by (cbv; discriminate).
  rewrite (eqb_firstn_hd 3 _ SIG_GIF _ Hd) by (cbv; discriminate).
  rewrite (eqb_firstn_hd 3 _ SIG_RIFF _ Hd) by (cbv; discriminate).
  cbn [andb]. rewrite E. reflexivity.
Qed.

Lemma detect_ole2 (l : bytes) :
  firstn 8 l = SIG_OLE2 -> detect_file_type l = T_doc.
Proof.
  intros E. pose proof (hd_firstn _ _ _ _ E eq_refl) as Hd.
  unfold detect_file_type. skip_tests Hd. now rewrite E.
Qed.

Lemma bytes_in_false (m h : bytes) : ~ occurs m h -> bytes_in m h = false.
Proof.
  intros Hn. destruct (bytes_in m h) eqn:E; [|reflexivity].
  apply bytes_in_spec in E. contradiction.
Qed.

(** A buffer carries one of the signatures of the table. *)
Definition matches_signature (l : bytes) : Prop :=
  firstn 4 l = SIG_PDF \/ firstn 8 l = SIG_PNG \/ firstn 2 l = SIG_JPEG \/
  firstn 4 l = SIG_GIF \/
  (firstn 4 l = SIG_RIFF /\ slice 8 12 l = SIG_WEBP) \/
  firstn 4 l = SIG_ZIP \/ firstn 8 l = SIG_OLE2.

(** C5: every entry of the signature table yields its tag. WebP needs RIFF
    at offset 0 and WEBP at offset 8, and nothing else is reported as webp.
    After PK\x03\x04 the first 2000 bytes are searched for word/, xl/ and
    ppt/ in that order of priority: the first marker found decides between
    docx, xlsx and pptx (so xl/ without word/ gives xlsx), and a buffer
    with none of them is a plain zip. The OLE2 signature gives doc. *)
Theorem detect_file_type_signature_table (l : bytes) :
  (firstn 4 l = SIG_PDF -> detect_file_type l = T_pdf) /\
  (firstn 8 l = SIG_PNG -> detect_file_type l = T_png) /\
  (firstn 2 l = SIG_JPEG -> detect_file_type l = T_jpeg) /\
  (firstn 4 l = SIG_GIF -> detect_file_type l = T_gif) /\
  (firstn 4 l = SIG_RIFF -> slice 8 12 l = SIG_WEBP ->
   detect_file_type l = T_webp) /\
  (detect_file_type l = T_webp ->
   firstn 4 l = SIG_RIFF /\ slice 8 12 l = SIG_WEBP) /\
  (firstn 4 l = SIG_ZIP -> occurs MARK_WORD (firstn 2000 l) ->
   detect_file_type l = T_docx) /\
  (firstn 4 l = SIG_ZIP -> ~ occurs MARK_WORD (firstn 2000 l) ->
   occurs MARK_XL (firstn 2000 l) -> detect_file_type l = T_xlsx) /\
  (firstn 4 l = SIG_ZIP -> ~ occurs MARK_WORD (firstn 2000 l) ->
   ~ occurs MARK_XL (firstn 2000 l) -> occurs MARK_PPT (firstn 2000 l) ->
   detect_file_type l = T_pptx) /\
  (firstn 4 l = SIG_ZIP -> ~ occurs MARK_WORD (firstn 2000 l) ->
   ~ occurs MARK_XL (firstn 2000 l) -> ~ occurs MARK_PPT (firstn 2000 l) ->
   detect_file_type l = T_zip) /\
  (firstn 8 l = SIG_OLE2 -> detect_file_type l = T_doc).
Proof.
  repeat split.
  - apply detect_pdf.
  - apply detect_png.
  - apply detect_jpeg.
  - apply detect_gif.
  - intros E Hw. rewrite (detect_riff l E).
    apply bytes_eqb_eq in Hw. now rewrite Hw.
  - revert H. unfold detect_file_type.
    repeat match goal with
           | |- context [if ?c then _ else _] => destruct c eqn:?
           end; intros Hd; try (cbv in Hd; discriminate Hd).
    apply andb_prop in Heqb3. now apply bytes_eqb_eq.
  - revert H. unfold detect_file_type.
    repeat match goal with
           | |- context [if ?c then _ else _] => destruct c eqn:?
           end; intros Hd; try (cbv in Hd; discriminate Hd).
    apply andb_prop in Heqb3. now apply bytes_eqb_eq.
  - intros E Hw. rewrite (detect_zip l E).
    apply bytes_in_spec in Hw. now rewrite Hw.
  - intros E Hw Hx. rewrite (detect_zip l E), (bytes_in_false _ _ Hw).
    apply bytes_in_spec in Hx. now rewrite Hx.
  - intros E Hw Hx Hp.
    rewrite (detect_zip l E), (bytes_in_false _ _ Hw), (bytes_in_false _ _ Hx).
    apply bytes_in_spec in Hp. now rewrite Hp.
  - intros E Hw Hx Hp.
    now rewrite (detect_zip l E), (bytes_in_false _ _ Hw),
      (bytes_in_false _ _ Hx), (bytes_in_false _ _ Hp).
  - apply detect_ole2.
Qed.

(** Sample buffers, one per row of the table. *)
Definition sample_pdf : bytes := Eval cbv in bytes_of "%PDF-1.7".
Definition sample_png : bytes := SIG_PNG ++ [x00; x00].
Definition sample_jpeg : bytes := [xff; xd8; xff; xe0].
Definition sample_gif : bytes := Eval cbv in bytes_of "GIF89a".
Definition sample_webp : bytes := Eval cbv in bytes_of "RIFF....WEBPVP8 ".
Definition sample_docx : bytes :=
  Eval cbv in SIG_ZIP ++ bytes_of "..xl/..word/document.xml".
Definition sample_xlsx : bytes :=
  Eval cbv in SIG_ZIP ++ bytes_of "....xl/workbook.xml ppt/".
Definition sample_pptx : bytes :=
  Eval cbv in SIG_ZIP ++ bytes_of "....ppt/slides".
Definition sample_zip : bytes := Eval cbv in SIG_ZIP ++ bytes_of "readme.txt".
Definition sample_ole2 : bytes := SIG_OLE2 ++ [x00].
Definition sample_riff_short : bytes := Eval cbv in bytes_of "RIFF".

Ltac occurs_yes := apply bytes_in_spec; vm_compute; reflexivity.
Ltac occurs_no :=
  let Ho := fresh in
  intros Ho; apply bytes_in_spec in Ho; vm_compute in Ho; discriminate Ho.

Lemma detect_file_type_signature_table_witness :
  detect_file_type sample_pdf = T_pdf /\
  detect_file_type sample_png = T_png /\
  detect_file_type sample_jpeg = T_jpeg /\
  detect_file_type sample_gif = T_gif /\
  detect_file_type sample_webp = T_webp /\
  (firstn 4 sample_webp = SIG_RIFF /\ slice 8 12 sample_webp = SIG_WEBP) /\
  detect_file_type sample_docx = T_docx /\
  detect_file_type sample_xlsx = T_xlsx /\
  detect_file_type sample_pptx = T_pptx /\
  detect_file_type sample_zip = T_zip /\
  detect_file_type sample_ole2 = T_doc.
Proof.
  repeat apply conj.
  - apply (detect_file_type_signature_table sample_pdf). reflexivity.
  - apply (detect_file_type_signature_table sample_png). reflexivity.
  - apply (detect_file_type_signature_table sample_jpeg). reflexivity.
  - apply (detect_file_type_signature_table sample_gif). reflexivity.
  - apply (detect_file_type_signature_table sample_webp); reflexivity.
  - apply (detect_file_type_signature_table sample_webp). reflexivity.
  - apply (detect_file_type_signature_table sample_webp). reflexivity.
  - apply (detect_file_type_signature_table sample_docx);
      [reflexivity | occurs_yes].
  - apply (detect_file_type_signature_table sample_xlsx);
      [reflexivity | occurs_no | occurs_yes].
  - apply (detect_file_type_signature_table sample_pptx);
      [reflexivity | occurs_no | occurs_no | occurs_yes].
  - apply (detect_file_type_signature_table sample_zip);
      [reflexivity | occurs_no | occurs_no | occurs_no].
  - apply (detect_file_type_signature_table sample_ole2). reflexivity.
Defined.

(** C9: the detector returns for every buffer, and what it returns is one
    of the eleven tags; a buffer that carries no signature of the table is
    unknown. *)
Theorem detect_file_type_total (l : bytes) :
  In (detect_file_type l)
     [T_pdf; T_png; T_jpeg; T_gif; T_webp; T_docx; T_doc; T_xlsx; T_pptx;
      T_zip; T_unknown] /\
  (~ matches_signature l -> detect_file_type l = T_unknown).
Proof.
  split.
  - unfold detect_file_type.
    repeat match goal with
           | |- context [if ?c then _ else _] => destruct c
           end; simpl; auto 20.
  - unfold matches_signature, detect_file_type. intros Hn.
    repeat match goal with
           | |- context [if ?c then _ else _] => destruct c eqn:?
           end; try reflexivity; exfalso; apply Hn;
      repeat match goal with
             | H : (_ && _)%bool = true |- _ => apply andb_prop in H; destruct H
             | H : bytes_eqb _ _ = true |- _ => apply bytes_eqb_eq in H
             end; tauto.
Qed.

Lemma detect_file_type_total_witness :
  ~ matches_signature sample_riff_short /\
  detect_file_type sample_riff_short = T_unknown /\
  ~ matches_signature [] /\ detect_file_type [] = T_unknown.
Proof.
  assert (H1 : ~ matches_signature sample_riff_short).
  { unfold matches_signature. vm_compute.
    intros [E|[E|[E|[E|[[_ E]|[E|E]]]]]]; discriminate E. }
  assert (H2 : ~ matches_signature []).
  { unfold matches_signature. vm_compute.
    intros [E|[E|[E|[E|[[E _]|[E|E]]]]]]; discriminate E. }
  split; [exact H1|]. split.
  - apply (detect_file_type_total sample_riff_short). exact H1.
  - split; [exact H2|]. apply (detect_file_type_total []). exact H2.
Defined.

(** ** Strings: prefixes, cuts and trimming *)

Lemma startswith_spec (s p : str) :
  startswith s p = true <-> exists rest, s = p ++ rest.
Proof.
  revert s. induction p as [|c p IH]; intros s.
  - split; [intros _; now exists s | now destruct s].
  - destruct s as [|d s]; simpl.
    + split; [discriminate | intros [rest E]; discriminate].
    + rewrite andb_true_iff, N.eqb_eq, IH. split.
      * intros [-> [rest ->]]. now exists rest.
      * intros [rest E]. inversion E. split; [reflexivity | now exists rest].
Qed.

Lemma startswith_app (p rest : str) : startswith (p ++ rest) p = true.
Proof. apply startswith_spec. now exists rest. Qed.

Lemma split1_In (sep : N) (s : str) :
  In sep s ->
  exists k v, split1 sep s = [k; v] /\ s = k ++ sep :: v /\ ~ In sep k.
Proof.
  induction s as [|c s IH]; simpl; [tauto|]. intros Hin.
  destruct (c =? sep)%N eqn:E.
  - apply N.eqb_eq in E. subst c. exists [], s. simpl. tauto.
  - apply N.eqb_neq in E. destruct Hin as [Hc | Hin]; [contradiction|].
    destruct (IH Hin) as [k [v [Hs [Hk Hn]]]]. rewrite Hs.
    exists (c :: k), v. simpl. rewrite Hk.
    repeat split; intros [Hc | Hc]; [now apply E | now apply Hn].
Qed.

Lemma split1_cut (sep : N) (k v : str) :
  ~ In sep k -> split1 sep (k ++ sep :: v) = [k; v].
Proof.
  induction k as [|c k IH]; simpl; intros Hn.
  - now rewrite N.eqb_refl.
  - destruct (c =? sep)%N eqn:E.
    + apply N.eqb_eq in E. tauto.
    + rewrite IH by tauto. reflexivity.
Qed.

Lemma split_single (sep : N) (s : str) : ~ In sep s -> split sep s = [s].
Proof.
  induction s as [|c s IH]; simpl; intros Hn; [reflexivity|].
  destruct (c =? sep)%N eqn:E.
  - apply N.eqb_eq in E. tauto.
  - rewrite IH by tauto. reflexivity.
Qed.

Lemma split_cut (sep : N) (k rest : str) :
  ~ In sep k -> split sep (k ++ sep :: rest) = k :: split sep rest.
Proof.
  induction k as [|c k IH]; simpl; intros Hn.
  - now rewrite N.eqb_refl.
  - destruct (c =? sep)%N eqn:E.
    + apply N.eqb_eq in E. tauto.
    + rewrite IH by tauto. reflexivity.
Qed.

(** ** The parser never raises *)

Section ParserFacts.
Context `{Unicode}.

Lemma upper_app (s t : str) : upper (s ++ t) = upper s ++ upper t.
Proof. unfold upper. apply flat_map_app. Qed.

Lemma upper_ascii_str (s : str) :
  Forall (fun c => (c < 128)%N) s -> upper s = map ascii_toupper s.
Proof.
  unfold upper. induction 1 as [|c s Hc _ IH]; simpl; [reflexivity|].
  rewrite upper_ascii by exact Hc. now rewrite IH.
Qed.

Lemma colon_upper (line : str) : In COLON (upper line) -> In COLON line.
Proof.
  unfold upper. rewrite in_flat_map. intros [c [Hc Hin]].
  apply upper_colon in Hin. now subst c.
Qed.

Lemma key_has_colon (line key : str) :
  In COLON key -> startswith (upper line) key = true -> In COLON line.
Proof.
  intros Hk Hs. apply startswith_spec in Hs. destruct Hs as [rest E].
  apply colon_upper. rewrite E. apply in_or_app. now left.
Qed.

Lemma value_after_key (line key : str) :
  In COLON key -> startswith (upper line) key = true ->
  exists k v, index (split1 COLON line) 1 = Ok v /\
              line = k ++ COLON :: v /\ ~ In COLON k.
Proof.
  intros Hk Hs.
  destruct (split1_In COLON line (key_has_colon line key Hk Hs))
    as [k [v [E [El Hn]]]].
  exists k, v. rewrite E. auto.
Qed.

Lemma KEY_TIPO_colon : In COLON KEY_TIPO.
Proof. cbv. tauto. Qed.

Lemma KEY_CONFIANZA_colon : In COLON KEY_CONFIANZA.
Proof. cbv. tauto. Qed.

Lemma KEY_DESCRIPCION_colon : In COLON KEY_DESCRIPCION.
Proof. cbv. tauto. Qed.

Lemma KEY_DESCRIPCION_acc_colon : In COLON KEY_DESCRIPCION_acc.
Proof. cbv. tauto. Qed.

Lemma parse_line_total (st : clasificacion) (line : str) :
  exists st', parse_line st line = Ok st'.
Proof.
  destruct st as [[tipo confianza] descripcion]. unfold parse_line.
  destruct (startswith (upper line) KEY_TIPO) eqn:Et.
  { destruct (value_after_key line _ KEY_TIPO_colon Et) as [k [v [E _]]].
    rewrite E. eauto. }
  destruct (startswith (upper line) KEY_CONFIANZA) eqn:Ec.
  { destruct (value_after_key line _ KEY_CONFIANZA_colon Ec) as [k [v [E _]]].
    rewrite E. eauto. }
  destruct (startswith (upper line) KEY_DESCRIPCION) eqn:Ed.
  { destruct (value_after_key line _ KEY_DESCRIPCION_colon Ed)
      as [k [v [E _]]].
    cbn [orb]. rewrite E. eauto. }
  destruct (startswith (upper line) KEY_DESCRIPCION_acc) eqn:Ea.
  { destruct (value_after_key line _ KEY_DESCRIPCION_acc_colon Ea)
      as [k [v [E _]]].
    cbn [orb]. rewrite E. eauto. }
  cbn [orb]. eauto.
Qed.

Lemma parse_lines_total (lines : list str) (st : clasificacion) :
  exists st', parse_lines st lines = Ok st'.
Proof.
  revert st. induction lines as [|line rest IH]; intros st; simpl.
  - eauto.
  - destruct (parse_line_total st line) as [st' E]. rewrite E. apply IH.
Qed.

(** A line that the loop acts on. *)
Definition recognized (line : str) : bool :=
  startswith (upper line) KEY_TIPO
  || startswith (upper line) KEY_CONFIANZA
  || startswith (upper line) KEY_DESCRIPCION
  || startswith (upper line) KEY_DESCRIPCION_acc.

Lemma parse_line_unrecognized (st : clasificacion) (line : str) :
  recognized line = false -> parse_line st line = Ok st.
Proof.
  unfold recognized, parse_line. intros Hr.
  destruct st as [[tipo confianza] descripcion].
  repeat (apply orb_false_elim in Hr; destruct Hr as [Hr ?]).
  repeat match goal with E : _ = false |- _ => rewrite E; clear E end.
  reflexivity.
Qed.

Lemma parse_lines_unrecognized (lines : list str) (st : clasificacion) :
  Forall (fun line => recognized line = false) lines ->
  parse_lines st lines = Ok st.
Proof.
  induction 1 as [|line rest Hl _ IH]; simpl; [reflexivity|].
  now rewrite (parse_line_unrecognized st line Hl).
Qed.

End ParserFacts.

(** C2: the parser returns a record for every text, and the tipo of the
    record is one of the eighteen entries of TIPOS_DOCUMENTO, the last of
    which is Otro: the string the lines gave is kept when it is an entry
    and replaced by Otro when it is not. A text without a recognized line
    gives (Otro, baja, the whole text). *)
Theorem parse_clasificacion_total `{Unicode} (texto : str) :
  List.length TIPOS_DOCUMENTO = 18 /\ last TIPOS_DOCUMENTO [] = Otro /\
  (exists extracted tipo confianza descripcion,
     parse_lines (Otro, baja, texto) (split 10%N (strip texto))
       = Ok (extracted, confianza, descripcion) /\
     parse_clasificacion texto = Ok (tipo, confianza, descripcion) /\
     In tipo TIPOS_DOCUMENTO /\
     (In extracted TIPOS_DOCUMENTO -> tipo = extracted) /\
     (~ In extracted TIPOS_DOCUMENTO -> tipo = Otro)) /\
  (Forall (fun line => recognized line = false) (split 10%N (strip texto)) ->
   parse_clasificacion texto = Ok (Otro, baja, texto)).
Proof.
  split; [reflexivity|]. split; [reflexivity|]. split.
  - destruct (parse_lines_total (split 10%N (strip texto)) (Otro, baja, texto))
      as [[[t c] d] E].
    unfold parse_clasificacion. rewrite E. unfold validar_tipo.
    destruct (str_in t TIPOS_DOCUMENTO) eqn:Hin.
    + apply str_in_In in Hin. exists t, t, c, d.
      repeat split; auto. intros Hn. contradiction.
    + exists t, Otro, c, d. repeat split; auto.
      * apply str_in_In. reflexivity.
      * intros Hi. apply str_in_In in Hi. congruence.
  - intros Hall. unfold parse_clasificacion.
    rewrite (parse_lines_unrecognized _ _ Hall). reflexivity.
Qed.

Definition sample_free_text : str := Eval cbv in py "hola" ++ NL ++ py "mundo".

Lemma parse_clasificacion_total_witness :
  Forall (fun line => recognized (H := latin1) line = false)
         (split 10%N (strip sample_free_text)) /\
  parse_clasificacion (H := latin1) sample_free_text
    = Ok (Otro, baja, sample_free_text).
Proof.
  assert (Hall : Forall (fun line => recognized (H := latin1) line = false)
                        (split 10%N (strip sample_free_text))).
  { vm_compute. repeat constructor. }
  split; [exact Hall|].
  apply (parse_clasificacion_total (H := latin1) sample_free_text). exact Hall.
Defined.

(** ** The confidence of a parsed record *)

Section Confianza.
Context `{Unicode}.

(** A line whose value the loop stores as the confidence. *)
Definition confianza_line (line : str) : bool :=
  startswith (upper line) KEY_CONFIANZA.

Lemma not_tipo_if_confianza (s : str) :
  startswith s KEY_CONFIANZA = true -> startswith s KEY_TIPO = false.
Proof.
  unfold KEY_CONFIANZA, KEY_TIPO.
  destruct s as [|c s]; cbn [startswith]; [reflexivity|].
  destruct (67 =? c)%N eqn:E; [|discriminate].
  apply N.eqb_eq in E. subst c. intros _. reflexivity.
Qed.

Lemma parse_line_confianza (tipo confianza descripcion line k v : str) :
  confianza_line line = true -> line = k ++ COLON :: v -> ~ In COLON k ->
  parse_line (tipo, confianza, descripcion) line
    = Ok (tipo, lower (strip v), descripcion).
Proof.
  unfold confianza_line, parse_line. intros Hc -> Hk.
  rewrite (not_tipo_if_confianza _ Hc), Hc, (split1_cut COLON k v Hk).
  reflexivity.
Qed.

Lemma parse_line_keeps_confianza (t c d t' c' d' line : str) :
  confianza_line line = false ->
  parse_line (t, c, d) line = Ok (t', c', d') -> c' = c.
Proof.
  unfold confianza_line, parse_line. intros ->.
  repeat match goal with
         | |- context [if ?x then _ else _] => destruct x
         | |- context [match index ?l ?i with _ => _ end] =>
           destruct (index l i)
         end; intros E; inversion E; reflexivity.
Qed.

Lemma parse_lines_keeps_confianza (lines : list str) (t c d t' c' d' : str) :
  Forall (fun line => confianza_line line = false) lines ->
  parse_lines (t, c, d) lines = Ok (t', c', d') -> c' = c.
Proof.
  intros Hall. revert t c d.
  induction Hall as [|line rest Hl _ IH]; intros t c d; cbn [parse_lines].
  - intros E. now inversion E.
  - destruct (parse_line (t, c, d) line) as [[[t1 c1] d1]|e] eqn:E1;
      cbn iota; [|intros E; discriminate E].
    intros E. rewrite (IH _ _ _ E).
    exact (parse_line_keeps_confianza _ _ _ _ _ _ _ Hl E1).
Qed.

Lemma parse_lines_app (l1 l2 : list str) (st : clasificacion) :
  parse_lines st (l1 ++ l2) =
  match parse_lines st l1 with
  | Ok st' => parse_lines st' l2
  | Raise e => Raise e
  end.
Proof.
  revert st. induction l1 as [|line l1 IH]; intros st; simpl; [reflexivity|].
  destruct (parse_line st line); [apply IH | reflexivity].
Qed.

Lemma validar_tipo_confianza (t c d : str) :
  exists t', validar_tipo (t, c, d) = (t', c, d).
Proof. unfold validar_tipo. eauto. Qed.

End Confianza.

(** On ASCII text the parser does not depend on the case tables. *)
Lemma Forall_lstrip (P : N -> Prop) (s : str) : Forall P s -> Forall P (lstrip s).
Proof.
  induction 1 as [|c s Hc Hs IH]; simpl; [constructor|].
  destruct (isspace c); [exact IH | now constructor].
Qed.

Lemma Forall_strip (P : N -> Prop) (s : str) : Forall P s -> Forall P (strip s).
Proof.
  intros Hs. unfold strip, rstrip.
  apply Forall_rev, Forall_lstrip, Forall_rev, Forall_lstrip, Hs.
Qed.

Lemma Forall_split (P : N -> Prop) (sep : N) (s : str) :
  Forall P s -> Forall (Forall P) (split sep s).
Proof.
  induction 1 as [|c s Hc Hs IH]; simpl; [repeat constructor|].
  destruct (c =? sep)%N; [now constructor|].
  destruct (split sep s) as [|l ls]; [repeat constructor; assumption|].
  inversion IH; subst. constructor; [now constructor | assumption].
Qed.

Lemma Forall_value (P : N -> Prop) (line v : str) :
  Forall P line -> index (split1 COLON line) 1 = Ok v -> Forall P v.
Proof.
  induction 1 as [|c s Hc Hs IH]; simpl; [discriminate|].
  destruct (c =? COLON)%N.
  - intros E. inversion E. now subst.
  - destruct (split1 COLON s) as [|l ls]; [discriminate|]. exact IH.
Qed.

Definition is_ascii (s : str) : Prop := Forall (fun c => (c < 128)%N) s.

Lemma parse_line_ascii (U1 U2 : Unicode) (st : clasificacion) (line : str) :
  is_ascii line -> @parse_line U1 st line = @parse_line U2 st line.
Proof.
  intros Ha. destruct st as [[t c] d]. unfold parse_line.
  rewrite (@upper_ascii_str U1 line Ha), (@upper_ascii_str U2 line Ha).
  destruct (index (split1 COLON line) 1) as [v|e] eqn:E; [|reflexivity].
  pose proof (Forall_strip _ _ (Forall_value _ _ _ Ha E)) as Hv.
  now rewrite (@lower_ascii U1 _ Hv), (@lower_ascii U2 _ Hv).
Qed.

Lemma parse_lines_ascii (U1 U2 : Unicode) (lines : list str)
      (st : clasificacion) :
  Forall is_ascii lines -> @parse_lines U1 st lines = @parse_lines U2 st lines.
Proof.
  intros Hall. revert st.
  induction Hall as [|line rest Hl _ IH]; intros st; simpl; [reflexivity|].
  rewrite (parse_line_ascii U1 U2 st line Hl).
  destruct (@parse_line U2 st line); [apply IH | reflexivity].
Qed.

Lemma parse_clasificacion_ascii (U1 U2 : Unicode) (texto : str) :
  is_ascii texto ->
  @parse_clasificacion U1 texto = @parse_clasificacion U2 texto.
Proof.
  intros Ha. unfold parse_clasificacion.
  now rewrite (parse_lines_ascii U1 U2 _ _
                 (Forall_split _ 10%N _ (Forall_strip _ _ Ha))).
Qed.

Definition sample_quizas : str := Eval cbv in py "CONFIANZA: quizas".
Definition quizas : str := Eval cbv in py "quizas".

(** C4 as stated fails: a CONFIANZA line with a value outside
    alta/media/baja is parsed to a record whose confidence is that value,
    not baja. *)
Lemma parse_clasificacion_confianza_unchecked :
  parse_clasificacion (H := latin1) sample_quizas
    = Ok (Otro, quizas, sample_quizas) /\
  ~ In quizas [alta; media; baja].
Proof.
  split; [vm_compute; reflexivity|].
  intros [E|[E|[E|[]]]]; discriminate E.
Qed.

(** The same holds whatever the case tables are. *)
Lemma parse_clasificacion_confianza_unchecked_any (U : Unicode) :
  @parse_clasificacion U sample_quizas = Ok (Otro, quizas, sample_quizas).
Proof.
  rewrite (parse_clasificacion_ascii U latin1).
  - vm_compute. reflexivity.
  - unfold is_ascii, sample_quizas. repeat constructor.
Qed.

(** C4, amended: the confidence is baja when the text has no CONFIANZA
    line; when it has one, the confidence is the text after the first colon
    of the last CONFIANZA line, trimmed and in lower case, whatever that
    text is. *)
Theorem parse_clasificacion_confianza `{Unicode} (texto : str) :
  (Forall (fun line => confianza_line line = false)
          (split 10%N (strip texto)) ->
   exists tipo descripcion,
     parse_clasificacion texto = Ok (tipo, baja, descripcion)) /\
  (forall pre line post k v,
     split 10%N (strip texto) = pre ++ line :: post ->
     confianza_line line = true ->
     Forall (fun l => confianza_line l = false) post ->
     line = k ++ COLON :: v -> ~ In COLON k ->
     exists tipo descripcion,
       parse_clasificacion texto = Ok (tipo, lower (strip v), descripcion)).
Proof.
  split.
  - intros Hall.
    destruct (parse_lines_total (split 10%N (strip texto)) (Otro, baja, texto))
      as [[[t c] d] E].
    pose proof (parse_lines_keeps_confianza _ _ _ _ _ _ _ Hall E) as ->.
    unfold parse_clasificacion. rewrite E.
    destruct (validar_tipo_confianza t baja d) as [t' ->]. eauto.
  - intros pre line post k v Hsplit Hline Hpost Hk Hn.
    unfold parse_clasificacion. rewrite Hsplit, parse_lines_app.
    destruct (parse_lines_total pre (Otro, baja, texto)) as [[[t0 c0] d0] E0].
    rewrite E0. cbn [parse_lines].
    rewrite (parse_line_confianza t0 c0 d0 line k v Hline Hk Hn).
    destruct (parse_lines_total post (t0, lower (strip v), d0))
      as [[[t1 c1] d1] E1].
    pose proof (parse_lines_keeps_confianza _ _ _ _ _ _ _ Hpost E1) as ->.
    rewrite E1. destruct (validar_tipo_confianza t1 (lower (strip v)) d1)
      as [t' ->]. eauto.
Qed.

Definition sample_dos_confianzas : str := Eval cbv in
  py "CONFIANZA: baja" ++ NL ++ py "confianza:  ALTA " ++ NL ++ py "fin".

Lemma parse_clasificacion_confianza_witness :
  (exists tipo descripcion,
     parse_clasificacion (H := latin1) sample_free_text
       = Ok (tipo, baja, descripcion)) /\
  (exists tipo descripcion,
     parse_clasificacion (H := latin1) sample_dos_confianzas
       = Ok (tipo, alta, descripcion)).
Proof.
  split.
  - apply (parse_clasificacion_confianza (H := latin1) sample_free_text).
    vm_compute. repeat constructor.
  - change alta with (lower (Unicode := latin1) (strip (py "  ALTA "))).
    apply (proj2 (parse_clasificacion_confianza (H := latin1)
                    sample_dos_confianzas)
                 [py "CONFIANZA: baja"] (py "confianza:  ALTA ") [py "fin"]
                 (py "confianza") (py "  ALTA ")).
    + vm_compute. reflexivity.
    + vm_compute. reflexivity.
    + vm_compute. repeat constructor.
    + vm_compute. reflexivity.
    + vm_compute. intros Hin.
      repeat (destruct Hin as [Hin|Hin]; [discriminate Hin|]). exact Hin.
Defined.

(** ** Parsing a rendered record *)

(** Modelled from the spec: the rendering of a record as text, which the
    source does not have. The lines are those PROMPT_CLASIFICACION asks the
    model for: TIPO: t, CONFIANZA: c, DESCRIPCION: d. *)
Definition render (r : clasificacion) : str :=
  let '(tipo, confianza, descripcion) := r in
  KEY_TIPO ++ [32%N] ++ tipo ++ NL
  ++ KEY_CONFIANZA ++ [32%N] ++ confianza ++ NL
  ++ KEY_DESCRIPCION ++ [32%N] ++ descripcion.

Definition sample_dos_lineas : clasificacion := (Otro, baja, sample_free_text).

(** C8 as stated fails: a text of two lines without keys parses to a record
    whose description is the whole text; rendered and parsed again, the
    description is the first line only. *)
Lemma parse_render_not_idempotent :
  parse_clasificacion (H := latin1) sample_free_text = Ok sample_dos_lineas /\
  parse_clasificacion (H := latin1) (render sample_dos_lineas)
    = Ok (Otro, baja, py "hola") /\
  py "hola" <> sample_free_text.
Proof.
  split; [vm_compute; reflexivity|].
  split; [vm_compute; reflexivity|].
  vm_compute. discriminate.
Qed.

Lemma lstrip_length (s : str) : List.length (lstrip s) <= List.length s.
Proof.
  induction s as [|c s IH]; simpl; [lia|].
  destruct (isspace c); simpl; lia.
Qed.

Lemma rstrip_length (s : str) : List.length (rstrip s) <= List.length s.
Proof.
  unfold rstrip. rewrite length_rev.
  pose proof (lstrip_length (rev s)) as Hl. now rewrite length_rev in Hl.
Qed.

Lemma lstrip_fixed (s : str) :
  List.length (lstrip s) = List.length s -> lstrip s = s.
Proof.
  destruct s as [|c s]; simpl; [reflexivity|].
  destruct (isspace c); [|reflexivity].
  pose proof (lstrip_length s). simpl. lia.
Qed.

(** A trimmed string is fixed by both halves of strip. *)
Lemma strip_fixed (s : str) : strip s = s -> lstrip s = s /\ rstrip s = s.
Proof.
  intros E. assert (Hl : lstrip s = s).
  { apply lstrip_fixed.
    pose proof (lstrip_length s). pose proof (rstrip_length (lstrip s)) as Hr.
    unfold strip in E. rewrite E in Hr. lia. }
  split; [exact Hl|]. unfold strip in E. now rewrite Hl in E.
Qed.

Lemma rstrip_snoc (s : str) (c : N) :
  rstrip (s ++ [c]) = if isspace c then rstrip s else s ++ [c].
Proof.
  unfold rstrip. rewrite rev_app_distr. simpl.
  destruct (isspace c); [reflexivity|].
  simpl. now rewrite rev_involutive.
Qed.

Lemma rstrip_last (s : str) :
  rstrip s = s -> s <> [] -> exists s' c, s = s' ++ [c] /\ isspace c = false.
Proof.
  intros E Hs. destruct (exists_last Hs) as [s' [c ->]].
  exists s', c. split; [reflexivity|].
  rewrite rstrip_snoc in E. destruct (isspace c); [|reflexivity].
  pose proof (rstrip_length s') as Hl. rewrite E, length_app in Hl.
  simpl in Hl. lia.
Qed.

Lemma rstrip_app_fixed (a s : str) :
  rstrip s = s -> s <> [] -> rstrip (a ++ s) = a ++ s.
Proof.
  intros E Hs. destruct (rstrip_last s E Hs) as [s' [c [-> Hc]]].
  rewrite app_assoc, rstrip_snoc, Hc. reflexivity.
Qed.

Lemma strip_after_space (s : str) : strip s = s -> strip (32%N :: s) = s.
Proof. intros E. exact E. Qed.

Lemma TIPOS_clean :
  Forall (fun t => strip t = t /\ forallb (fun x => negb (x =? 10)%N) t = true)
         TIPOS_DOCUMENTO.
Proof. repeat constructor. Qed.

Lemma no_newline (s : str) :
  forallb (fun x => negb (x =? 10)%N) s = true -> ~ In 10%N s.
Proof.
  rewrite forallb_forall. intros Hall Hin. specialize (Hall _ Hin).
  discriminate Hall.
Qed.

Section Render.
Context `{Unicode}.

Lemma parse_line_TIPO (t c d v : str) :
  parse_line (t, c, d) (KEY_TIPO ++ v) = Ok (strip v, c, d).
Proof.
  unfold parse_line. rewrite upper_app.
  rewrite (upper_ascii_str KEY_TIPO) by (repeat constructor).
  change (map ascii_toupper KEY_TIPO) with KEY_TIPO.
  rewrite startswith_app. reflexivity.
Qed.

Lemma parse_line_CONFIANZA (t c d v : str) :
  parse_line (t, c, d) (KEY_CONFIANZA ++ v) = Ok (t, lower (strip v), d).
Proof.
  unfold parse_line. rewrite upper_app.
  rewrite (upper_ascii_str KEY_CONFIANZA) by (repeat constructor).
  change (map ascii_toupper KEY_CONFIANZA) with KEY_CONFIANZA.
  rewrite (not_tipo_if_confianza _ (startswith_app _ _)), startswith_app.
  reflexivity.
Qed.

Lemma parse_line_DESCRIPCION (t c d v : str) :
  parse_line (t, c, d) (KEY_DESCRIPCION ++ v) = Ok (t, c, strip v).
Proof.
  unfold parse_line. rewrite upper_app.
  rewrite (upper_ascii_str KEY_DESCRIPCION) by (repeat constructor).
  change (map ascii_toupper KEY_DESCRIPCION) with KEY_DESCRIPCION.
  rewrite startswith_app. reflexivity.
Qed.

(** The three lines of a rendered record, as the parser cuts them. *)
Lemma split_render (t c d : str) :
  ~ In 10%N t -> ~ In 10%N c -> ~ In 10%N d -> strip d = d ->
  exists v, strip v = d /\
    split 10%N (strip (render (t, c, d)))
    = [KEY_TIPO ++ 32%N :: t; KEY_CONFIANZA ++ 32%N :: c;
       KEY_DESCRIPCION ++ v].
Proof.
  intros Ht Hc Hd Hs.
  assert (Hcut : forall v, ~ In 10%N v ->
    split 10%N ((KEY_TIPO ++ 32%N :: t) ++ 10%N ::
                (KEY_CONFIANZA ++ 32%N :: c) ++ 10%N :: KEY_DESCRIPCION ++ v)
    = [KEY_TIPO ++ 32%N :: t; KEY_CONFIANZA ++ 32%N :: c;
       KEY_DESCRIPCION ++ v]).
  { intros v Hv. rewrite split_cut, split_cut, split_single; auto.
    - intros Hin. apply in_app_or in Hin. destruct Hin as [Hin|Hin]; auto.
      cbv in Hin. repeat (destruct Hin as [Hin|Hin]; [discriminate Hin|]).
      exact Hin.
    - intros Hin. apply in_app_or in Hin. destruct Hin as [Hin|[Hin|Hin]];
        auto; [|discriminate Hin].
      cbv in Hin. repeat (destruct Hin as [Hin|Hin]; [discriminate Hin|]).
      exact Hin.
    - intros Hin. apply in_app_or in Hin. destruct Hin as [Hin|[Hin|Hin]];
        auto; [|discriminate Hin].
      cbv in Hin. repeat (destruct Hin as [Hin|Hin]; [discriminate Hin|]).
      exact Hin. }
  destruct (strip_fixed d Hs) as [_ Hr].
  destruct d as [|x d'].
  - exists []. split; [reflexivity|]. rewrite <- (Hcut [] (fun F => F)).
    f_equal. unfold render, strip.
    change (lstrip (KEY_TIPO ++ [32%N] ++ t ++ NL ++ KEY_CONFIANZA ++ [32%N]
                    ++ c ++ NL ++ KEY_DESCRIPCION ++ [32%N] ++ []))
      with (KEY_TIPO ++ [32%N] ++ t ++ NL ++ KEY_CONFIANZA ++ [32%N]
            ++ c ++ NL ++ KEY_DESCRIPCION ++ [32%N]).
    replace (KEY_TIPO ++ [32%N] ++ t ++ NL ++ KEY_CONFIANZA ++ [32%N]
             ++ c ++ NL ++ KEY_DESCRIPCION ++ [32%N])
      with (((KEY_TIPO ++ 32%N :: t) ++ 10%N ::
             (KEY_CONFIANZA ++ 32%N :: c) ++ 10%N :: py "DESCRIPCION")
              ++ [58%N] ++ [32%N]).
    + rewrite app_assoc, rstrip_snoc. change (isspace 32) with true.
      rewrite rstrip_snoc. change (isspace 58) with false.
      unfold NL. repeat (rewrite <- app_assoc; cbn [app]). reflexivity.
    + unfold NL. repeat (rewrite <- app_assoc; cbn [app]). reflexivity.
  - exists (32%N :: x :: d'). split; [exact Hs|].
    rewrite <- (Hcut (32%N :: x :: d')).
    + f_equal. unfold render, strip.
      change (lstrip (KEY_TIPO ++ [32%N] ++ t ++ NL ++ KEY_CONFIANZA ++ [32%N]
                      ++ c ++ NL ++ KEY_DESCRIPCION ++ [32%N] ++ x :: d'))
        with (KEY_TIPO ++ [32%N] ++ t ++ NL ++ KEY_CONFIANZA ++ [32%N]
              ++ c ++ NL ++ KEY_DESCRIPCION ++ [32%N] ++ x :: d').
      replace (KEY_TIPO ++ [32%N] ++ t ++ NL ++ KEY_CONFIANZA ++ [32%N]
               ++ c ++ NL ++ KEY_DESCRIPCION ++ [32%N] ++ x :: d')
        with (((KEY_TIPO ++ 32%N :: t) ++ 10%N ::
               (KEY_CONFIANZA ++ 32%N :: c) ++ 10%N ::
               KEY_DESCRIPCION ++ [32%N]) ++ x :: d').
      * rewrite rstrip_app_fixed by (auto; discriminate).
        unfold NL. repeat (rewrite <- app_assoc; cbn [app]). reflexivity.
      * unfold NL. repeat (rewrite <- app_assoc; cbn [app]). reflexivity.
    + intros [Hin|Hin]; [discriminate Hin | auto].
Qed.

End Render.

(** C8, amended: parsing the rendering of a record gives the record back
    when its tipo is an entry of TIPOS_DOCUMENTO, its confidence is a
    trimmed single line that lower-casing leaves unchanged, and its
    description is a trimmed single line. *)
Theorem parse_render `{Unicode} (tipo confianza descripcion : str) :
  In tipo TIPOS_DOCUMENTO ->
  strip confianza = confianza -> ~ In 10%N confianza ->
  lower confianza = confianza ->
  strip descripcion = descripcion -> ~ In 10%N descripcion ->
  parse_clasificacion (render (tipo, confianza, descripcion))
    = Ok (tipo, confianza, descripcion).
Proof.
  intros Ht Hc Hcn Hcl Hd Hdn.
  pose proof (proj1 (Forall_forall _ _) TIPOS_clean tipo Ht) as [Hts Htn].
  apply no_newline in Htn.
  destruct (split_render tipo confianza descripcion Htn Hcn Hdn Hd)
    as [v [Hv Hsplit]].
  unfold parse_clasificacion. rewrite Hsplit. cbn [parse_lines].
  rewrite parse_line_TIPO, parse_line_CONFIANZA, parse_line_DESCRIPCION.
  rewrite (strip_after_space tipo Hts), (strip_after_space confianza Hc).
  rewrite Hcl, Hv. unfold validar_tipo.
  apply str_in_In in Ht. now rewrite Ht.
Qed.

Lemma parse_render_witness :
  parse_clasificacion (H := latin1)
    (render (py "Factura", alta, py "recibo del proveedor"))
  = Ok (py "Factura", alta, py "recibo del proveedor").
Proof.
  apply (parse_render (H := latin1)).
  - vm_compute. tauto.
  - vm_compute. reflexivity.
  - apply no_newline. vm_compute. reflexivity.
  - vm_compute. reflexivity.
  - vm_compute. reflexivity.
  - apply no_newline. vm_compute. reflexivity.
Defined.

(** ** Runs of the handlers *)

(** A scripted world: the k-th call to the LLM answers with the k-th entry
    of [answers] (an empty content when there is none), pdf2image yields
    [pages], and every other collaborator succeeds with a fixed value. *)
Definition llm_calls (h : trace) : trace :=
  filter (fun ev => match ev with LLM_chat _ _ => true | _ => false end) h.

Definition tts_calls (h : trace) : trace :=
  filter (fun ev => match ev with TTS_synthesize _ _ _ => true | _ => false end)
         h.

Definition ok_response {J} (j : J) : Response J :=
  {| status_code := 200; text := []; body := j |}.

Definition sample_wav : bytes := Eval cbv in bytes_of "RIFF....WAVE".
Definition sample_ogg : bytes := Eval cbv in bytes_of "OggS".
Definition hola : str := Eval cbv in py "hola".
Definition sample_transcript : SttJson :=
  {| stt_texto := Some hola; stt_idioma := None |}.

(** The defaults of the configuration. *)
Definition default_LLM_MODEL : str := Eval cbv in py "qwen2.5:7b".
Definition default_LLM_IMG_MODEL : str := Eval cbv in py "llava:7b".
Definition default_SYSTEM_PROMPT : str := Eval cbv in
  py "Eres un asistente útil. Responde de forma concisa.".

Definition scripted (pages : list bytes) (answers : list str) : World :=
  {| LLM_MODEL := default_LLM_MODEL;
     LLM_IMG_MODEL := default_LLM_IMG_MODEL;
     SYSTEM_PROMPT := default_SYSTEM_PROMPT;
     stt_post := fun _ _ _ => Returned (ok_response (Returned sample_transcript));
     llm_post := fun h _ =>
       Returned (ok_response
                   (Returned (nth_error answers (List.length (llm_calls h)))));
     tts_post := fun _ _ _ => Returned (ok_response sample_wav);
     ffmpeg_run := fun _ _ => Returned sample_ogg;
     libreoffice_run := fun _ _ _ =>
       Returned {| returncode := 0; stderr := [];
                   output_pdf := Some sample_pdf |};
     convert_from_bytes := fun _ _ => Returned pages |}.

Definition upload (data : bytes) : UploadFile :=
  {| filename := None; file_content := data |}.

Definition page1 : bytes := SIG_PNG ++ [x01].
Definition page2 : bytes := SIG_PNG ++ [x02].
Definition page3 : bytes := SIG_PNG ++ [x03].

(** ** Validation comes before any call *)

Definition unsupported (file_type : str) : Prop :=
  file_type = T_zip \/ file_type = T_unknown.

(** C6: an empty upload, or a chat text that is empty once trimmed, is
    answered with a 400 and the trace of the run is empty: no collaborator
    was called. On /document and /classify a buffer detected as zip or
    unknown is answered with a 400 in the same way. *)
Theorem validation_before_calls `{Unicode} (W : World) :
  (forall request, strip (req_texto request) = [] ->
     run (chat W request) = (Raise (HTTPException 400 D_texto_vacio), [])) /\
  (forall audio, file_content audio = [] ->
     run (voice W audio) = (Raise (HTTPException 400 D_audio_vacio), [])) /\
  (forall imagen prompt idioma, file_content imagen = [] ->
     run (image W imagen prompt idioma)
     = (Raise (HTTPException 400 D_imagen_vacia), [])) /\
  (forall archivo prompt idioma, file_content archivo = [] ->
     run (document W archivo prompt idioma)
     = (Raise (HTTPException 400 D_archivo_vacio), [])) /\
  (forall archivo idioma, file_content archivo = [] ->
     run (classify W archivo idioma)
     = (Raise (HTTPException 400 D_archivo_vacio), [])) /\
  (forall archivo prompt idioma,
     file_content archivo <> [] ->
     unsupported (detect_file_type (file_content archivo)) ->
     run (document W archivo prompt idioma)
     = (Raise (HTTPException 400 D_no_soportado), [])) /\
  (forall archivo idioma,
     file_content archivo <> [] ->
     unsupported (detect_file_type (file_content archivo)) ->
     run (classify W archivo idioma)
     = (Raise (HTTPException 400 D_no_soportado), [])).
Proof.
  repeat apply conj.
  - intros request E. unfold run, chat. now rewrite E.
  - intros audio E. unfold run, voice, endpoint. now rewrite E.
  - intros imagen prompt idioma E. unfold run, image, endpoint. now rewrite E.
  - intros archivo prompt idioma E. unfold run, document, endpoint.
    now rewrite E.
  - intros archivo idioma E. unfold run, classify, endpoint. now rewrite E.
  - intros archivo prompt idioma Hne Hu. unfold run, document, endpoint.
    destruct (file_content archivo) as [|x l] eqn:E; [contradiction|].
    cbn [is_empty]. destruct Hu as [-> | ->]; reflexivity.
  - intros archivo idioma Hne Hu. unfold run, classify, endpoint.
    destruct (file_content archivo) as [|x l] eqn:E; [contradiction|].
    cbn [is_empty]. destruct Hu as [-> | ->]; reflexivity.
Qed.

Lemma validation_before_calls_witness :
  run (chat (scripted [] [])
            {| req_texto := py "   "; req_idioma := None;
               req_system_prompt := None |})
  = (Raise (HTTPException 400 D_texto_vacio), []) /\
  run (voice (scripted [] []) (upload []))
  = (Raise (HTTPException 400 D_audio_vacio), []) /\
  run (image (scripted [] []) (upload []) IMAGE_PROMPT es)
  = (Raise (HTTPException 400 D_imagen_vacia), []) /\
  run (document (scripted [] []) (upload []) DOCUMENT_PROMPT es)
  = (Raise (HTTPException 400 D_archivo_vacio), []) /\
  run (classify (H := latin1) (scripted [] []) (upload []) es)
  = (Raise (HTTPException 400 D_archivo_vacio), []) /\
  run (document (scripted [] []) (upload sample_zip)
                DOCUMENT_PROMPT es)
  = (Raise (HTTPException 400 D_no_soportado), []) /\
  run (classify (H := latin1) (scripted [] []) (upload sample_riff_short) es)
  = (Raise (HTTPException 400 D_no_soportado), []).
Proof.
  repeat apply conj.
  - apply (validation_before_calls (H := latin1) (scripted [] [])).
    reflexivity.
  - apply (validation_before_calls (H := latin1) (scripted [] [])).
    reflexivity.
  - apply (validation_before_calls (H := latin1) (scripted [] [])).
    reflexivity.
  - apply (validation_before_calls (H := latin1) (scripted [] [])).
    reflexivity.
  - apply (validation_before_calls (H := latin1) (scripted [] [])).
    reflexivity.
  - apply (validation_before_calls (H := latin1) (scripted [] []));
      [discriminate | left; reflexivity].
  - apply (validation_before_calls (H := latin1) (scripted [] []));
      [discriminate | right; reflexivity].
Defined.

(** ** The fields of a reply *)

Definition reply_fields : list string :=
  ["texto"%string; "audio_b64"%string; "idioma"%string].

(** The keys of a reply besides texto, audio_b64 and idioma. *)
Definition extra_fields (ks : list string) : list string :=
  filter (fun k => negb (existsb (String.eqb k) reply_fields)) ks.

Definition sample_classified : ClassifyResponse.t :=
  {| ClassifyResponse.tipo_documento := Otro;
     ClassifyResponse.confianza := baja;
     ClassifyResponse.descripcion := hola;
     ClassifyResponse.texto := S_identificado ++ Otro ++ S_dot_sp ++ hola;
     ClassifyResponse.audio_b64 := b64encode sample_ogg;
     ClassifyResponse.idioma := es |}.

(** C7 as stated fails: the reply of /classify, here the one the scripted
    run produces, has three fields besides the common three, not two. *)
Lemma classify_reply_extra_fields :
  run (classify (H := latin1) (scripted [] [hola]) (upload sample_png) es)
  = (Ok sample_classified,
     [ LLM_chat (vision_payload (scripted [] [hola])
                                (image_to_base64 sample_png)
                                PROMPT_CLASIFICACION None)
                (Returned (ok_response (Returned (Some hola))));
       TTS_synthesize (S_identificado ++ Otro ++ S_dot_sp ++ hola) es
                      (Returned (ok_response sample_wav));
       Ffmpeg sample_wav (Returned sample_ogg) ]) /\
  List.length (extra_fields (keys (ClassifyResponse.model_dump
                                     sample_classified))) = 3 /\
  3 <> 2.
Proof.
  split; [vm_compute; reflexivity|]. split; [reflexivity | discriminate].
Qed.

(** C7, amended: the reply of /chat, /voice, /image and /document is a
    ChatResponse, whose fields are exactly texto, audio_b64 and idioma; the
    reply of /classify is a ClassifyResponse, which has these three and
    exactly three more: tipo_documento, confianza and descripcion. *)
Theorem reply_fields_of_every_path :
  (forall r : ChatResponse.t,
     keys (ChatResponse.model_dump r) = reply_fields) /\
  (forall r : ClassifyResponse.t,
     incl reply_fields (keys (ClassifyResponse.model_dump r)) /\
     extra_fields (keys (ClassifyResponse.model_dump r))
     = ["tipo_documento"%string; "confianza"%string; "descripcion"%string]).
Proof.
  split; [reflexivity|]. intros r. split; [|reflexivity].
  intros k Hk. cbn in Hk |- *. tauto.
Qed.

(** ** Successful runs, step by step *)

Lemma bind_ok {A B} (m : M A) (f : A -> M B) (h h' : trace) (y : B) :
  bind m f h = (Ok y, h') ->
  exists a h1, m h = (Ok a, h1) /\ f a h1 = (Ok y, h').
Proof.
  unfold bind. destruct (m h) as [[a|e] h1]; intros E.
  - now exists a, h1.
  - discriminate E.
Qed.

Lemma endpoint_ok {A} (label : str) (m : M A) (h h' : trace) (a : A) :
  endpoint label m h = (Ok a, h') -> m h = (Ok a, h').
Proof.
  unfold endpoint. destruct (m h) as [[x|[code d|msg]] h1]; intros E;
    try discriminate E; exact E.
Qed.

Lemma call_ok {A} (oracle : trace -> outcome A) (log : outcome A -> event)
      (h h' : trace) (a : A) :
  call oracle log h = (Ok a, h') ->
  oracle h = Returned a /\ h' = h ++ [log (Returned a)].
Proof.
  unfold call. destruct (oracle h) as [x|msg]; intros E; inversion E.
  now subst.
Qed.

(** The content a call to the LLM gave, when it gave one. *)
Definition answer_of (r : outcome (Response (outcome (option str))))
  : option str :=
  match r with
  | Returned resp =>
    if (status_code resp =? 200)%Z
    then match body resp with
         | Returned c => Some (get c [])
         | Failed _ => None
         end
    else None
  | Failed _ => None
  end.

(** The call of the vision model on one image. *)
Definition vision_call (W : World) (img : bytes) (prompt : str)
           (r : outcome (Response (outcome (option str)))) : event :=
  LLM_chat (vision_payload W (image_to_base64 img) prompt None) r.

Lemma call_llm_vision_ok (W : World) (img : bytes) (prompt : str)
      (h h' : trace) (a : str) :
  call_llm_vision W (image_to_base64 img) prompt None h = (Ok a, h') ->
  exists r, h' = h ++ [vision_call W img prompt r] /\ answer_of r = Some a.
Proof.
  unfold call_llm_vision. intros E.
  apply bind_ok in E. destruct E as [resp [h1 [Hc E]]].
  apply call_ok in Hc. destruct Hc as [_ ->].
  exists (Returned resp). split.
  - destruct (status_code resp =? 200)%Z; [|discriminate E].
    cbn [negb] in E. destruct (body resp); [|discriminate E].
    inversion E. reflexivity.
  - unfold answer_of. destruct (status_code resp =? 200)%Z; [|discriminate E].
    cbn [negb] in E. destruct (body resp); [|discriminate E].
    inversion E. reflexivity.
Qed.

(** The end of every handler: synthesis, then conversion to OGG. *)
Lemma speak_ok {A} (W : World) (texto idioma : str) (mk : str -> A)
      (h h' : trace) (reply : A) :
  (wav_bytes <- call_tts W texto idioma ;;
   audio_b64 <- wav_to_ogg_base64 W wav_bytes ;;
   ret (mk audio_b64)) h = (Ok reply, h') ->
  exists resp ogg,
    h' = h ++ [TTS_synthesize texto idioma (Returned resp);
               Ffmpeg (body resp) (Returned ogg)] /\
    reply = mk (b64encode ogg).
Proof.
  intros E. apply bind_ok in E. destruct E as [wav [h1 [Ht E]]].
  unfold call_tts in Ht. apply bind_ok in Ht.
  destruct Ht as [resp [h2 [Hc Ht]]]. apply call_ok in Hc.
  destruct Hc as [_ ->].
  destruct (negb (status_code resp =? 200)%Z); [discriminate Ht|].
  inversion Ht; subst wav h1. clear Ht.
  apply bind_ok in E. destruct E as [audio [h3 [Hf E]]].
  unfold wav_to_ogg_base64 in Hf. apply bind_ok in Hf.
  destruct Hf as [ogg [h4 [Hc Hf]]]. apply call_ok in Hc.
  destruct Hc as [_ ->]. inversion Hf; subst audio h3. clear Hf.
  inversion E. exists resp, ogg. rewrite <- app_assoc. auto.
Qed.

(** The calls and the texts of the loop over the pages, from page [i + 1]. *)
Fixpoint page_calls (W : World) (prompt : str) (i : nat) (images : list bytes)
         (replies : list (outcome (Response (outcome (option str))))) : trace :=
  match images, replies with
  | img :: images', r :: replies' =>
    vision_call W img (page_prompt (i + 1) prompt) r
    :: page_calls W prompt (S i) images' replies'
  | _, _ => []
  end.

Fixpoint page_texts (i : nat) (answers : list str) : list str :=
  match answers with
  | [] => []
  | a :: rest => page_result (i + 1) a :: page_texts (S i) rest
  end.

Lemma for_each_page_ok (W : World) (prompt : str) (images : list bytes) :
  forall (i : nat) (acc : list str) (h h' : trace) (rs : list str),
    for_each_page W prompt i images acc h = (Ok rs, h') ->
    exists replies answers,
      List.length replies = List.length images /\
      map answer_of replies = map Some answers /\
      h' = h ++ page_calls W prompt i images replies /\
      rs = acc ++ page_texts i answers.
Proof.
  induction images as [|img rest IH]; intros i acc h h' rs E.
  - inversion E. exists [], []. cbn. now rewrite !app_nil_r.
  - cbn [for_each_page] in E. apply bind_ok in E.
    destruct E as [a [h1 [Hv E]]].
    apply call_llm_vision_ok in Hv. destruct Hv as [r [-> Ha]].
    apply IH in E. destruct E as [replies [answers [Hl [Hm [-> ->]]]]].
    exists (r :: replies), (a :: answers). cbn.
    rewrite Hl, Ha, Hm, <- !app_assoc. auto.
Qed.

Lemma llm_calls_page_calls (W : World) (prompt : str) (images : list bytes) :
  forall i replies,
    llm_calls (page_calls W prompt i images replies)
    = page_calls W prompt i images replies.
Proof.
  induction images as [|img rest IH]; intros i [|r replies]; cbn;
    try reflexivity.
  unfold llm_calls in IH. now rewrite IH.
Qed.

Lemma tts_calls_page_calls (W : World) (prompt : str) (images : list bytes) :
  forall i replies, tts_calls (page_calls W prompt i images replies) = [].
Proof.
  induction images as [|img rest IH]; intros i [|r replies]; cbn;
    try reflexivity.
  apply IH.
Qed.

(** The conversion of Office files: nothing for another type, one run of
    LibreOffice for an Office type, which then counts as a PDF. *)
Lemma normalize_office_ok (W : World) (file_bytes : bytes) (file_type : str)
      (h h' : trace) (file_bytes' : bytes) (file_type' : str) :
  normalize_office W file_bytes file_type h = (Ok (file_bytes', file_type'), h')
  -> (str_in file_type OFFICE_TYPES = false /\
      file_bytes' = file_bytes /\ file_type' = file_type /\ h' = h)
     \/
     (str_in file_type OFFICE_TYPES = true /\ file_type' = T_pdf /\
      exists res,
        output_pdf res = Some file_bytes' /\
        h' = h ++ [LibreOffice (dict_get extensions file_type EXT_docx)
                               file_bytes (Returned res)]).
Proof.
  unfold normalize_office. destruct (str_in file_type OFFICE_TYPES).
  - intros E. right. apply bind_ok in E. destruct E as [pdf [h1 [Ho E]]].
    inversion E; subst. clear E. unfold office_to_pdf in Ho.
    apply bind_ok in Ho. destruct Ho as [res [h2 [Hc Ho]]].
    apply call_ok in Hc. destruct Hc as [_ ->].
    destruct (negb (returncode res =? 0)%Z); [discriminate Ho|].
    destruct (output_pdf res) eqn:Eo; [|discriminate Ho]. inversion Ho; subst.
    repeat split; auto. exists res. auto.
  - intros E. left. inversion E; subst. auto.
Qed.

Lemma office_not_image (file_type : str) :
  str_in file_type OFFICE_TYPES = true -> str_in file_type IMAGE_TYPES = false.
Proof.
  intros Ho. apply str_in_In in Ho.
  repeat (destruct Ho as [<- | Ho]; [reflexivity|]). destruct Ho.
Qed.

Lemma tts_calls_app (h1 h2 : trace) :
  tts_calls (h1 ++ h2) = tts_calls h1 ++ tts_calls h2.
Proof. apply filter_app. Qed.

Lemma llm_calls_app (h1 h2 : trace) :
  llm_calls (h1 ++ h2) = llm_calls h1 ++ llm_calls h2.
Proof. apply filter_app. Qed.

(** What precedes the analysis in /document and /classify: the upload is
    not empty, and an Office file has been converted. *)
Lemma normalized (W : World) (data : bytes) (h1 : trace) (fb : bytes)
      (ft : str) :
  normalize_office W data (detect_file_type data) [] = (Ok (fb, ft), h1) ->
  tts_calls h1 = [] /\ llm_calls h1 = [] /\
  (ft = T_pdf \/ ft = detect_file_type data /\ fb = data /\ h1 = []) /\
  (ft = T_pdf -> str_in (detect_file_type data) IMAGE_TYPES = false).
Proof.
  intros Hn. apply normalize_office_ok in Hn.
  destruct Hn as [[Hno [-> [-> ->]]] | [Hof [-> [res [_ ->]]]]].
  - repeat split; auto. intros E. rewrite E. reflexivity.
  - repeat split; auto. intros _. now apply office_not_image.
Qed.

(** A successful run of /document: the calls before the synthesis, and
    what they were. *)
Lemma document_ok (W : World) (archivo : UploadFile) (prompt idioma : str)
      (reply : ChatResponse.t) (tr : trace) :
  run (document W archivo prompt idioma) = (Ok reply, tr) ->
  exists front resp ogg,
    tr = front ++ [TTS_synthesize (ChatResponse.texto reply) idioma
                                  (Returned resp);
                   Ffmpeg (body resp) (Returned ogg)] /\
    ChatResponse.idioma reply = idioma /\
    ChatResponse.audio_b64 reply = b64encode ogg /\
    tts_calls front = [] /\
    ((str_in (detect_file_type (file_content archivo)) IMAGE_TYPES = false /\
      exists pdf images replies answers,
        In (Pdf2Image pdf (Returned images)) front /\
        images <> [] /\
        List.length replies = List.length images /\
        map answer_of replies = map Some answers /\
        llm_calls front = page_calls W prompt 0 images replies /\
        ChatResponse.texto reply = join (NL ++ NL) (page_texts 0 answers))
     \/
     (str_in (detect_file_type (file_content archivo)) IMAGE_TYPES = true /\
      exists r,
        front = [vision_call W (file_content archivo) prompt r] /\
        answer_of r = Some (ChatResponse.texto reply))).
Proof.
  unfold run, document. intros E. apply endpoint_ok in E.
  destruct (is_empty (file_content archivo)); [discriminate E|].
  apply bind_ok in E. destruct E as [[fb ft] [h1 [Hn E]]].
  apply bind_ok in E. destruct E as [texto [h2 [Hfront E]]].
  destruct (is_empty texto); [discriminate E|].
  apply speak_ok in E. destruct E as [resp [ogg [-> ->]]].
  exists h2, resp, ogg.
  cbn [ChatResponse.texto ChatResponse.idioma ChatResponse.audio_b64].
  repeat (split; [reflexivity|]).
  apply normalized in Hn. destruct Hn as [Ht [Hl [Hft Hni]]].
  destruct (str_eqb ft T_pdf) eqn:Epdf.
  - apply str_eqb_eq in Epdf. subst ft.
    apply bind_ok in Hfront. destruct Hfront as [images [h3 [Hp Hfront]]].
    unfold pdf_to_images in Hp. apply call_ok in Hp. destruct Hp as [_ ->].
    destruct images as [|img images]; [discriminate Hfront|].
    cbn [is_empty] in Hfront. apply bind_ok in Hfront.
    destruct Hfront as [rs [h4 [Hloop Hfront]]]. inversion Hfront; subst.
    apply for_each_page_ok in Hloop.
    destruct Hloop as [replies [answers [Hlen [Hm [-> ->]]]]].
    rewrite !tts_calls_app, !llm_calls_app, Ht, Hl.
    rewrite tts_calls_page_calls, llm_calls_page_calls.
    split; [reflexivity|]. left. split; [now apply Hni|].
    exists fb, (img :: images), replies, answers.
    repeat split; auto; [|discriminate].
    apply in_or_app. left. apply in_or_app. right. now left.
  - destruct Hft as [-> | [-> [-> ->]]]; [discriminate Epdf|].
    destruct (str_in (detect_file_type (file_content archivo)) IMAGE_TYPES)
      eqn:Eimg; [|discriminate Hfront].
    apply call_llm_vision_ok in Hfront. destruct Hfront as [r [-> Ha]].
    split; [reflexivity|]. right. split; [reflexivity|]. exists r. auto.
Qed.

(** ** Page by page *)



















Definition P1 : str := Eval cbv in py "P1".
Definition P2 : str := Eval cbv in py "P2".
Definition P3 : str := Eval cbv in py "P3".

Definition three_pages : World := scripted [page1; page2; page3] [P1; P2; P3].




(** The request of the sample runs for one picture, with the defaults of
    the configuration. *)
Definition sample_request_for (prompt : str) (picture : bytes)
  : ChatPayload :=
  {| model := default_LLM_IMG_MODEL;
     messages :=
       [ {| role := R_system; content := VISION_SYSTEM_PROMPT;
            images := None |};
         {| role := R_user; content := prompt;
            images := Some [b64encode picture] |} ];
     stream := false |}.


Definition one_image : World := scripted [] [hola].

Definition one_image_reply : ChatResponse.t :=
  {| ChatResponse.texto := hola;
     ChatResponse.audio_b64 := b64encode sample_ogg;
     ChatResponse.idioma := es |}.

Definition one_image_trace : trace :=
  [ LLM_chat (sample_request_for DOCUMENT_PROMPT sample_png)
             (Returned (ok_response (Returned (Some hola))));
    TTS_synthesize hola es (Returned (ok_response sample_wav));
    Ffmpeg sample_wav (Returned sample_ogg) ].




(** ** An empty answer *)

Definition one_empty_page : World := scripted [page1; page2] [[]; P2].

Definition one_empty_page_text : str := Eval cbv in
  py "--- Página 1 ---" ++ NL ++ [] ++ NL ++ NL ++
  py "--- Página 2 ---" ++ NL ++ P2.

(** C1 fails on the code: for a PDF of two pages whose first page the
    vision model answers with the empty string, /document does not raise
    the 500 [LLM Vision no generó respuesta]; it returns a reply whose text
    holds the header of page 1 over an empty body. *)
Theorem document_accepts_empty_page :
  run (document one_empty_page (upload sample_pdf) DOCUMENT_PROMPT es)
  = (Ok {| ChatResponse.texto := one_empty_page_text;
           ChatResponse.audio_b64 := b64encode sample_ogg;
           ChatResponse.idioma := es |},
     [ Pdf2Image sample_pdf (Returned [page1; page2]);
       vision_call one_empty_page page1 (page_prompt 1 DOCUMENT_PROMPT)
                   (Returned (ok_response (Returned (Some []))));
       vision_call one_empty_page page2 (page_prompt 2 DOCUMENT_PROMPT)
                   (Returned (ok_response (Returned (Some P2))));
       TTS_synthesize one_empty_page_text es
                      (Returned (ok_response sample_wav));
       Ffmpeg sample_wav (Returned sample_ogg) ]).
Proof. vm_compute. reflexivity. Qed.

(** The text gathered from the pages is never empty, whatever the answers:
    the test [if not respuesta_texto] cannot fire after the loop. *)
Lemma page_texts_not_empty (i : nat) (a : str) (rest : list str) :
  is_empty (join (NL ++ NL) (page_texts i (a :: rest))) = false.
Proof.
  cbn [page_texts join]. destruct (page_texts (S i) rest); reflexivity.
Qed.

(** On the paths with one answer, an empty answer is answered with the 500
    [LLM Vision no generó respuesta]: here /image, /document on an image
    and /classify on an image. *)
Lemma single_empty_answer_is_terminal `{Unicode} (W : World)
      (archivo : UploadFile) (prompt idioma : str) :
  file_content archivo <> [] ->
  (answer_of (llm_post W [] (vision_payload W (image_to_base64
                                                 (file_content archivo))
                                            prompt None)) = Some [] ->
   fst (run (image W archivo prompt idioma))
   = Raise (HTTPException 500 D_vision_vacio)) /\
  (str_in (detect_file_type (file_content archivo)) IMAGE_TYPES = true ->
   answer_of (llm_post W [] (vision_payload W (image_to_base64
                                                 (file_content archivo))
                                            prompt None)) = Some [] ->
   fst (run (document W archivo prompt idioma))
   = Raise (HTTPException 500 D_vision_vacio)) /\
  (str_in (detect_file_type (file_content archivo)) IMAGE_TYPES = true ->
   answer_of (llm_post W [] (vision_payload W (image_to_base64
                                                 (file_content archivo))
                                            PROMPT_CLASIFICACION None))
   = Some [] ->
   fst (run (classify W archivo idioma))
   = Raise (HTTPException 500 D_vision_vacio)).
Proof.
  intros Hne.
  assert (He : is_empty (file_content archivo) = false)
    by (destruct (file_content archivo); [contradiction | reflexivity]).
  assert (Hcall : forall p,
    answer_of (llm_post W [] (vision_payload W (image_to_base64
                                                  (file_content archivo))
                                             p None)) = Some [] ->
    exists h, call_llm_vision W (image_to_base64 (file_content archivo))
                              p None [] = (Ok [], h)).
  { intros p Ha. unfold call_llm_vision, bind, call, answer_of in *.
    destruct (llm_post W [] _) as [resp|msg]; [|discriminate Ha].
    destruct (status_code resp =? 200)%Z; [|discriminate Ha].
    destruct (body resp) as [c|msg]; [|discriminate Ha].
    injection Ha as Hc. cbn. rewrite Hc. eexists. reflexivity. }
  repeat apply conj.
  - intros Ha. destruct (Hcall _ Ha) as [h Hc].
    unfold run, image, endpoint, bind. now rewrite He, Hc.
  - intros Hi Ha. destruct (Hcall _ Ha) as [h Hc].
    assert (Ho : str_in (detect_file_type (file_content archivo)) OFFICE_TYPES
                 = false).
    { destruct (str_in _ OFFICE_TYPES) eqn:Eo; [|reflexivity].
      apply office_not_image in Eo. congruence. }
    assert (Hp : str_eqb (detect_file_type (file_content archivo)) T_pdf
                 = false).
    { destruct (str_eqb _ T_pdf) eqn:Ep; [|reflexivity].
      apply str_eqb_eq in Ep. rewrite Ep in Hi. discriminate Hi. }
    unfold run, document, endpoint, bind, normalize_office, ret.
    now rewrite He, Ho, Hp, Hi, Hc.
  - intros Hi Ha. destruct (Hcall _ Ha) as [h Hc].
    assert (Ho : str_in (detect_file_type (file_content archivo)) OFFICE_TYPES
                 = false).
    { destruct (str_in _ OFFICE_TYPES) eqn:Eo; [|reflexivity].
      apply office_not_image in Eo. congruence. }
    assert (Hp : str_eqb (detect_file_type (file_content archivo)) T_pdf
                 = false).
    { destruct (str_eqb _ T_pdf) eqn:Ep; [|reflexivity].
      apply str_eqb_eq in Ep. rewrite Ep in Hi. discriminate Hi. }
    unfold run, classify, endpoint, bind, normalize_office, ret.
    now rewrite He, Ho, Hp, Hi, Hc.
Qed.

(** ** The language of the reply *)

Lemma call_llm_ok (W : World) (texto : str) (system_prompt : option str)
      (h h' : trace) (a : str) :
  call_llm W texto system_prompt h = (Ok a, h') ->
  exists payload r, h' = h ++ [LLM_chat payload r].
Proof.
  unfold call_llm. intros E. apply bind_ok in E.
  destruct E as [resp [h1 [Hc E]]]. apply call_ok in Hc. destruct Hc as [_ ->].
  destruct (negb (status_code resp =? 200)%Z); [discriminate E|].
  destruct (body resp); [|discriminate E]. inversion E. eauto.
Qed.

Lemma call_stt_ok (W : World) (audio_bytes : bytes) (name : str)
      (h h' : trace) (j : SttJson) :
  call_stt W audio_bytes name h = (Ok j, h') ->
  exists resp,
    h' = h ++ [STT_transcribe name audio_bytes (Returned resp)] /\
    body resp = Returned j.
Proof.
  unfold call_stt. intros E. apply bind_ok in E.
  destruct E as [resp [h1 [Hc E]]]. apply call_ok in Hc. destruct Hc as [_ ->].
  destruct (negb (status_code resp =? 200)%Z); [discriminate E|].
  destruct (body resp) eqn:Eb; [|discriminate E]. inversion E; subst.
  exists resp. auto.
Qed.

Lemma chat_ok (W : World) (request : ChatRequest) (reply : ChatResponse.t)
      (tr : trace) :
  run (chat W request) = (Ok reply, tr) ->
  ChatResponse.idioma reply = py_or (req_idioma request) es /\
  exists payload r resp ogg,
    tr = [LLM_chat payload r;
          TTS_synthesize (ChatResponse.texto reply) (ChatResponse.idioma reply)
                         (Returned resp);
          Ffmpeg (body resp) (Returned ogg)].
Proof.
  unfold run, chat. destruct (is_empty (strip (req_texto request)));
    [discriminate|].
  intros E. apply endpoint_ok in E. apply bind_ok in E.
  destruct E as [texto [h1 [Hl E]]]. apply call_llm_ok in Hl.
  destruct Hl as [payload [r ->]].
  destruct (is_empty texto); [discriminate E|].
  apply speak_ok in E. destruct E as [resp [ogg [-> ->]]].
  split; [reflexivity|]. exists payload, r, resp, ogg. reflexivity.
Qed.

Lemma voice_ok (W : World) (audio : UploadFile) (reply : ChatResponse.t)
      (tr : trace) :
  run (voice W audio) = (Ok reply, tr) ->
  exists stt_resp stt payload r resp ogg,
    body stt_resp = Returned stt /\
    ChatResponse.idioma reply = get (stt_idioma stt) es /\
    tr = [STT_transcribe (py_or (filename audio) audio_ogg)
                         (file_content audio) (Returned stt_resp);
          LLM_chat payload r;
          TTS_synthesize (ChatResponse.texto reply) (ChatResponse.idioma reply)
                         (Returned resp);
          Ffmpeg (body resp) (Returned ogg)].
Proof.
  unfold run, voice. intros E. apply endpoint_ok in E.
  destruct (is_empty (file_content audio)); [discriminate E|].
  apply bind_ok in E. destruct E as [stt [h1 [Hs E]]].
  apply call_stt_ok in Hs. destruct Hs as [stt_resp [-> Hb]].
  destruct (is_empty (get (stt_texto stt) [])); [discriminate E|].
  apply bind_ok in E. destruct E as [texto [h2 [Hl E]]].
  apply call_llm_ok in Hl. destruct Hl as [payload [r ->]].
  destruct (is_empty texto); [discriminate E|].
  apply speak_ok in E. destruct E as [resp [ogg [-> ->]]].
  exists stt_resp, stt, payload, r, resp, ogg. auto.
Qed.

Lemma image_ok (W : World) (imagen : UploadFile) (prompt idioma : str)
      (reply : ChatResponse.t) (tr : trace) :
  run (image W imagen prompt idioma) = (Ok reply, tr) ->
  ChatResponse.idioma reply = idioma /\
  exists r resp ogg,
    tr = [vision_call W (file_content imagen) prompt r;
          TTS_synthesize (ChatResponse.texto reply) idioma (Returned resp);
          Ffmpeg (body resp) (Returned ogg)].
Proof.
  unfold run, image. intros E. apply endpoint_ok in E.
  destruct (is_empty (file_content imagen)); [discriminate E|].
  apply bind_ok in E. destruct E as [texto [h1 [Hv E]]].
  apply call_llm_vision_ok in Hv. destruct Hv as [r [-> _]].
  destruct (is_empty texto); [discriminate E|].
  apply speak_ok in E. destruct E as [resp [ogg [-> ->]]].
  split; [reflexivity|]. exists r, resp, ogg. reflexivity.
Qed.

Lemma classify_ok `{Unicode} (W : World) (archivo : UploadFile) (idioma : str)
      (reply : ClassifyResponse.t) (tr : trace) :
  run (classify W archivo idioma) = (Ok reply, tr) ->
  ClassifyResponse.idioma reply = idioma /\
  exists front resp ogg,
    tts_calls front = [] /\
    tr = front ++ [TTS_synthesize (ClassifyResponse.texto reply) idioma
                                  (Returned resp);
                   Ffmpeg (body resp) (Returned ogg)].
Proof.
  unfold run, classify. intros E. apply endpoint_ok in E.
  destruct (is_empty (file_content archivo)); [discriminate E|].
  apply bind_ok in E. destruct E as [[fb ft] [h1 [Hn E]]].
  apply normalized in Hn. destruct Hn as [Ht _].
  apply bind_ok in E. destruct E as [image_b64 [h2 [Hfront E]]].
  assert (Hh2 : tts_calls h2 = []).
  { destruct (str_eqb ft T_pdf).
    - apply bind_ok in Hfront. destruct Hfront as [images [h3 [Hp Hfront]]].
      unfold pdf_to_images in Hp. apply call_ok in Hp. destruct Hp as [_ ->].
      destruct (is_empty images); [discriminate Hfront|].
      apply bind_ok in Hfront. destruct Hfront as [img [h4 [Hi Hfront]]].
      unfold first_page in Hi. destruct (index images 0); [|discriminate Hi].
      inversion Hi; subst. inversion Hfront; subst.
      now rewrite tts_calls_app, Ht.
    - destruct (str_in ft IMAGE_TYPES); [|discriminate Hfront].
      inversion Hfront; subst. exact Ht. }
  apply bind_ok in E. destruct E as [raw [h3 [Hv E]]].
  unfold call_llm_vision in Hv. apply bind_ok in Hv.
  destruct Hv as [vresp [h4 [Hc Hv]]]. apply call_ok in Hc.
  destruct Hc as [_ ->].
  assert (Hh3 : tts_calls h3 = []).
  { destruct (negb (status_code vresp =? 200)%Z); [discriminate Hv|].
    destruct (body vresp); [|discriminate Hv]. inversion Hv; subst.
    now rewrite tts_calls_app, Hh2. }
  clear Hv. destruct (is_empty raw); [discriminate E|].
  destruct (parse_clasificacion raw) as [[[tipo confianza] descripcion]|e];
    [|discriminate E].
  apply speak_ok in E. destruct E as [resp [ogg [-> ->]]].
  split; [reflexivity|]. exists h3, resp, ogg. auto.
Qed.

Definition chat_in (idioma : option str) : ChatRequest :=
  {| req_texto := hola; req_idioma := idioma; req_system_prompt := None |}.

Definition chat_trace (idioma : str) : trace :=
  [ LLM_chat {| model := default_LLM_MODEL;
                messages :=
                  [ {| role := R_system; content := default_SYSTEM_PROMPT;
                       images := None |};
                    {| role := R_user; content := hola; images := None |} ];
                stream := false |}
             (Returned (ok_response (Returned (Some hola))));
    TTS_synthesize hola idioma (Returned (ok_response sample_wav));
    Ffmpeg sample_wav (Returned sample_ogg) ].

(** C10 as stated fails on /chat: a request whose language parameter is
    supplied as the empty string is answered in es, not in the language
    supplied. *)
Lemma chat_empty_language_is_es :
  run (chat one_image (chat_in (Some [])))
  = (Ok {| ChatResponse.texto := hola;
           ChatResponse.audio_b64 := b64encode sample_ogg;
           ChatResponse.idioma := es |},
     chat_trace es) /\
  es <> [].
Proof. split; [vm_compute; reflexivity | discriminate]. Qed.

(** C10, amended. The language of a reply that answers a caller who
    supplied [supplied]: that language when it is supplied and not empty, es
    when it is omitted or supplied empty. *)
Definition language_supplied_or_es (supplied : option str) (idioma : str)
  : Prop :=
  (supplied = None \/ supplied = Some [] -> idioma = py "es") /\
  (forall v, supplied = Some v -> v <> [] -> idioma = v).

(** The synthesis of a reply: the TTS service is called once in the run,
    with the text and the language of the reply; that language is not
    empty, so the TTS service takes it as the language requested whatever
    langdetect would say of the text. *)
Definition synthesized_as_tagged (tr : trace) (texto idioma : str) : Prop :=
  (exists r, tts_calls tr = [TTS_synthesize texto idioma r]) /\
  idioma <> [] /\
  forall detect,
    TTS.idioma_solicitado detect (TTS.entrada_of_call texto idioma) = idioma.

Lemma py_or_es (supplied : option str) :
  language_supplied_or_es supplied (py_or supplied es) /\
  py_or supplied es <> [].
Proof.
  unfold language_supplied_or_es.
  destruct supplied as [[|c s]|]; cbn [py_or is_empty].
  - repeat split; try discriminate.
    intros v E Hv. inversion E; subst. contradiction.
  - repeat split; try discriminate.
    + intros [E | E]; discriminate E.
    + intros v E _. now inversion E.
  - repeat split; try discriminate.
Qed.

Lemma tagged (tr : trace) (texto idioma : str) :
  (exists r, tts_calls tr = [TTS_synthesize texto idioma r]) ->
  idioma <> [] -> synthesized_as_tagged tr texto idioma.
Proof.
  intros Hr Hne. split; [exact Hr|]. split; [exact Hne|].
  intros. unfold TTS.idioma_solicitado. cbn.
  destruct idioma; [contradiction | reflexivity].
Qed.

(** C10, amended: the reply of a successful /chat, /image, /document or
    /classify carries the language the caller supplied when it is supplied
    and not empty, and es when it is omitted or supplied empty; the TTS
    service is called once, with the text of the reply and that language,
    which is never empty, so the TTS service takes it as it is and its own
    detection decides nothing. The reply of /voice carries the language of
    the STT answer, es when the key is absent, and the TTS service is called
    once with the text and the language of the reply. *)
Theorem reply_language `{Unicode} (W : World) :
  (forall request reply tr,
     run (chat W request) = (Ok reply, tr) ->
     language_supplied_or_es (req_idioma request) (ChatResponse.idioma reply)
     /\ synthesized_as_tagged tr (ChatResponse.texto reply)
                              (ChatResponse.idioma reply)) /\
  (forall imagen prompt idioma reply tr,
     run (image_form W imagen prompt idioma) = (Ok reply, tr) ->
     language_supplied_or_es idioma (ChatResponse.idioma reply) /\
     synthesized_as_tagged tr (ChatResponse.texto reply)
                           (ChatResponse.idioma reply)) /\
  (forall archivo prompt idioma reply tr,
     run (document_form W archivo prompt idioma) = (Ok reply, tr) ->
     language_supplied_or_es idioma (ChatResponse.idioma reply) /\
     synthesized_as_tagged tr (ChatResponse.texto reply)
                           (ChatResponse.idioma reply)) /\
  (forall archivo idioma reply tr,
     run (classify_form W archivo idioma) = (Ok reply, tr) ->
     language_supplied_or_es idioma (ClassifyResponse.idioma reply) /\
     synthesized_as_tagged tr (ClassifyResponse.texto reply)
                           (ClassifyResponse.idioma reply)) /\
  (forall audio reply tr,
     run (voice W audio) = (Ok reply, tr) ->
     exists name stt_resp stt,
       In (STT_transcribe name (file_content audio) (Returned stt_resp)) tr /\
       body stt_resp = Returned stt /\
       ChatResponse.idioma reply = get (stt_idioma stt) es /\
       exists r, tts_calls tr
                 = [TTS_synthesize (ChatResponse.texto reply)
                                   (ChatResponse.idioma reply) r]).
Proof.
  repeat apply conj.
  - intros request reply tr E. apply chat_ok in E.
    destruct E as [Hi [payload [r [resp [ogg ->]]]]].
    rewrite Hi. destruct (py_or_es (req_idioma request)) as [Hl Hne].
    split; [exact Hl|]. apply tagged; [|exact Hne].
    rewrite <- Hi. eexists. reflexivity.
  - intros imagen prompt idioma reply tr E. unfold image_form in E.
    apply image_ok in E. destruct E as [Hi [r [resp [ogg ->]]]].
    rewrite Hi. unfold Form. destruct (py_or_es idioma) as [Hl Hne].
    split; [exact Hl|]. apply tagged; [|exact Hne]. eexists. reflexivity.
  - intros archivo prompt idioma reply tr E. unfold document_form in E.
    apply document_ok in E.
    destruct E as [front [resp [ogg [-> [Hi [_ [Ht _]]]]]]].
    rewrite Hi. unfold Form. destruct (py_or_es idioma) as [Hl Hne].
    split; [exact Hl|]. apply tagged; [|exact Hne].
    rewrite tts_calls_app, Ht. eexists. reflexivity.
  - intros archivo idioma reply tr E. unfold classify_form in E.
    apply classify_ok in E. destruct E as [Hi [front [resp [ogg [Ht ->]]]]].
    rewrite Hi. unfold Form. destruct (py_or_es idioma) as [Hl Hne].
    split; [exact Hl|]. apply tagged; [|exact Hne].
    rewrite tts_calls_app, Ht. eexists. reflexivity.
  - intros audio reply tr E. apply voice_ok in E.
    destruct E as [stt_resp [stt [payload [r [resp [ogg [Hb [Hi ->]]]]]]]].
    exists (py_or (filename audio) audio_ogg), stt_resp, stt.
    split; [now left|]. split; [exact Hb|].
    split; [exact Hi | eexists; reflexivity].
Qed.

Definition en : str := Eval cbv in py "en".

Lemma chat_en_run :
  run (chat one_image (chat_in (Some en)))
  = (Ok {| ChatResponse.texto := hola;
           ChatResponse.audio_b64 := b64encode sample_ogg;
           ChatResponse.idioma := en |},
     chat_trace en).
Proof. vm_compute. reflexivity. Qed.

(** /document with neither form field submitted. *)
Lemma document_form_defaults_run :
  run (document_form one_image (upload sample_png) None None)
  = (Ok one_image_reply, one_image_trace).
Proof. vm_compute. reflexivity. Qed.

Lemma reply_language_witness :
  (language_supplied_or_es (Some en) en /\
   synthesized_as_tagged (chat_trace en) hola en) /\
  (language_supplied_or_es None es /\
   synthesized_as_tagged one_image_trace hola es).
Proof.
  split.
  - apply (proj1 (reply_language (H := latin1) one_image)
                 (chat_in (Some en))
                 {| ChatResponse.texto := hola;
                    ChatResponse.audio_b64 := b64encode sample_ogg;
                    ChatResponse.idioma := en |}
                 (chat_trace en)).
    exact chat_en_run.
  - apply (proj1 (proj2 (proj2 (reply_language (H := latin1) one_image)))
                 (upload sample_png) None None one_image_reply
                 one_image_trace).
    exact document_form_defaults_run.
Defined.

(** ** Worked examples *)

Definition sample_answer : str := Eval cbv in
  py "TIPO: Factura" ++ NL ++ py "CONFIANZA: alta" ++ NL
  ++ py "DESCRIPCION: vendor receipt".

Example parse_well_formed_answer :
  parse_clasificacion (H := latin1) sample_answer
  = Ok (py "Factura", alta, py "vendor receipt").
Proof. vm_compute. reflexivity. Qed.

Example parse_unknown_tipo :
  parse_clasificacion (H := latin1) (py "tipo: Ticket de compra")
  = Ok (Otro, baja, py "tipo: Ticket de compra").
Proof. vm_compute. reflexivity. Qed.

Example page_prompt_2 :
  page_prompt 2 DOCUMENT_PROMPT
  = py "Página 2: Analiza este documento y extrae la información importante.".
Proof. vm_compute. reflexivity. Qed.

Example page_result_2 :
  page_result 2 P2 = py "--- Página 2 ---" ++ NL ++ P2.
Proof. vm_compute. reflexivity. Qed.

Example b64encode_Man : b64encode (bytes_of "Man is d") = py "TWFuIGlzIGQ=".
Proof. vm_compute. reflexivity. Qed.

Example detect_empty : detect_file_type [] = T_unknown.
Proof. reflexivity. Qed.

(** An empty answer of the LLM on /chat is a 500 too, with its own
    message. *)
Example chat_empty_answer :
  run (chat (scripted [] [[]]) (chat_in None))
  = (Raise (HTTPException 500 D_llm_vacio),
     [ LLM_chat {| model := default_LLM_MODEL;
                   messages :=
                     [ {| role := R_system; content := default_SYSTEM_PROMPT;
                          images := None |};
                       {| role := R_user; content := hola; images := None |} ];
                   stream := false |}
                (Returned (ok_response (Returned (Some [])))) ]).
Proof. vm_compute. reflexivity. Qed.

(** A failure of the vision model on the second page stops the run: the
    third page is not analysed and nothing is synthesized. *)
Definition failing_second_page : World :=
  {| LLM_MODEL := default_LLM_MODEL;
     LLM_IMG_MODEL := default_LLM_IMG_MODEL;
     SYSTEM_PROMPT := default_SYSTEM_PROMPT;
     stt_post := stt_post three_pages;
     llm_post := fun h p =>
       if Nat.eqb (List.length (llm_calls h)) 1
       then Returned {| status_code := 503; text := py "busy";
                        body := Failed [] |}
       else llm_post three_pages h p;
     tts_post := tts_post three_pages;
     ffmpeg_run := ffmpeg_run three_pages;
     libreoffice_run := libreoffice_run three_pages;
     convert_from_bytes := convert_from_bytes three_pages |}.

Example document_aborts_on_page_failure :
  fst (run (document failing_second_page (upload sample_pdf)
                     DOCUMENT_PROMPT es))
  = Raise (HTTPException 500 (D_error_vision ++ py "busy")) /\
  List.length (llm_calls (snd (run (document failing_second_page
                                             (upload sample_pdf)
                                             DOCUMENT_PROMPT es)))) = 2 /\
  tts_calls (snd (run (document failing_second_page (upload sample_pdf)
                                DOCUMENT_PROMPT es))) = [].
Proof. vm_compute. repeat split; reflexivity. Qed.

(** * Further properties of the service *)

(** ** Every run, failed or not *)

Lemma bind_inv {A B} (m : M A) (f : A -> M B) (h h' : trace) (res : result B) :
  bind m f h = (res, h') ->
  (exists e, m h = (Raise e, h') /\ res = Raise e) \/
  (exists a h1, m h = (Ok a, h1) /\ f a h1 = (res, h')).
Proof.
  unfold bind. destruct (m h) as [[a|e] h1]; intros E.
  - right. now exists a, h1.
  - left. inversion E. now exists e.
Qed.

(** What a computation may raise. *)
Definition raises {A} (R : exn -> Prop) (m : M A) : Prop :=
  forall h e h', m h = (Raise e, h') -> R e.

Lemma raises_ret {A} (R : exn -> Prop) (a : A) : raises R (ret a).
Proof. intros h e h' E. discriminate E. Qed.

Lemma raises_raise {A} (R : exn -> Prop) (e : exn) :
  R e -> raises R (@raise A e).
Proof. intros He h e' h' E. inversion E. now subst. Qed.

Lemma raises_bind {A B} (R : exn -> Prop) (m : M A) (f : A -> M B) :
  raises R m -> (forall a, raises R (f a)) -> raises R (bind m f).
Proof.
  intros Hm Hf h e h' E. apply bind_inv in E.
  destruct E as [[e0 [E1 E2]] | [a [h1 [E1 E2]]]].
  - inversion E2; subst. exact (Hm _ _ _ E1).
  - exact (Hf a _ _ _ E2).
Qed.

Lemma raises_call {A} (R : exn -> Prop) (oracle : trace -> outcome A)
      (log : outcome A -> event) :
  (forall msg, R (Exception msg)) -> raises R (call oracle log).
Proof.
  intros HR h e h'. unfold call. destruct (oracle h); intros E; inversion E.
  apply HR.
Qed.

(** What the events a computation adds to the trace satisfy. *)
Definition logs {A} (P : event -> Prop) (m : M A) : Prop :=
  forall h res h', m h = (res, h') -> exists evs, h' = h ++ evs /\ Forall P evs.

Lemma logs_ret {A} (P : event -> Prop) (a : A) : logs P (ret a).
Proof.
  intros h res h' E. inversion E. exists []. now rewrite app_nil_r.
Qed.

Lemma logs_raise {A} (P : event -> Prop) (e : exn) : logs P (@raise A e).
Proof.
  intros h res h' E. inversion E. exists []. now rewrite app_nil_r.
Qed.

Lemma logs_bind {A B} (P : event -> Prop) (m : M A) (f : A -> M B) :
  logs P m -> (forall a, logs P (f a)) -> logs P (bind m f).
Proof.
  intros Hm Hf h res h' E. apply bind_inv in E.
  destruct E as [[e0 [E1 E2]] | [a [h1 [E1 E2]]]].
  - exact (Hm _ _ _ E1).
  - destruct (Hm _ _ _ E1) as [evs1 [-> H1]].
    destruct (Hf a _ _ _ E2) as [evs2 [-> H2]].
    exists (evs1 ++ evs2). rewrite app_assoc. split; [reflexivity|].
    apply Forall_app. now split.
Qed.

Lemma logs_call {A} (P : event -> Prop) (oracle : trace -> outcome A)
      (log : outcome A -> event) :
  (forall r, P (log r)) -> logs P (call oracle log).
Proof.
  intros HP h res h'. unfold call.
  destruct (oracle h) eqn:Eo; intros E; inversion E; subst;
    eexists; (split; [reflexivity|]); repeat constructor; apply HP.
Qed.

Lemma endpoint_inv {A} (label : str) (m : M A) (h h' : trace)
      (res : result A) :
  endpoint label m h = (res, h') ->
  exists res0, m h = (res0, h') /\
    res = match res0 with
          | Raise (Exception msg) => Raise (HTTPException 500 (label ++ msg))
          | r => r
          end.
Proof.
  unfold endpoint. destruct (m h) as [[a|[code d|msg]] h1]; intros E;
    inversion E; subst; eexists; split; reflexivity.
Qed.

Lemma logs_endpoint {A} (P : event -> Prop) (label : str) (m : M A) :
  logs P m -> logs P (endpoint label m).
Proof.
  intros Hm h res h' E. apply endpoint_inv in E.
  destruct E as [res0 [E _]]. exact (Hm _ _ _ E).
Qed.

(** An HTTPException with status 400 or 500. *)
Definition http_400_or_500 (e : exn) : Prop :=
  exists detail, e = HTTPException 400 detail \/ e = HTTPException 500 detail.

(** Inside a handler: that, or an exception the boundary will wrap. *)
Definition inner_error (e : exn) : Prop :=
  (exists msg, e = Exception msg) \/ http_400_or_500 e.

Lemma raises_endpoint {A} (label : str) (m : M A) :
  raises inner_error m -> raises http_400_or_500 (endpoint label m).
Proof.
  intros Hm h e h' E. apply endpoint_inv in E. destruct E as [res0 [E Hr]].
  destruct res0 as [a|[code d|msg]]; inversion Hr; subst.
  - destruct (Hm _ _ _ E) as [[msg Hx] | Hx]; [discriminate Hx | exact Hx].
  - eexists. right. reflexivity.
Qed.

Lemma inner_400 (d : str) : inner_error (HTTPException 400 d).
Proof. right. exists d. now left. Qed.

Lemma inner_500 (d : str) : inner_error (HTTPException 500 d).
Proof. right. exists d. now right. Qed.

Lemma inner_exception (msg : str) : inner_error (Exception msg).
Proof. left. now exists msg. Qed.

Create HintDb handlers.
#[local] Hint Resolve inner_400 inner_500 inner_exception : handlers.

Ltac raises_step :=
  first
    [ apply raises_ret
    | apply raises_raise; auto with handlers
    | apply raises_call; auto with handlers
    | apply raises_bind; [|intros]
    | match goal with
      | |- raises _ (if ?c then _ else _) => destruct c
      | |- raises _ (match ?x with _ => _ end) => destruct x
      | |- raises _ (let '(_, _) := ?x in _) => destruct x
      end ].

Section Failures.
Context `{Unicode} (W : World).

Lemma raises_call_llm (texto : str) (sp : option str) :
  raises inner_error (call_llm W texto sp).
Proof. unfold call_llm. repeat raises_step. Qed.

Lemma raises_call_llm_vision (image_b64 prompt : str) (sp : option str) :
  raises inner_error (call_llm_vision W image_b64 prompt sp).
Proof. unfold call_llm_vision. repeat raises_step. Qed.

Lemma raises_call_tts (texto idioma : str) :
  raises inner_error (call_tts W texto idioma).
Proof. unfold call_tts. repeat raises_step. Qed.

Lemma raises_call_stt (audio_bytes : bytes) (name : str) :
  raises inner_error (call_stt W audio_bytes name).
Proof. unfold call_stt. repeat raises_step. Qed.

Lemma raises_wav_to_ogg_base64 (wav : bytes) :
  raises inner_error (wav_to_ogg_base64 W wav).
Proof. unfold wav_to_ogg_base64. repeat raises_step. Qed.

Lemma raises_normalize_office (data : bytes) (ft : str) :
  raises inner_error (normalize_office W data ft).
Proof.
  unfold normalize_office, office_to_pdf. repeat raises_step.
Qed.

Lemma raises_for_each_page (prompt : str) (images : list bytes) :
  forall i acc, raises inner_error (for_each_page W prompt i images acc).
Proof.
  induction images as [|img rest IH]; intros i acc; cbn [for_each_page].
  - apply raises_ret.
  - apply raises_bind; [apply raises_call_llm_vision | intros; apply IH].
Qed.

End Failures.

Lemma parse_clasificacion_ok `{Unicode} (texto : str) :
  exists c, parse_clasificacion texto = Ok c.
Proof.
  unfold parse_clasificacion.
  destruct (parse_lines_total (split 10%N (strip texto)) (Otro, baja, texto))
    as [c ->].
  eauto.
Qed.

Lemma raises_first_page (images : list bytes) :
  raises inner_error (first_page images).
Proof.
  unfold first_page, index. destruct (nth_error images 0).
  - apply raises_ret.
  - apply raises_raise. unfold IndexError. auto with handlers.
Qed.

Lemma http_400 (d : str) : http_400_or_500 (HTTPException 400 d).
Proof. exists d. now left. Qed.

Ltac handler_raises :=
  repeat first
    [ apply raises_call_llm | apply raises_call_llm_vision
    | apply raises_call_tts | apply raises_call_stt
    | apply raises_wav_to_ogg_base64 | apply raises_normalize_office
    | apply raises_for_each_page | apply raises_first_page
    | match goal with
      | |- raises _ (match parse_clasificacion ?r with _ => _ end) =>
        let t := fresh "tipo" in
        let c := fresh "confianza" in
        let d := fresh "descripcion" in
        destruct (parse_clasificacion_ok r) as [[[t c] d] ->]
      end
    | raises_step ].

(** X1: whatever the collaborators do, a handler that fails raises an
    HTTPException whose status is 400 or 500; no other exception leaves
    /chat, /voice, /image, /document or /classify. *)
Theorem handlers_raise_400_or_500 `{Unicode} (W : World) :
  (forall request e tr,
     run (chat W request) = (Raise e, tr) -> http_400_or_500 e) /\
  (forall audio e tr,
     run (voice W audio) = (Raise e, tr) -> http_400_or_500 e) /\
  (forall imagen prompt idioma e tr,
     run (image W imagen prompt idioma) = (Raise e, tr) ->
     http_400_or_500 e) /\
  (forall archivo prompt idioma e tr,
     run (document W archivo prompt idioma) = (Raise e, tr) ->
     http_400_or_500 e) /\
  (forall archivo idioma e tr,
     run (classify W archivo idioma) = (Raise e, tr) -> http_400_or_500 e).
Proof.
  repeat apply conj.
  - intros request e tr.
    assert (Hr : raises http_400_or_500 (chat W request)).
    { unfold chat. destruct (is_empty (strip (req_texto request))).
      - apply raises_raise, http_400.
      - apply raises_endpoint. handler_raises. }
    exact (Hr [] e tr).
  - intros audio e tr.
    assert (Hr : raises http_400_or_500 (voice W audio)).
    { unfold voice. apply raises_endpoint. handler_raises. }
    exact (Hr [] e tr).
  - intros imagen prompt idioma e tr.
    assert (Hr : raises http_400_or_500 (image W imagen prompt idioma)).
    { unfold image. apply raises_endpoint. handler_raises. }
    exact (Hr [] e tr).
  - intros archivo prompt idioma e tr.
    assert (Hr : raises http_400_or_500 (document W archivo prompt idioma)).
    { unfold document, pdf_to_images. apply raises_endpoint. handler_raises. }
    exact (Hr [] e tr).
  - intros archivo idioma e tr.
    assert (Hr : raises http_400_or_500 (classify W archivo idioma)).
    { unfold classify, pdf_to_images. apply raises_endpoint.
      handler_raises. }
    exact (Hr [] e tr).
Qed.

(** ** Synthesis comes last *)

Definition is_synthesis (ev : event) : bool :=
  match ev with
  | TTS_synthesize _ _ _ | Ffmpeg _ _ => true
  | _ => false
  end.

Definition before_synthesis (ev : event) : Prop := is_synthesis ev = false.

(** The end of a trace: nothing, one call to the TTS service that failed
    or was not answered with a 200, or one answered with a 200 followed by
    one run of ffmpeg on the audio it returned. The text sent is never
    empty. *)
Inductive synthesis_tail : trace -> Prop :=
| tail_none : synthesis_tail []
| tail_tts (texto idioma : str) (r : outcome (Response bytes)) :
    texto <> [] ->
    (forall resp, r = Returned resp -> status_code resp <> 200%Z) ->
    synthesis_tail [TTS_synthesize texto idioma r]
| tail_tts_ffmpeg (texto idioma : str) (resp : Response bytes)
                  (r : outcome bytes) :
    texto <> [] -> status_code resp = 200%Z ->
    synthesis_tail [TTS_synthesize texto idioma (Returned resp);
                    Ffmpeg (body resp) r].

Definition staged {A} (m : M A) : Prop :=
  forall h res h', m h = (res, h') ->
    exists front tail,
      h' = h ++ front ++ tail /\ Forall before_synthesis front /\
      synthesis_tail tail.

Lemma staged_ret {A} (a : A) : staged (ret a).
Proof.
  intros h res h' E. inversion E. exists [], [].
  rewrite app_nil_r. repeat split; constructor.
Qed.

Lemma staged_raise {A} (e : exn) : staged (@raise A e).
Proof.
  intros h res h' E. inversion E. exists [], [].
  rewrite app_nil_r. repeat split; constructor.
Qed.

Lemma staged_bind {A B} (m : M A) (f : A -> M B) :
  logs before_synthesis m -> (forall a, staged (f a)) -> staged (bind m f).
Proof.
  intros Hm Hf h res h' E. apply bind_inv in E.
  destruct E as [[e0 [E1 E2]] | [a [h1 [E1 E2]]]].
  - destruct (Hm _ _ _ E1) as [evs [-> Hevs]]. exists evs, [].
    rewrite app_nil_r. repeat split; [exact Hevs | constructor].
  - destruct (Hm _ _ _ E1) as [evs [-> Hevs]].
    destruct (Hf a _ _ _ E2) as [front [tail [-> [Hfront Htail]]]].
    exists (evs ++ front), tail. rewrite <- !app_assoc.
    repeat split; [apply Forall_app; now split | exact Htail].
Qed.

Lemma staged_endpoint {A} (label : str) (m : M A) :
  staged m -> staged (endpoint label m).
Proof.
  intros Hm h res h' E. apply endpoint_inv in E.
  destruct E as [res0 [E _]]. exact (Hm _ _ _ E).
Qed.

Lemma staged_speak {A} (W : World) (texto idioma : str) (mk : str -> A) :
  texto <> [] ->
  staged (wav_bytes <- call_tts W texto idioma ;;
          audio_b64 <- wav_to_ogg_base64 W wav_bytes ;;
          ret (mk audio_b64)).
Proof.
  intros Ht h res h' E. exists [].
  unfold bind, call_tts, wav_to_ogg_base64, call, ret, raise, bind in E.
  destruct (tts_post W h texto idioma) as [resp|msg] eqn:Et.
  - destruct (status_code resp =? 200)%Z eqn:Es; cbn [negb] in E.
    + apply Z.eqb_eq in Es.
      exists [TTS_synthesize texto idioma (Returned resp);
              Ffmpeg (body resp)
                     (ffmpeg_run W (h ++ [TTS_synthesize texto idioma
                                                         (Returned resp)])
                                 (body resp))].
      split; [|split; [constructor | now apply tail_tts_ffmpeg]].
      destruct (ffmpeg_run W _ (body resp)) as [ogg|msg];
        inversion E; subst; cbn [app]; now rewrite <- app_assoc.
    + apply Z.eqb_neq in Es. inversion E; subst. eexists.
      split; [reflexivity|]. split; [constructor|].
      apply tail_tts; [exact Ht|]. intros resp' Er. inversion Er. now subst.
  - inversion E; subst. eexists. split; [reflexivity|].
    split; [constructor|]. apply tail_tts; [exact Ht | discriminate].
Qed.

Ltac logs_step :=
  first
    [ apply logs_ret
    | apply logs_raise
    | apply logs_call; intros; reflexivity
    | apply logs_bind; [|intros]
    | match goal with
      | |- logs _ (if ?c then _ else _) => destruct c
      | |- logs _ (match ?x with _ => _ end) => destruct x
      end ].

Section Stages.
Context `{Unicode} (W : World).

Lemma logs_call_llm (texto : str) (sp : option str) :
  logs before_synthesis (call_llm W texto sp).
Proof. unfold call_llm. repeat logs_step. Qed.

Lemma logs_call_llm_vision (image_b64 prompt : str) (sp : option str) :
  logs before_synthesis (call_llm_vision W image_b64 prompt sp).
Proof. unfold call_llm_vision. repeat logs_step. Qed.

Lemma logs_call_stt (audio_bytes : bytes) (name : str) :
  logs before_synthesis (call_stt W audio_bytes name).
Proof. unfold call_stt. repeat logs_step. Qed.

Lemma logs_normalize_office (data : bytes) (ft : str) :
  logs before_synthesis (normalize_office W data ft).
Proof. unfold normalize_office, office_to_pdf. repeat logs_step. Qed.

Lemma logs_for_each_page (prompt : str) (images : list bytes) :
  forall i acc, logs before_synthesis (for_each_page W prompt i images acc).
Proof.
  induction images as [|img rest IH]; intros i acc; cbn [for_each_page].
  - apply logs_ret.
  - apply logs_bind; [apply logs_call_llm_vision | intros; apply IH].
Qed.

Lemma logs_first_page (images : list bytes) :
  logs before_synthesis (first_page images).
Proof. unfold first_page. repeat logs_step. Qed.

End Stages.

Ltac handler_logs :=
  repeat first
    [ apply logs_call_llm | apply logs_call_llm_vision | apply logs_call_stt
    | apply logs_normalize_office | apply logs_for_each_page
    | apply logs_first_page | logs_step ].

Ltac staged_step :=
  first
    [ apply staged_ret
    | apply staged_raise
    | apply staged_endpoint
    | apply staged_speak; discriminate
    | apply staged_bind; [handler_logs | intros]
    | match goal with
      | |- staged (if is_empty ?t then _ else _) => destruct t; cbn [is_empty]
      | |- staged (if ?c then _ else _) => destruct c
      | |- staged (match ?x with _ => _ end) => destruct x
      end ].

Ltac handler_staged :=
  repeat first
    [ apply staged_speak; first [discriminate | unfold S_identificado; discriminate]
    | staged_step ].

Definition well_staged (tr : trace) : Prop :=
  exists front tail,
    tr = front ++ tail /\ Forall before_synthesis front /\ synthesis_tail tail.

Lemma staged_run {A} (m : M A) : staged m -> well_staged (snd (run m)).
Proof.
  intros Hm. unfold run. destruct (m []) as [res tr] eqn:E.
  destruct (Hm _ _ _ E) as [front [tail [-> Hrest]]].
  exists front, tail. auto.
Qed.

(** X2: in every run of every handler, failed or not, the speech
    synthesis comes last and is never repeated: the trace is a run of calls
    to STT, LibreOffice, pdf2image and the LLM, followed by at most one
    call to the TTS service, whose text is not empty, followed, when that
    call was answered with a 200, by one run of ffmpeg on the audio it
    returned. *)
Theorem synthesis_comes_last `{Unicode} (W : World) :
  (forall request, well_staged (snd (run (chat W request)))) /\
  (forall audio, well_staged (snd (run (voice W audio)))) /\
  (forall imagen prompt idioma,
     well_staged (snd (run (image W imagen prompt idioma)))) /\
  (forall archivo prompt idioma,
     well_staged (snd (run (document W archivo prompt idioma)))) /\
  (forall archivo idioma,
     well_staged (snd (run (classify W archivo idioma)))).
Proof.
  repeat apply conj; intros; apply staged_run.
  - unfold chat. handler_staged.
  - unfold voice. handler_staged.
  - unfold image. handler_staged.
  - unfold document, pdf_to_images. handler_staged.
  - unfold classify, pdf_to_images. handler_staged.
Qed.

(** ** Rasterization and conversion failures *)

Lemma detected_not_empty (data : bytes) :
  detect_file_type data <> T_unknown -> is_empty data = false.
Proof. destruct data; [intros Hd; now contradiction Hd | reflexivity]. Qed.


(** X3: a PDF that pdf2image rasterizes to no page is answered by
    /document and /classify with the 400 [No se pudieron extraer páginas
    del PDF], and pdf2image is the only collaborator called; when pdf2image
    itself fails, the answer is a 500 that carries the label of the handler
    and the message of the failure. *)
Theorem pdf_without_pages `{Unicode} (W : World) (archivo : UploadFile)
        (prompt idioma : str) :
  detect_file_type (file_content archivo) = T_pdf ->
  (convert_from_bytes W [] (file_content archivo) = Returned [] ->
   run (document W archivo prompt idioma)
   = (Raise (HTTPException 400 D_sin_paginas),
      [Pdf2Image (file_content archivo) (Returned [])]) /\
   run (classify W archivo idioma)
   = (Raise (HTTPException 400 D_sin_paginas),
      [Pdf2Image (file_content archivo) (Returned [])])) /\
  (forall msg,
     convert_from_bytes W [] (file_content archivo) = Failed msg ->
     run (document W archivo prompt idioma)
     = (Raise (HTTPException 500 (L_documento ++ msg)),
        [Pdf2Image (file_content archivo) (Failed msg)]) /\
     run (classify W archivo idioma)
     = (Raise (HTTPException 500 (L_clasificando ++ msg)),
        [Pdf2Image (file_content archivo) (Failed msg)])).
Proof.
  intros Hpdf.
  assert (He : is_empty (file_content archivo) = false).
  { apply detected_not_empty. rewrite Hpdf. discriminate. }
  split.
  - intros Hc.
    unfold run, document, classify, endpoint, bind, normalize_office,
      pdf_to_images, call, ret.
    rewrite He, Hpdf.
    change (str_in T_pdf OFFICE_TYPES) with false. cbv beta iota zeta.
    change (str_eqb T_pdf T_pdf) with true. cbv beta iota zeta. rewrite Hc.
    split; reflexivity.
  - intros msg Hc.
    unfold run, document, classify, endpoint, bind, normalize_office,
      pdf_to_images, call, ret.
    rewrite He, Hpdf.
    change (str_in T_pdf OFFICE_TYPES) with false. cbv beta iota zeta.
    change (str_eqb T_pdf T_pdf) with true. cbv beta iota zeta. rewrite Hc.
    split; reflexivity.
Qed.

Definition no_pages : World := scripted [] [].

Lemma pdf_without_pages_witness :
  run (document no_pages (upload sample_pdf) DOCUMENT_PROMPT es)
  = (Raise (HTTPException 400 D_sin_paginas),
     [Pdf2Image sample_pdf (Returned [])]) /\
  run (classify (H := latin1) no_pages (upload sample_pdf) es)
  = (Raise (HTTPException 400 D_sin_paginas),
     [Pdf2Image sample_pdf (Returned [])]).
Proof.
  apply (pdf_without_pages (H := latin1) no_pages (upload sample_pdf)
                           DOCUMENT_PROMPT es); reflexivity.
Defined.

(** The name LibreOffice is given for its input. *)
Definition office_ext (file_type : str) : str :=
  dict_get extensions file_type EXT_docx.


Definition sample_stderr : str := Eval cbv in
  py "source file could not be loaded".




(** X5: a buffer the detector reports as an Office file is one of docx,
    doc, xlsx and pptx, and the file LibreOffice is given is named with a
    dot and that very tag: the entries [.xls] and [.ppt] of the table and
    its default [.docx] are never what decides the name. *)
Theorem office_extension_follows_detection (data : bytes) :
  str_in (detect_file_type data) OFFICE_TYPES = true ->
  In (detect_file_type data) [T_docx; T_doc; T_xlsx; T_pptx] /\
  office_ext (detect_file_type data) = 46%N :: detect_file_type data.
Proof.
  unfold detect_file_type.
  repeat match goal with
         | |- context [if ?c then _ else _] => destruct c
         end; intros Ho; try discriminate Ho;
    (split; [cbn; tauto | reflexivity]).
Qed.

Lemma office_extension_follows_detection_witness :
  In (detect_file_type sample_ole2) [T_docx; T_doc; T_xlsx; T_pptx] /\
  office_ext (detect_file_type sample_ole2)
  = 46%N :: detect_file_type sample_ole2.
Proof.
  apply (office_extension_follows_detection sample_ole2). reflexivity.
Defined.

Definition failing_second_page_error : exn :=
  HTTPException 500 (D_error_vision ++ py "busy").

Lemma failing_second_page_run :
  run (document failing_second_page (upload sample_pdf) DOCUMENT_PROMPT es)
  = (Raise failing_second_page_error,
     snd (run (document failing_second_page (upload sample_pdf)
                        DOCUMENT_PROMPT es))).
Proof. vm_compute. reflexivity. Qed.

Lemma handlers_raise_400_or_500_witness :
  http_400_or_500 failing_second_page_error.
Proof.
  exact (proj1 (proj2 (proj2 (proj2
           (handlers_raise_400_or_500 (H := latin1) failing_second_page))))
           (upload sample_pdf) DOCUMENT_PROMPT es _ _
           failing_second_page_run).
Defined.

(** ** What a failing collaborator leaves of a request *)

(** X6: on /image, an answer of the LLM with a status other than 200 is a
    500 whose detail is [Error en LLM Vision: ] followed by the body of
    that answer, passed on as it is; a failure of the call, or a body that
    is not JSON, is a 500 whose detail is [Error procesando imagen: ]
    followed by the message of the exception. In each case the call to the
    LLM is the only call of the run: nothing is synthesized. *)
Theorem image_llm_failure (W : World) (imagen : UploadFile)
        (prompt idioma : str) :
  file_content imagen <> [] ->
  let payload :=
    vision_payload W (image_to_base64 (file_content imagen)) prompt None in
  let r := llm_post W [] payload in
  (forall resp, r = Returned resp -> status_code resp <> 200%Z ->
     run (image W imagen prompt idioma)
     = (Raise (HTTPException 500 (D_error_vision ++ text resp)),
        [LLM_chat payload r])) /\
  (forall msg, r = Failed msg ->
     run (image W imagen prompt idioma)
     = (Raise (HTTPException 500 (L_imagen ++ msg)), [LLM_chat payload r])) /\
  (forall resp msg, r = Returned resp -> status_code resp = 200%Z ->
     body resp = Failed msg ->
     run (image W imagen prompt idioma)
     = (Raise (HTTPException 500 (L_imagen ++ msg)), [LLM_chat payload r])).
Proof.
  intros Hne payload r.
  assert (He : is_empty (file_content imagen) = false)
    by (destruct (file_content imagen); [contradiction | reflexivity]).
  unfold run, image, endpoint, bind, call_llm_vision, bind, call, raise, ret.
  rewrite He. cbv beta iota zeta.
  fold payload. fold r. repeat apply conj.
  - intros resp Hr Hs. rewrite Hr. apply Z.eqb_neq in Hs.
    cbv beta iota zeta. rewrite Hs. reflexivity.
  - intros msg Hr. rewrite Hr. reflexivity.
  - intros resp msg Hr Hs Hb. rewrite Hr. apply Z.eqb_eq in Hs.
    cbv beta iota zeta. rewrite Hs, Hb. reflexivity.
Qed.

Definition busy_llm : World :=
  {| LLM_MODEL := default_LLM_MODEL;
     LLM_IMG_MODEL := default_LLM_IMG_MODEL;
     SYSTEM_PROMPT := default_SYSTEM_PROMPT;
     stt_post := stt_post no_pages;
     llm_post := fun _ _ =>
       Returned {| status_code := 503; text := sample_stderr;
                   body := Failed [] |};
     tts_post := tts_post no_pages;
     ffmpeg_run := ffmpeg_run no_pages;
     libreoffice_run := libreoffice_run no_pages;
     convert_from_bytes := convert_from_bytes no_pages |}.

Lemma image_llm_failure_witness :
  run (image busy_llm (upload sample_png) IMAGE_PROMPT es)
  = (Raise (HTTPException 500 (D_error_vision ++ sample_stderr)),
     [LLM_chat (vision_payload busy_llm
                  (image_to_base64 (file_content (upload sample_png)))
                  IMAGE_PROMPT None)
               (llm_post busy_llm []
                  (vision_payload busy_llm
                     (image_to_base64 (file_content (upload sample_png)))
                     IMAGE_PROMPT None))]).
Proof.
  apply (proj1 (image_llm_failure busy_llm (upload sample_png)
                                  IMAGE_PROMPT es ltac:(discriminate))
               {| status_code := 503; text := sample_stderr;
                  body := Failed [] |}).
  - reflexivity.
  - discriminate.
Defined.

(** X7: on /voice, a transcription whose text is missing or empty is
    answered with the 400 [No se pudo transcribir el audio]; the STT
    service, called with the name of the upload or [audio.ogg] when it has
    none, is the only collaborator called. *)
Theorem voice_without_transcription (W : World) (audio : UploadFile)
        (resp : Response (outcome SttJson)) (stt : SttJson) :
  file_content audio <> [] ->
  stt_post W [] (py_or (filename audio) audio_ogg) (file_content audio)
  = Returned resp ->
  status_code resp = 200%Z -> body resp = Returned stt ->
  get (stt_texto stt) [] = [] ->
  run (voice W audio)
  = (Raise (HTTPException 400 D_no_transcrito),
     [STT_transcribe (py_or (filename audio) audio_ogg) (file_content audio)
                     (Returned resp)]).
Proof.
  intros Hne Hs H200 Hb Ht.
  assert (He : is_empty (file_content audio) = false)
    by (destruct (file_content audio); [contradiction | reflexivity]).
  unfold run, voice, endpoint, bind, call_stt, bind, call, raise, ret.
  rewrite He. cbv beta iota zeta. rewrite Hs. cbv beta iota zeta.
  apply Z.eqb_eq in H200. rewrite H200, Hb. cbn [negb]. cbv beta iota zeta.
  rewrite Ht. reflexivity.
Qed.

Definition silent_stt : World :=
  {| LLM_MODEL := default_LLM_MODEL;
     LLM_IMG_MODEL := default_LLM_IMG_MODEL;
     SYSTEM_PROMPT := default_SYSTEM_PROMPT;
     stt_post := fun _ _ _ =>
       Returned (ok_response
                   (Returned {| stt_texto := Some []; stt_idioma := Some es |}));
     llm_post := llm_post no_pages;
     tts_post := tts_post no_pages;
     ffmpeg_run := ffmpeg_run no_pages;
     libreoffice_run := libreoffice_run no_pages;
     convert_from_bytes := convert_from_bytes no_pages |}.

Lemma voice_without_transcription_witness :
  run (voice silent_stt (upload sample_ogg))
  = (Raise (HTTPException 400 D_no_transcrito),
     [STT_transcribe (py_or (filename (upload sample_ogg)) audio_ogg)
                     (file_content (upload sample_ogg))
                     (Returned (ok_response
                        (Returned {| stt_texto := Some [];
                                     stt_idioma := Some es |})))]).
Proof.
  apply (voice_without_transcription silent_stt (upload sample_ogg)
           (ok_response (Returned {| stt_texto := Some [];
                                     stt_idioma := Some es |}))
           {| stt_texto := Some []; stt_idioma := Some es |}).
  - discriminate.
  - reflexivity.
  - reflexivity.
  - reflexivity.
  - reflexivity.
Defined.

(** ** The reply of a classification *)

Lemma parse_tipo_listed `{Unicode} (raw tipo confianza descripcion : str) :
  parse_clasificacion raw = Ok (tipo, confianza, descripcion) ->
  In tipo TIPOS_DOCUMENTO.
Proof.
  unfold parse_clasificacion.
  destruct (parse_lines _ _) as [[[t c] d]|e]; [|discriminate].
  unfold validar_tipo. destruct (str_in t TIPOS_DOCUMENTO) eqn:Hin;
    intros E; inversion E; subst.
  - now apply str_in_In.
  - apply str_in_In. reflexivity.
Qed.

Lemma first_page_ok (images : list bytes) (h h' : trace) (img : bytes) :
  first_page images h = (Ok img, h') -> hd_error images = Some img /\ h' = h.
Proof.
  unfold first_page, index. destruct images as [|x rest]; cbn.
  - discriminate.
  - intros E. inversion E. auto.
Qed.

(** A successful run of /classify, step by step. *)
Lemma classify_success `{Unicode} (W : World) (archivo : UploadFile)
        (idioma : str) (reply : ClassifyResponse.t) (tr : trace) :
  run (classify W archivo idioma) = (Ok reply, tr) ->
  exists img r raw,
    llm_calls tr = [vision_call W img PROMPT_CLASIFICACION r] /\
    answer_of r = Some raw /\ raw <> [] /\
    parse_clasificacion raw
    = Ok (ClassifyResponse.tipo_documento reply,
          ClassifyResponse.confianza reply,
          ClassifyResponse.descripcion reply) /\
    In (ClassifyResponse.tipo_documento reply) TIPOS_DOCUMENTO /\
    ClassifyResponse.texto reply
    = S_identificado ++ ClassifyResponse.tipo_documento reply
      ++ S_dot_sp ++ ClassifyResponse.descripcion reply /\
    ((str_in (detect_file_type (file_content archivo)) IMAGE_TYPES = true /\
      img = file_content archivo)
     \/
     (str_in (detect_file_type (file_content archivo)) IMAGE_TYPES = false /\
      exists pdf images,
        In (Pdf2Image pdf (Returned images)) tr /\
        hd_error images = Some img)).
Proof.
  unfold run, classify. intros E. apply endpoint_ok in E.
  destruct (is_empty (file_content archivo)); [discriminate E|].
  apply bind_ok in E. destruct E as [[fb ft] [h1 [Hn E]]].
  apply normalized in Hn. destruct Hn as [_ [Hl [Hft Hni]]].
  apply bind_ok in E. destruct E as [image_b64 [h2 [Hfront E]]].
  assert (Hpage : exists img,
    image_b64 = image_to_base64 img /\ llm_calls h2 = [] /\
    ((str_in (detect_file_type (file_content archivo)) IMAGE_TYPES = true /\
      img = file_content archivo)
     \/
     (str_in (detect_file_type (file_content archivo)) IMAGE_TYPES = false /\
      exists pdf images,
        In (Pdf2Image pdf (Returned images)) h2 /\
        hd_error images = Some img))).
  { destruct (str_eqb ft T_pdf) eqn:Epdf.
    - apply str_eqb_eq in Epdf. subst ft.
      apply bind_ok in Hfront. destruct Hfront as [images [h3 [Hp Hfront]]].
      unfold pdf_to_images in Hp. apply call_ok in Hp. destruct Hp as [_ ->].
      destruct (is_empty images); [discriminate Hfront|].
      apply bind_ok in Hfront. destruct Hfront as [img [h4 [Hi Hfront]]].
      apply first_page_ok in Hi. destruct Hi as [Hhd ->].
      inversion Hfront; subst. exists img.
      split; [reflexivity|]. split; [now rewrite llm_calls_app, Hl|].
      right. split; [now apply Hni|]. exists fb, images.
      split; [apply in_or_app; right; now left | exact Hhd].
    - destruct Hft as [-> | [-> [-> ->]]]; [discriminate Epdf|].
      destruct (str_in (detect_file_type (file_content archivo)) IMAGE_TYPES)
        eqn:Eimg; [|discriminate Hfront].
      inversion Hfront; subst. exists (file_content archivo).
      split; [reflexivity|]. split; [reflexivity|]. left. auto. }
  destruct Hpage as [img [-> [Hl2 Hwhich]]].
  apply bind_ok in E. destruct E as [raw [h3 [Hv E]]].
  apply call_llm_vision_ok in Hv. destruct Hv as [r [-> Ha]].
  destruct raw as [|c raw]; [discriminate E|]. cbn [is_empty] in E.
  destruct (parse_clasificacion (c :: raw))
    as [[[tipo confianza] descripcion]|e] eqn:Ep; [|discriminate E].
  apply speak_ok in E. destruct E as [resp [ogg [-> ->]]].
  exists img, r, (c :: raw).
  cbn [ClassifyResponse.tipo_documento ClassifyResponse.confianza
       ClassifyResponse.descripcion ClassifyResponse.texto].
  rewrite !llm_calls_app, Hl2. cbn [llm_calls filter vision_call app].
  repeat split; auto; try discriminate.
  - exact (parse_tipo_listed _ _ _ _ Ep).
  - destruct Hwhich as [Hi | [Hi [pdf [images [Hin Hhd]]]]]; [now left|].
    right. split; [exact Hi|]. exists pdf, images. split; [|exact Hhd].
    apply in_or_app. left. apply in_or_app. now left.
Qed.

(** X8: a successful /classify calls the vision model exactly once, with
    PROMPT_CLASIFICACION, on the upload itself when it is an image and on
    the first page pdf2image gave otherwise. The answer is not empty, the
    three classification fields of the reply are what parse_clasificacion
    makes of it, so the type is an entry of TIPOS_DOCUMENTO, and the text
    that is spoken is [Documento identificado como <tipo>. <descripcion>],
    not the raw answer. *)
Theorem classify_first_page `{Unicode} (W : World) (archivo : UploadFile)
        (idioma : str) (reply : ClassifyResponse.t) (tr : trace) :
  run (classify W archivo idioma) = (Ok reply, tr) ->
  exists img r raw,
    llm_calls tr = [vision_call W img PROMPT_CLASIFICACION r] /\
    answer_of r = Some raw /\ raw <> [] /\
    parse_clasificacion raw
    = Ok (ClassifyResponse.tipo_documento reply,
          ClassifyResponse.confianza reply,
          ClassifyResponse.descripcion reply) /\
    In (ClassifyResponse.tipo_documento reply) TIPOS_DOCUMENTO /\
    ClassifyResponse.texto reply
    = S_identificado ++ ClassifyResponse.tipo_documento reply
      ++ S_dot_sp ++ ClassifyResponse.descripcion reply /\
    ((str_in (detect_file_type (file_content archivo)) IMAGE_TYPES = true /\
      img = file_content archivo)
     \/
     (str_in (detect_file_type (file_content archivo)) IMAGE_TYPES = false /\
      exists pdf images,
        In (Pdf2Image pdf (Returned images)) tr /\
        hd_error images = Some img)).
Proof. exact (classify_success W archivo idioma reply tr). Qed.

Definition cover_page : World := scripted [page1; page2; page3] [sample_answer].

Definition Factura : str := Eval cbv in py "Factura".
Definition vendor_receipt : str := Eval cbv in py "vendor receipt".

Definition cover_page_reply : ClassifyResponse.t :=
  {| ClassifyResponse.tipo_documento := Factura;
     ClassifyResponse.confianza := alta;
     ClassifyResponse.descripcion := vendor_receipt;
     ClassifyResponse.texto :=
       S_identificado ++ Factura ++ S_dot_sp ++ vendor_receipt;
     ClassifyResponse.audio_b64 := b64encode sample_ogg;
     ClassifyResponse.idioma := es |}.

Definition cover_page_trace : trace :=
  [ Pdf2Image sample_pdf (Returned [page1; page2; page3]);
    vision_call cover_page page1 PROMPT_CLASIFICACION
                (Returned (ok_response (Returned (Some sample_answer))));
    TTS_synthesize (S_identificado ++ Factura ++ S_dot_sp ++ vendor_receipt)
                   es (Returned (ok_response sample_wav));
    Ffmpeg sample_wav (Returned sample_ogg) ].

Lemma cover_page_run :
  run (classify (H := latin1) cover_page (upload sample_pdf) es)
  = (Ok cover_page_reply, cover_page_trace).
Proof. vm_compute. reflexivity. Qed.

Lemma classify_first_page_witness :
  exists img r raw,
    llm_calls cover_page_trace
    = [vision_call cover_page img PROMPT_CLASIFICACION r] /\
    answer_of r = Some raw /\ raw <> [] /\
    parse_clasificacion (H := latin1) raw
    = Ok (ClassifyResponse.tipo_documento cover_page_reply,
          ClassifyResponse.confianza cover_page_reply,
          ClassifyResponse.descripcion cover_page_reply) /\
    In (ClassifyResponse.tipo_documento cover_page_reply) TIPOS_DOCUMENTO /\
    ClassifyResponse.texto cover_page_reply
    = S_identificado ++ ClassifyResponse.tipo_documento cover_page_reply
      ++ S_dot_sp ++ ClassifyResponse.descripcion cover_page_reply /\
    ((str_in (detect_file_type (file_content (upload sample_pdf)))
             IMAGE_TYPES = true /\
      img = file_content (upload sample_pdf))
     \/
     (str_in (detect_file_type (file_content (upload sample_pdf)))
             IMAGE_TYPES = false /\
      exists pdf images,
        In (Pdf2Image pdf (Returned images)) cover_page_trace /\
        hd_error images = Some img)).
Proof.
  exact (classify_first_page (H := latin1) cover_page (upload sample_pdf) es
           cover_page_reply cover_page_trace cover_page_run).
Defined.

(** ** The text of a reply *)

Lemma spoken_text {A} (W : World) (texto idioma : str) (mk : str -> A)
      (h h' : trace) (reply : A) :
  (if is_empty texto
   then raise (HTTPException 500 D_vision_vacio)
   else (wav_bytes <- call_tts W texto idioma ;;
         audio_b64 <- wav_to_ogg_base64 W wav_bytes ;;
         ret (mk audio_b64))) h = (Ok reply, h') ->
  texto <> [] /\ exists audio, reply = mk audio.
Proof.
  destruct texto as [|c s]; cbn [is_empty]; [discriminate|].
  intros E. apply speak_ok in E. destruct E as [resp [ogg [_ ->]]].
  split; [discriminate | eauto].
Qed.

Lemma spoken_text_llm {A} (W : World) (texto idioma : str) (mk : str -> A)
      (h h' : trace) (reply : A) :
  (if is_empty texto
   then raise (HTTPException 500 D_llm_vacio)
   else (wav_bytes <- call_tts W texto idioma ;;
         audio_b64 <- wav_to_ogg_base64 W wav_bytes ;;
         ret (mk audio_b64))) h = (Ok reply, h') ->
  texto <> [] /\ exists audio, reply = mk audio.
Proof.
  destruct texto as [|c s]; cbn [is_empty]; [discriminate|].
  intros E. apply speak_ok in E. destruct E as [resp [ogg [_ ->]]].
  split; [discriminate | eauto].
Qed.

(** X9: the text of a successful reply is never empty, on any of the five
    paths. *)
Theorem reply_text_not_empty `{Unicode} (W : World) :
  (forall request reply tr,
     run (chat W request) = (Ok reply, tr) ->
     ChatResponse.texto reply <> []) /\
  (forall audio reply tr,
     run (voice W audio) = (Ok reply, tr) ->
     ChatResponse.texto reply <> []) /\
  (forall imagen prompt idioma reply tr,
     run (image W imagen prompt idioma) = (Ok reply, tr) ->
     ChatResponse.texto reply <> []) /\
  (forall archivo prompt idioma reply tr,
     run (document W archivo prompt idioma) = (Ok reply, tr) ->
     ChatResponse.texto reply <> []) /\
  (forall archivo idioma reply tr,
     run (classify W archivo idioma) = (Ok reply, tr) ->
     ClassifyResponse.texto reply <> []).
Proof.
  repeat apply conj.
  - intros request reply tr. unfold run, chat.
    destruct (is_empty (strip (req_texto request))); [discriminate|].
    intros E. apply endpoint_ok in E. apply bind_ok in E.
    destruct E as [texto [h1 [_ E]]]. apply spoken_text_llm in E.
    destruct E as [Ht [a ->]]. exact Ht.
  - intros audio reply tr. unfold run, voice. intros E.
    apply endpoint_ok in E.
    destruct (is_empty (file_content audio)); [discriminate E|].
    apply bind_ok in E. destruct E as [stt [h1 [_ E]]].
    destruct (is_empty (get (stt_texto stt) [])); [discriminate E|].
    apply bind_ok in E. destruct E as [texto [h2 [_ E]]].
    apply spoken_text_llm in E. destruct E as [Ht [a ->]]. exact Ht.
  - intros imagen prompt idioma reply tr. unfold run, image. intros E.
    apply endpoint_ok in E.
    destruct (is_empty (file_content imagen)); [discriminate E|].
    apply bind_ok in E. destruct E as [texto [h1 [_ E]]].
    apply spoken_text in E. destruct E as [Ht [a ->]]. exact Ht.
  - intros archivo prompt idioma reply tr. unfold run, document. intros E.
    apply endpoint_ok in E.
    destruct (is_empty (file_content archivo)); [discriminate E|].
    apply bind_ok in E. destruct E as [[fb ft] [h1 [_ E]]].
    apply bind_ok in E. destruct E as [texto [h2 [_ E]]].
    apply spoken_text in E. destruct E as [Ht [a ->]]. exact Ht.
  - intros archivo idioma reply tr E.
    destruct (classify_success W archivo idioma reply tr E)
      as [img [r [raw [_ [_ [_ [_ [_ [Ht _]]]]]]]]].
    rewrite Ht. unfold S_identificado. discriminate.
Qed.

Lemma reply_text_not_empty_witness : hola <> [].
Proof.
  exact (proj1 (reply_text_not_empty (H := latin1) one_image)
               (chat_in (Some en)) _ _ chat_en_run).
Defined.

(** ** Trimming *)

Lemma lstrip_idem (s : str) : lstrip (lstrip s) = lstrip s.
Proof.
  induction s as [|c s IH]; cbn [lstrip]; [reflexivity|].
  destruct (isspace c) eqn:E; [exact IH|]. cbn [lstrip]. now rewrite E.
Qed.

Lemma rstrip_idem (s : str) : rstrip (rstrip s) = rstrip s.
Proof. unfold rstrip. now rewrite rev_involutive, lstrip_idem. Qed.

Lemma lstrip_snoc_nonspace (s : str) (c : N) :
  isspace c = false -> lstrip (s ++ [c]) = lstrip s ++ [c].
Proof.
  intros Hc. induction s as [|d s IH]; cbn [lstrip app].
  - now rewrite Hc.
  - destruct (isspace d); [exact IH | reflexivity].
Qed.

Lemma rstrip_cons_nonspace (c : N) (s : str) :
  isspace c = false -> rstrip (c :: s) = c :: rstrip s.
Proof.
  intros Hc. unfold rstrip. cbn [rev].
  now rewrite (lstrip_snoc_nonspace _ _ Hc), rev_app_distr.
Qed.

Lemma lstrip_rstrip (s : str) : lstrip (rstrip (lstrip s)) = rstrip (lstrip s).
Proof.
  induction s as [|c s IH]; cbn [lstrip]; [reflexivity|].
  destruct (isspace c) eqn:E; [exact IH|].
  rewrite (rstrip_cons_nonspace _ _ E). cbn [lstrip]. now rewrite E.
Qed.

(** strip is idempotent: what it returns is trimmed. *)
Lemma strip_idem (s : str) : strip (strip s) = strip s.
Proof. unfold strip. now rewrite lstrip_rstrip, rstrip_idem. Qed.

Lemma split_no_sep (sep : N) (s : str) :
  Forall (fun l => ~ In sep l) (split sep s).
Proof.
  induction s as [|c s IH]; cbn [split]; [repeat constructor; auto|].
  destruct (c =? sep)%N eqn:E.
  - constructor; [auto | exact IH].
  - apply N.eqb_neq in E. destruct (split sep s) as [|l ls].
    + repeat constructor. intros [Hc | []]. congruence.
    + inversion IH; subst. constructor; [|assumption].
      intros [Hc | Hin]; [congruence | contradiction].
Qed.

Lemma In_strip (x : N) (s : str) : In x (strip s) -> In x s.
Proof.
  intros Hin.
  pose proof (Forall_strip (fun y => y <> x) s) as Hf.
  destruct (in_dec N.eq_dec x s) as [Hs | Hs]; [exact Hs|].
  exfalso. assert (Hall : Forall (fun y => y <> x) s).
  { apply Forall_forall. intros y Hy E. subst. contradiction. }
  apply Hf in Hall. rewrite Forall_forall in Hall. exact (Hall x Hin eq_refl).
Qed.

(** ** The description of a parsed record *)

Section Descripcion.
Context `{Unicode}.

(** A line whose value the loop stores as the description. *)
Definition descripcion_line (line : str) : bool :=
  startswith (upper line) KEY_DESCRIPCION
  || startswith (upper line) KEY_DESCRIPCION_acc.

Lemma starts_with_D (s key : str) :
  hd_error key = Some 68%N -> startswith s key = true ->
  startswith s KEY_TIPO = false /\ startswith s KEY_CONFIANZA = false.
Proof.
  intros Hk Hs. apply startswith_spec in Hs. destruct Hs as [rest ->].
  destruct key as [|c key]; [discriminate Hk|]. inversion Hk; subst.
  split; reflexivity.
Qed.

Lemma descripcion_line_only (line : str) :
  descripcion_line line = true ->
  startswith (upper line) KEY_TIPO = false /\
  startswith (upper line) KEY_CONFIANZA = false.
Proof.
  unfold descripcion_line. intros Hd. apply orb_true_iff in Hd.
  destruct Hd as [Hd | Hd].
  - exact (starts_with_D _ KEY_DESCRIPCION eq_refl Hd).
  - exact (starts_with_D _ KEY_DESCRIPCION_acc eq_refl Hd).
Qed.

Lemma parse_line_descripcion (tipo confianza descripcion line k v : str) :
  descripcion_line line = true -> line = k ++ COLON :: v -> ~ In COLON k ->
  parse_line (tipo, confianza, descripcion) line
    = Ok (tipo, confianza, strip v).
Proof.
  intros Hd -> Hk. destruct (descripcion_line_only _ Hd) as [Ht Hc].
  unfold parse_line. unfold descripcion_line in Hd.
  rewrite Ht, Hc, Hd, (split1_cut COLON k v Hk). reflexivity.
Qed.

Lemma parse_line_keeps_descripcion (t c d t' c' d' line : str) :
  descripcion_line line = false ->
  parse_line (t, c, d) line = Ok (t', c', d') -> d' = d.
Proof.
  unfold descripcion_line, parse_line. intros ->.
  repeat match goal with
         | |- context [if ?x then _ else _] => destruct x
         | |- context [match index ?l ?i with _ => _ end] =>
           destruct (index l i)
         end; intros E; inversion E; reflexivity.
Qed.

Lemma parse_lines_keeps_descripcion (lines : list str)
      (t c d t' c' d' : str) :
  Forall (fun line => descripcion_line line = false) lines ->
  parse_lines (t, c, d) lines = Ok (t', c', d') -> d' = d.
Proof.
  intros Hall. revert t c d.
  induction Hall as [|line rest Hl _ IH]; intros t c d; cbn [parse_lines].
  - intros E. now inversion E.
  - destruct (parse_line (t, c, d) line) as [[[t1 c1] d1]|e] eqn:E1;
      cbn iota; [|intros E; discriminate E].
    intros E. rewrite (IH _ _ _ E).
    exact (parse_line_keeps_descripcion _ _ _ _ _ _ _ Hl E1).
Qed.

Lemma validar_tipo_descripcion (t c d : str) :
  exists t', validar_tipo (t, c, d) = (t', c, d).
Proof. unfold validar_tipo. eauto. Qed.

End Descripcion.

(** X10: the description of a parsed record is the whole raw text, as it
    came, when no line of the text starts with DESCRIPCION: or
    DESCRIPCIÓN: in any letter case; otherwise it is the text after the
    first colon of the last such line, trimmed, so it is a single line
    with no blank at either end. *)
Theorem parse_clasificacion_descripcion `{Unicode} (texto : str) :
  (Forall (fun line => descripcion_line line = false)
          (split 10%N (strip texto)) ->
   exists tipo confianza,
     parse_clasificacion texto = Ok (tipo, confianza, texto)) /\
  (forall pre line post k v,
     split 10%N (strip texto) = pre ++ line :: post ->
     descripcion_line line = true ->
     Forall (fun l => descripcion_line l = false) post ->
     line = k ++ COLON :: v -> ~ In COLON k ->
     (exists tipo confianza,
        parse_clasificacion texto = Ok (tipo, confianza, strip v)) /\
     strip (strip v) = strip v /\ ~ In 10%N (strip v)).
Proof.
  split.
  - intros Hall.
    destruct (parse_lines_total (split 10%N (strip texto)) (Otro, baja, texto))
      as [[[t c] d] E].
    pose proof (parse_lines_keeps_descripcion _ _ _ _ _ _ _ Hall E) as ->.
    unfold parse_clasificacion. rewrite E.
    destruct (validar_tipo_descripcion t c texto) as [t' ->]. eauto.
  - intros pre line post k v Hsplit Hline Hpost Hk Hn. split; [|split].
    + unfold parse_clasificacion. rewrite Hsplit, parse_lines_app.
      destruct (parse_lines_total pre (Otro, baja, texto))
        as [[[t0 c0] d0] E0].
      rewrite E0. cbn [parse_lines].
      rewrite (parse_line_descripcion t0 c0 d0 line k v Hline Hk Hn).
      destruct (parse_lines_total post (t0, c0, strip v))
        as [[[t1 c1] d1] E1].
      pose proof (parse_lines_keeps_descripcion _ _ _ _ _ _ _ Hpost E1) as ->.
      rewrite E1. destruct (validar_tipo_descripcion t1 c1 (strip v))
        as [t' ->]. eauto.
    + apply strip_idem.
    + intros Hin. apply In_strip in Hin.
      pose proof (split_no_sep 10%N (strip texto)) as Hlines.
      rewrite Hsplit in Hlines. apply Forall_app in Hlines.
      destruct Hlines as [_ Hlines]. inversion Hlines as [|? ? Hline' _].
      apply Hline'. rewrite Hk. apply in_or_app. right. now right.
Qed.

Definition sample_dos_descripciones : str := Eval cbv in
  py "descripción:  primera " ++ NL ++ py "TIPO: CURP" ++ NL
  ++ py "Descripcion: clave: ABCD  " ++ NL ++ py "fin".

Lemma parse_clasificacion_descripcion_witness :
  (exists tipo confianza,
     parse_clasificacion (H := latin1) sample_free_text
     = Ok (tipo, confianza, sample_free_text)) /\
  (exists tipo confianza,
     parse_clasificacion (H := latin1) sample_dos_descripciones
     = Ok (tipo, confianza, strip (py " clave: ABCD  "))).
Proof.
  split.
  - apply (parse_clasificacion_descripcion (H := latin1) sample_free_text).
    vm_compute. repeat constructor.
  - apply (proj2 (parse_clasificacion_descripcion (H := latin1)
                    sample_dos_descripciones)
                 [py "descripción:  primera "; py "TIPO: CURP"]
                 (py "Descripcion: clave: ABCD  ") [py "fin"]
                 (py "Descripcion") (py " clave: ABCD  ")).
    + vm_compute. reflexivity.
    + vm_compute. reflexivity.
    + vm_compute. repeat constructor.
    + vm_compute. reflexivity.
    + vm_compute. intros Hin.
      repeat (destruct Hin as [Hin|Hin]; [discriminate Hin|]). exact Hin.
Defined.

(** * POST /llm_chat and the language memory
    (stack_data/api/app/main.py) *)

Definition HISTORY_TTL : Z := 3600.
Definition K_chat_language : str := Eval cbv in py "chat:language:".
Definition R_assistant : str := Eval cbv in py "assistant".

(** [f"chat:language:{channel}:{user_id}"] *)
Definition language_key (channel user_id : str) : str :=
  K_chat_language ++ channel ++ [COLON] ++ user_id.

(** The answer of Ollama as [data.get] reads it; None is an absent key. *)
Record OllamaMessage := { om_role : option str; om_content : option str }.

Record OllamaData := {
  od_model : option str;
  od_created_at : option str;
  od_message : option OllamaMessage;
  od_done : option bool;
  od_total_duration : option Z;
  od_load_duration : option Z;
  od_prompt_eval_count : option Z;
  od_prompt_eval_duration : option Z;
  od_eval_count : option Z;
  od_eval_duration : option Z
}.

Record LLMMessage := { lm_role : str; lm_content : str; lm_language : str }.

Record LLMChatResponse := {
  lr_model : str;
  lr_created_at : str;
  lr_message : LLMMessage;
  lr_done : bool;
  lr_total_duration : option Z;
  lr_load_duration : option Z;
  lr_prompt_eval_count : option Z;
  lr_prompt_eval_duration : option Z;
  lr_eval_count : option Z;
  lr_eval_duration : option Z
}.

(** A command sent to Redis, SETEX key ttl value, and how it ended. *)
Record Setex := {
  sx_key : str;
  sx_ttl : Z;
  sx_value : str;
  sx_result : outcome unit
}.

Section LLMChat.

(** [dict] is a message of the request, a JSON object that the handler
    passes on unread; [Redis] is the client object. *)
Variables dict Redis : Type.

Record LLMChatRequest := {
  lc_messages : list dict;
  lc_model : str;
  lc_channel : str;
  lc_user_id : str
}.

(** The collaborators of /llm_chat: Ollama, langdetect (a failure is
    LangDetectException), and Redis. *)
Record Services := {
  ollama_chat : str -> list dict -> outcome (Response (outcome OllamaData));
  detect : str -> outcome str;
  from_url : outcome Redis;
  setex : Redis -> str -> Z -> str -> outcome unit
}.

(** The global [_redis_client], and the commands issued so far. *)
Record Memory := { redis_client : option Redis; commands : list Setex }.

Variable S : Services.

Definition get_redis (m : Memory) : result Redis * Memory :=
  match redis_client m with
  | Some r => (Ok r, m)
  | None =>
    match from_url S with
    | Returned r => (Ok r, {| redis_client := Some r; commands := commands m |})
    | Failed msg => (Raise (Exception msg), m)
    end
  end.

(** Every exception is caught and printed: nothing is raised. *)
Definition set_user_language (m : Memory) (channel user_id language : str)
  : Memory :=
  match get_redis m with
  | (Ok r, m1) =>
    let key := language_key channel user_id in
    {| redis_client := redis_client m1;
       commands := commands m1
                   ++ [{| sx_key := key; sx_ttl := HISTORY_TTL;
                          sx_value := language;
                          sx_result := setex S r key HISTORY_TTL language |}] |}
  | (Raise _, m1) => m1
  end.

Definition message_of (data : OllamaData) : OllamaMessage :=
  match od_message data with
  | Some m => m
  | None => {| om_role := None; om_content := None |}
  end.

Definition get_bool (o : option bool) (default : bool) : bool :=
  match o with Some v => v | None => default end.

(** The handler has no try/except: a failure of the call is raised as it
    is. *)
Definition llm_chat (m : Memory) (request : LLMChatRequest)
  : result LLMChatResponse * Memory :=
  match ollama_chat S (lc_model request) (lc_messages request) with
  | Failed msg => (Raise (Exception msg), m)
  | Returned response =>
    if negb (status_code response =? 200)%Z
    then (Raise (HTTPException 500 (D_error_llm ++ text response)), m)
    else
      match body response with
      | Failed msg => (Raise (Exception msg), m)
      | Returned data =>
        let content := strip (get (om_content (message_of data)) []) in
        let language :=
          if is_empty content then es
          else match detect S content with
               | Returned l => l
               | Failed _ => es
               end in
        let m' := set_user_language m (lc_channel request)
                                    (lc_user_id request) language in
        (Ok {| lr_model := get (od_model data) (lc_model request);
               lr_created_at := get (od_created_at data) [];
               lr_message :=
                 {| lm_role := get (om_role (message_of data)) R_assistant;
                    lm_content := content;
                    lm_language := language |};
               lr_done := get_bool (od_done data) true;
               lr_total_duration := od_total_duration data;
               lr_load_duration := od_load_duration data;
               lr_prompt_eval_count := od_prompt_eval_count data;
               lr_prompt_eval_duration := od_prompt_eval_duration data;
               lr_eval_count := od_eval_count data;
               lr_eval_duration := od_eval_duration data |}, m')
      end
  end.

End LLMChat.

Arguments lc_messages {dict} _.
Arguments lc_model {dict} _.
Arguments lc_channel {dict} _.
Arguments lc_user_id {dict} _.
Arguments ollama_chat {dict Redis} _ _ _.
Arguments detect {dict Redis} _ _.
Arguments from_url {dict Redis} _.
Arguments setex {dict Redis} _ _ _ _ _.
Arguments redis_client {Redis} _.
Arguments commands {Redis} _.
Arguments get_redis {dict Redis} S m.
Arguments set_user_language {dict Redis} S m channel user_id language.
Arguments llm_chat {dict Redis} S m request.

(** ** The key of the language memory *)

Lemma cut_at_first (sep : N) (a b a' b' : str) :
  ~ In sep a -> ~ In sep a' ->
  a ++ sep :: b = a' ++ sep :: b' -> a = a' /\ b = b'.
Proof.
  revert a'. induction a as [|x a IH]; intros [|y a'] Ha Ha' E; cbn in E.
  - inversion E. auto.
  - inversion E; subst. exfalso. apply Ha'. now left.
  - inversion E; subst. exfalso. apply Ha. now left.
  - inversion E; subst.
    destruct (IH a') as [-> ->]; auto.
    + intros Hin. apply Ha. now right.
    + intros Hin. apply Ha'. now right.
Qed.

(** X11: two users get the same key of the language memory only if they
    are the same user of the same channel, as long as the names of the
    channels hold no colon; with a colon in the channel, the keys of
    different users can coincide. *)
Theorem language_key_injective :
  (forall channel user_id channel' user_id',
     ~ In COLON channel -> ~ In COLON channel' ->
     language_key channel user_id = language_key channel' user_id' ->
     channel = channel' /\ user_id = user_id') /\
  language_key (py "a:b") (py "c") = language_key (py "a") (py "b:c").
Proof.
  split; [|reflexivity].
  intros channel user_id channel' user_id' Hc Hc' E.
  unfold language_key in E. apply app_inv_head in E.
  exact (cut_at_first COLON _ _ _ _ Hc Hc' E).
Qed.

Definition whatsapp : str := Eval cbv in py "whatsapp".
Definition telegram : str := Eval cbv in py "telegram".

Definition sample_user : str := Eval cbv in py "5215512345678".

Lemma language_key_injective_witness :
  ~ In COLON whatsapp /\ (whatsapp = whatsapp /\ sample_user = sample_user).
Proof.
  assert (Hw : ~ In COLON whatsapp).
  { vm_compute. intros Hin.
    repeat (destruct Hin as [Hin|Hin]; [discriminate Hin|]). exact Hin. }
  split; [exact Hw|].
  exact (proj1 language_key_injective whatsapp sample_user whatsapp
               sample_user Hw Hw eq_refl).
Defined.

(** ** The answer of /llm_chat *)

Section LLMChatFacts.
Variables dict Redis : Type.

Lemma set_user_language_commands (S : Services dict Redis) (m : Memory Redis)
      (channel user_id language : str) :
  commands (set_user_language S m channel user_id language) = commands m
  \/ exists r,
       commands (set_user_language S m channel user_id language)
       = commands m
         ++ [{| sx_key := language_key channel user_id;
                sx_ttl := HISTORY_TTL; sx_value := language;
                sx_result := r |}].
Proof.
  unfold set_user_language, get_redis.
  destruct (redis_client m) as [c|].
  - right. eexists. reflexivity.
  - destruct (from_url S) as [c|msg].
    + right. eexists. reflexivity.
    + left. reflexivity.
Qed.

Lemma set_user_language_client (S : Services dict Redis) (m : Memory Redis)
      (channel user_id language : str) (c : Redis) :
  redis_client m = Some c ->
  redis_client (set_user_language S m channel user_id language) = Some c.
Proof.
  intros Hc. unfold set_user_language, get_redis. now rewrite Hc.
Qed.

End LLMChatFacts.

(** X12: a successful /llm_chat is an answer of Ollama with status 200 and
    a JSON body, and what it returns is read off that body: the content is
    the content of the message of the body, or the empty text when the key
    is absent, trimmed, so with no blank at either end; the role is the one
    of that message, assistant when absent, and the model the one of the
    body, the model of the request when absent. The language is es whenever
    the content is empty or langdetect fails on it, the language langdetect
    gives otherwise. The only thing sent to Redis is at most one SETEX of
    that language under the key of the user, with a time to live of 3600
    seconds, and a client that exists is kept. *)
Theorem llm_chat_reply (dict Redis : Type) (S : Services dict Redis)
        (m m' : Memory Redis) (request : LLMChatRequest dict)
        (reply : LLMChatResponse) :
  llm_chat S m request = (Ok reply, m') ->
  exists response data,
    ollama_chat S (lc_model request) (lc_messages request)
    = Returned response /\
    status_code response = 200%Z /\
    body response = Returned data /\
    let content := lm_content (lr_message reply) in
    let language := lm_language (lr_message reply) in
    content
    = strip match od_message data with
            | Some msg =>
              match om_content msg with Some c => c | None => [] end
            | None => []
            end /\
    lm_role (lr_message reply)
    = match od_message data with
      | Some msg =>
        match om_role msg with Some r => r | None => py "assistant" end
      | None => py "assistant"
      end /\
    lr_model reply
    = match od_model data with Some v => v | None => lc_model request end /\
    strip content = content /\
    (content = [] -> language = es) /\
    (content <> [] ->
     language
     = match detect S content with Returned l => l | Failed _ => es end) /\
    (commands m' = commands m
     \/ exists r,
          commands m'
          = commands m
            ++ [{| sx_key := language_key (lc_channel request)
                                          (lc_user_id request);
                   sx_ttl := 3600; sx_value := language;
                   sx_result := r |}]) /\
    (forall c, redis_client m = Some c -> redis_client m' = Some c).
Proof.
  unfold llm_chat.
  destruct (ollama_chat S _ _) as [response|msg]; [|discriminate].
  destruct (status_code response =? 200)%Z eqn:Es; [|discriminate].
  cbn [negb].
  destruct (body response) as [data|msg] eqn:Eb; [|discriminate].
  intros E. inversion E; subst. clear E.
  exists response, data.
  split; [reflexivity|]. split; [now apply Z.eqb_eq|].
  split; [exact Eb|].
  cbn [lr_message lr_model lm_content lm_language lm_role]. cbv zeta.
  split.
  { unfold message_of. destruct (od_message data) as [msg|]; reflexivity. }
  split.
  { unfold message_of. destruct (od_message data) as [msg|]; reflexivity. }
  split; [reflexivity|].
  split; [apply strip_idem|]. split; [intros ->; reflexivity|].
  split.
  - intros Hne. destruct (strip _); [contradiction | reflexivity].
  - split; [apply set_user_language_commands|].
    intros c Hc. now apply set_user_language_client.
Qed.

(** X13: Redis can neither fail a request to /llm_chat nor change its
    answer: two runs that get the same answers from Ollama and langdetect
    return the same result, whatever the client, the connection and the
    SETEX do. *)
Theorem llm_chat_ignores_redis (dict Redis : Type)
        (S1 S2 : Services dict Redis) (m1 m2 : Memory Redis)
        (request : LLMChatRequest dict) :
  ollama_chat S1 (lc_model request) (lc_messages request)
  = ollama_chat S2 (lc_model request) (lc_messages request) ->
  (forall content, detect S1 content = detect S2 content) ->
  fst (llm_chat S1 m1 request) = fst (llm_chat S2 m2 request).
Proof.
  intros Ho Hd. unfold llm_chat. rewrite Ho.
  destruct (ollama_chat S2 _ _) as [response|msg]; [|reflexivity].
  destruct (negb (status_code response =? 200)%Z); [reflexivity|].
  destruct (body response) as [data|msg]; [|reflexivity].
  cbn [fst]. now rewrite Hd.
Qed.

Definition hello_padded : str := Eval cbv in py "  Hello there  ".
Definition hello : str := Eval cbv in py "Hello there".

Definition sample_data : OllamaData :=
  {| od_model := None; od_created_at := None;
     od_message := Some {| om_role := None; om_content := Some hello_padded |};
     od_done := None; od_total_duration := Some 12%Z;
     od_load_duration := None; od_prompt_eval_count := None;
     od_prompt_eval_duration := None; od_eval_count := None;
     od_eval_duration := None |}.

(** Redis answers. *)
Definition redis_up : Services unit unit :=
  {| ollama_chat := fun _ _ => Returned (ok_response (Returned sample_data));
     detect := fun _ => Returned en;
     from_url := Returned tt;
     setex := fun _ _ _ _ => Returned tt |}.

(** The client cannot be made. *)
Definition redis_down : Services unit unit :=
  {| ollama_chat := fun _ _ => Returned (ok_response (Returned sample_data));
     detect := fun _ => Returned en;
     from_url := Failed sample_stderr;
     setex := fun _ _ _ _ => Failed sample_stderr |}.

Definition sample_request : LLMChatRequest unit :=
  {| lc_messages := [tt]; lc_model := default_LLM_MODEL;
     lc_channel := whatsapp; lc_user_id := sample_user |}.

Definition no_memory : Memory unit :=
  {| redis_client := None; commands := [] |}.

Definition sample_llm_reply : LLMChatResponse :=
  {| lr_model := default_LLM_MODEL; lr_created_at := [];
     lr_message := {| lm_role := R_assistant; lm_content := hello;
                      lm_language := en |};
     lr_done := true; lr_total_duration := Some 12%Z;
     lr_load_duration := None; lr_prompt_eval_count := None;
     lr_prompt_eval_duration := None; lr_eval_count := None;
     lr_eval_duration := None |}.

Definition memory_after : Memory unit :=
  {| redis_client := Some tt;
     commands := [{| sx_key := language_key whatsapp sample_user;
                     sx_ttl := 3600; sx_value := en;
                     sx_result := Returned tt |}] |}.

Lemma sample_llm_chat_run :
  llm_chat redis_up no_memory sample_request = (Ok sample_llm_reply, memory_after).
Proof. vm_compute. reflexivity. Qed.

Lemma llm_chat_reply_witness :
  exists response data,
    ollama_chat redis_up (lc_model sample_request) (lc_messages sample_request)
    = Returned response /\
    status_code response = 200%Z /\
    body response = Returned data /\
    let content := lm_content (lr_message sample_llm_reply) in
    let language := lm_language (lr_message sample_llm_reply) in
    content
    = strip match od_message data with
            | Some msg =>
              match om_content msg with Some c => c | None => [] end
            | None => []
            end /\
    lm_role (lr_message sample_llm_reply)
    = match od_message data with
      | Some msg =>
        match om_role msg with Some r => r | None => py "assistant" end
      | None => py "assistant"
      end /\
    lr_model sample_llm_reply
    = match od_model data with
      | Some v => v
      | None => lc_model sample_request
      end /\
    strip content = content /\
    (content = [] -> language = es) /\
    (content <> [] ->
     language
     = match detect redis_up content with
       | Returned l => l
       | Failed _ => es
       end) /\
    (commands memory_after = commands no_memory
     \/ exists r,
          commands memory_after
          = commands no_memory
            ++ [{| sx_key := language_key (lc_channel sample_request)
                                          (lc_user_id sample_request);
                   sx_ttl := 3600; sx_value := language;
                   sx_result := r |}]) /\
    (forall c, redis_client no_memory = Some c ->
               redis_client memory_after = Some c).
Proof.
  exact (llm_chat_reply unit unit redis_up no_memory memory_after
                        sample_request sample_llm_reply sample_llm_chat_run).
Defined.

Lemma llm_chat_ignores_redis_witness :
  fst (llm_chat redis_up no_memory sample_request)
  = fst (llm_chat redis_down memory_after sample_request).
Proof.
  apply (llm_chat_ignores_redis unit unit redis_up redis_down no_memory
                                memory_after sample_request).
  - reflexivity.
  - reflexivity.
Defined.

(** * The TTS service (stack_data/tts/app/main.py) *)

(** MODELOS_TTS: language to model name. *)
Definition MODELOS_TTS_dict : list (str * str) := Eval cbv in
  [ (py "es", py "tts_models/es/css10/vits");
    (py "en", py "tts_models/en/ljspeech/vits");
    (py "de", py "tts_models/de/thorsten/vits");
    (py "fr", py "tts_models/fr/css10/vits");
    (py "pt", py "tts_models/pt/cv/vits");
    (py "it", py "tts_models/it/mai_female/vits") ].

Definition D_error_sintetizar : str := Eval cbv in py "Error al sintetizar: ".
Definition KeyError (k : str) : exn := Exception k.

(** [d[k]] and [k in d] on a dict with string keys. *)
Definition lookup {V} (d : list (str * V)) (k : str) : option V :=
  match find (fun kv => str_eqb (fst kv) k) d with
  | Some kv => Some (snd kv)
  | None => None
  end.

(** How the run of ffmpeg in comprimir_silencios ends: the compressed
    file was read, subprocess.run raised CalledProcessError, or something
    else was raised. *)
Inductive silence_outcome :=
| Compressed (out : bytes)
| CalledProcessError
| SilenceFailed (msg : str).

Section Synthesizer.

(** [Model] is a loaded TTS object. *)
Variable Model : Type.

(** The libraries the service calls. The speed of the request is handed to
    tts_to_file as it is and is left out. *)
Record Engine := {
  TTS_load : str -> outcome Model;
  tts_to_file : Model -> str -> outcome bytes;
  langdetect : str -> outcome str;
  silenceremove : bytes -> silence_outcome
}.

(** The global [modelos_cargados], with the names TTS(...) was called
    on. *)
Record Loaded := {
  modelos_cargados : list (str * Model);
  loads : list str
}.

Variable E : Engine.

Definition obtener_modelo (st : Loaded) (idioma : str)
  : result (Model * str) * Loaded :=
  let idioma := if str_in idioma (map fst MODELOS_TTS_dict) then idioma
                else es in
  match lookup MODELOS_TTS_dict idioma with
  | None => (Raise (KeyError idioma), st)
  | Some modelo_nombre =>
    match lookup (modelos_cargados st) modelo_nombre with
    | Some tts => (Ok (tts, idioma), st)
    | None =>
      match TTS_load E modelo_nombre with
      | Returned tts =>
        (Ok (tts, idioma),
         {| modelos_cargados := modelos_cargados st ++ [(modelo_nombre, tts)];
            loads := loads st ++ [modelo_nombre] |})
      | Failed msg =>
        (Raise (Exception msg),
         {| modelos_cargados := modelos_cargados st;
            loads := loads st ++ [modelo_nombre] |})
      end
    end
  end.

(** The temporary files are not modelled. *)
Definition comprimir_silencios (audio_bytes : bytes) : result bytes :=
  match silenceremove E audio_bytes with
  | Compressed out => Ok out
  | CalledProcessError => Ok audio_bytes
  | SilenceFailed msg => Raise (Exception msg)
  end.

(** [str(e)] of what the try block of sintetizar may catch. *)
Definition str_of_exn (e : exn) : str :=
  match e with
  | Exception msg => msg
  | HTTPException _ detail => detail
  end.

(** POST /synthesize: the audio and the X-Detected-Language header. *)
Definition sintetizar (st : Loaded) (entrada : TTS.TextoEntrada)
  : result (bytes * str) * Loaded :=
  if is_empty (strip (TTS.texto entrada))
  then (Raise (HTTPException 400 D_texto_vacio), st)
  else
    let idioma_solicitado := TTS.idioma_solicitado (langdetect E) entrada in
    match obtener_modelo st idioma_solicitado with
    | (Raise e, st') =>
      (Raise (HTTPException 500 (D_error_sintetizar ++ str_of_exn e)), st')
    | (Ok (tts, idioma), st') =>
      match tts_to_file E tts (TTS.texto entrada) with
      | Failed msg =>
        (Raise (HTTPException 500 (D_error_sintetizar ++ msg)), st')
      | Returned wav =>
        match comprimir_silencios wav with
        | Raise e =>
          (Raise (HTTPException 500 (D_error_sintetizar ++ str_of_exn e)), st')
        | Ok audio_comprimido => (Ok (audio_comprimido, idioma), st')
        end
      end
    end.

End Synthesizer.

Arguments TTS_load {Model} _ _.
Arguments tts_to_file {Model} _ _ _.
Arguments langdetect {Model} _ _.
Arguments silenceremove {Model} _ _.
Arguments modelos_cargados {Model} _.
Arguments loads {Model} _.
Arguments obtener_modelo {Model} E st idioma.
Arguments comprimir_silencios {Model} E audio_bytes.
Arguments sintetizar {Model} E st entrada.

(** ** Properties of the TTS service *)

Lemma lookup_app_new {V} (d : list (str * V)) (k : str) (v : V) :
  lookup d k = None -> lookup (d ++ [(k, v)]) k = Some v.
Proof.
  unfold lookup. induction d as [|[k0 v0] d IH]; cbn [find app fst snd].
  - now rewrite str_eqb_refl.
  - destruct (str_eqb k0 k); [discriminate | exact IH].
Qed.

Lemma effective_language (idioma : str) :
  let i := if str_in idioma (map fst MODELOS_TTS_dict) then idioma else es in
  In i TTS.MODELOS_TTS /\ exists name, lookup MODELOS_TTS_dict i = Some name.
Proof.
  cbv zeta. destruct (str_in idioma (map fst MODELOS_TTS_dict)) eqn:Hin.
  - apply str_in_In in Hin. split; [exact Hin|].
    cbn in Hin.
    repeat (destruct Hin as [<- | Hin]; [eexists; reflexivity|]).
    destruct Hin.
  - split; [cbn; tauto | eexists; reflexivity].
Qed.

Section SynthesizerFacts.
Variable Model : Type.

Lemma obtener_modelo_language (E : Engine Model) (st st' : Loaded Model)
      (idioma i : str) (tts : Model) :
  obtener_modelo E st idioma = (Ok (tts, i), st') ->
  i = (if str_in idioma (map fst MODELOS_TTS_dict) then idioma else es).
Proof.
  unfold obtener_modelo.
  destruct (lookup MODELOS_TTS_dict _) as [name|]; [|discriminate].
  destruct (lookup (modelos_cargados st) name) as [m|].
  - intros Eq. now inversion Eq.
  - destruct (TTS_load E name); intros Eq; inversion Eq. reflexivity.
Qed.

End SynthesizerFacts.

(** X14: the language the TTS service reports in X-Detected-Language is
    always one of the six it has a model for: a language of the request
    that is among them is used as it is, and any other is replaced by
    es. *)
Theorem sintetizar_language (Model : Type) (E : Engine Model)
        (st st' : Loaded Model) (entrada : TTS.TextoEntrada)
        (audio : bytes) (idioma : str) :
  sintetizar E st entrada = (Ok (audio, idioma), st') ->
  In idioma TTS.MODELOS_TTS /\
  (forall i, TTS.idioma entrada = Some i -> i <> [] ->
     (In i TTS.MODELOS_TTS -> idioma = i) /\
     (~ In i TTS.MODELOS_TTS -> idioma = es)).
Proof.
  unfold sintetizar.
  destruct (is_empty (strip (TTS.texto entrada))); [discriminate|].
  destruct (obtener_modelo E st _) as [[[tts i0]|e] st1] eqn:Eo;
    [|discriminate].
  destruct (tts_to_file E tts _) as [wav|msg]; [|discriminate].
  destruct (comprimir_silencios E wav) as [out|e]; [|discriminate].
  intros Eq. inversion Eq; subst. clear Eq.
  apply obtener_modelo_language in Eo. split.
  - rewrite Eo. apply (effective_language _).
  - intros i Hi Hne. unfold TTS.idioma_solicitado in Eo. rewrite Hi in Eo.
    destruct i as [|c i]; [contradiction|]. cbn [is_empty] in Eo.
    change (map fst MODELOS_TTS_dict) with TTS.MODELOS_TTS in Eo.
    destruct (str_in (c :: i) TTS.MODELOS_TTS) eqn:Hin.
    + split; [intros _; exact Eo|]. intros Hn. apply str_in_In in Hin.
      contradiction.
    + split; [|intros _; exact Eo]. intros Hy. apply str_in_In in Hy.
      congruence.
Qed.

(** X15: a request to the TTS service fails in two ways only: with the 400
    [El texto no puede estar vacío], when the text is blank, before any
    model is looked up or loaded; and with a 500 whose detail starts with
    [Error al sintetizar: ], for everything that goes wrong after that. *)
Theorem sintetizar_failures (Model : Type) (E : Engine Model)
        (st st' : Loaded Model) (entrada : TTS.TextoEntrada) (e : exn) :
  sintetizar E st entrada = (Raise e, st') ->
  (strip (TTS.texto entrada) = [] /\
   e = HTTPException 400 D_texto_vacio /\ st' = st)
  \/
  (strip (TTS.texto entrada) <> [] /\
   exists msg, e = HTTPException 500 (D_error_sintetizar ++ msg)).
Proof.
  unfold sintetizar. destruct (strip (TTS.texto entrada)) as [|c s];
    cbn [is_empty].
  - intros Eq. inversion Eq. left. auto.
  - intros Eq. right. split; [discriminate|].
    destruct (obtener_modelo E st _) as [[[tts i0]|e0] st1].
    + destruct (tts_to_file E tts _) as [wav|msg].
      * destruct (comprimir_silencios E wav) as [out|e1];
          inversion Eq; subst; eexists; reflexivity.
      * inversion Eq; subst. eexists. reflexivity.
    + inversion Eq; subst. eexists. reflexivity.
Qed.

(** X16: when the run of ffmpeg that shortens the silences ends with
    CalledProcessError, the request does not fail: the audio of the model
    is returned as it was synthesized. *)
Theorem sintetizar_without_compression (Model : Type) (E : Engine Model)
        (st st' : Loaded Model) (entrada : TTS.TextoEntrada)
        (tts : Model) (idioma : str) (wav : bytes) :
  strip (TTS.texto entrada) <> [] ->
  obtener_modelo E st (TTS.idioma_solicitado (langdetect E) entrada)
  = (Ok (tts, idioma), st') ->
  tts_to_file E tts (TTS.texto entrada) = Returned wav ->
  silenceremove E wav = CalledProcessError ->
  sintetizar E st entrada = (Ok (wav, idioma), st').
Proof.
  intros Hne Ho Ht Hs. unfold sintetizar, comprimir_silencios.
  destruct (strip (TTS.texto entrada)); [contradiction|].
  cbn [is_empty]. now rewrite Ho, Ht, Hs.
Qed.

(** X17: a model is loaded once: after obtener_modelo has returned a model
    for a language, asking again for that language returns the same model
    and leaves the cache and the list of loads as they are, whatever the
    loader would do; and a language without a model is served by the model
    of es. *)
Theorem obtener_modelo_cached (Model : Type) (E E' : Engine Model)
        (st st1 : Loaded Model) (idioma i : str) (tts : Model) :
  obtener_modelo E st idioma = (Ok (tts, i), st1) ->
  obtener_modelo E' st1 idioma = (Ok (tts, i), st1) /\
  (~ In idioma TTS.MODELOS_TTS ->
   i = es /\ obtener_modelo E' st1 es = (Ok (tts, es), st1)).
Proof.
  intros Ho.
  assert (Hagain : obtener_modelo E' st1 idioma = (Ok (tts, i), st1)).
  { revert Ho. unfold obtener_modelo.
    destruct (lookup MODELOS_TTS_dict _) as [name|]; [|discriminate].
    destruct (lookup (modelos_cargados st) name) as [m|] eqn:El.
    - intros Eq. inversion Eq; subst. now rewrite El.
    - destruct (TTS_load E name) as [m|msg]; intros Eq; inversion Eq; subst.
      cbn [modelos_cargados]. now rewrite (lookup_app_new _ _ _ El). }
  split; [exact Hagain|]. intros Hn.
  assert (Hs : str_in idioma (map fst MODELOS_TTS_dict) = false).
  { destruct (str_in idioma (map fst MODELOS_TTS_dict)) eqn:Hin;
      [|reflexivity].
    apply str_in_In in Hin. contradiction. }
  pose proof (obtener_modelo_language _ _ _ _ _ _ _ Ho) as Hi.
  rewrite Hs in Hi. subst i. split; [reflexivity|].
  revert Hagain. unfold obtener_modelo. rewrite Hs.
  change (str_in es (map fst MODELOS_TTS_dict)) with true. cbv iota.
  auto.
Qed.

(** A synthesizer whose models are their names and whose ffmpeg always
    ends with CalledProcessError, and one that cannot load any model. *)
Definition sample_engine : Engine str :=
  {| TTS_load := fun name => Returned name;
     tts_to_file := fun _ _ => Returned sample_wav;
     langdetect := fun _ => Returned en;
     silenceremove := fun _ => CalledProcessError |}.

Definition engine_without_loader : Engine str :=
  {| TTS_load := fun _ => Failed sample_stderr;
     tts_to_file := fun _ _ => Returned sample_wav;
     langdetect := fun _ => Returned en;
     silenceremove := fun _ => CalledProcessError |}.

Definition nothing_loaded : Loaded str :=
  {| modelos_cargados := []; loads := [] |}.

Definition model_en : str := Eval cbv in py "tts_models/en/ljspeech/vits".
Definition model_es : str := Eval cbv in py "tts_models/es/css10/vits".
Definition klingon : str := Eval cbv in py "tlh".

Definition en_loaded : Loaded str :=
  {| modelos_cargados := [(model_en, model_en)]; loads := [model_en] |}.

Definition es_loaded : Loaded str :=
  {| modelos_cargados := [(model_es, model_es)]; loads := [model_es] |}.

Lemma sample_synthesis :
  sintetizar sample_engine nothing_loaded (TTS.entrada_of_call hola en)
  = (Ok (sample_wav, en), en_loaded).
Proof. vm_compute. reflexivity. Qed.

Lemma sintetizar_language_witness :
  In en TTS.MODELOS_TTS /\
  (forall i, TTS.idioma (TTS.entrada_of_call hola en) = Some i -> i <> [] ->
     (In i TTS.MODELOS_TTS -> en = i) /\ (~ In i TTS.MODELOS_TTS -> en = es)).
Proof.
  exact (sintetizar_language str sample_engine nothing_loaded en_loaded
           (TTS.entrada_of_call hola en) sample_wav en sample_synthesis).
Defined.

Definition blanks : str := Eval cbv in py "   ".

Definition blank_entrada : TTS.TextoEntrada :=
  {| TTS.texto := blanks; TTS.idioma := None |}.

Lemma blank_synthesis :
  sintetizar sample_engine nothing_loaded blank_entrada
  = (Raise (HTTPException 400 D_texto_vacio), nothing_loaded).
Proof. vm_compute. reflexivity. Qed.

Lemma sintetizar_failures_witness :
  (strip (TTS.texto blank_entrada) = [] /\
   HTTPException 400 D_texto_vacio = HTTPException 400 D_texto_vacio /\
   nothing_loaded = nothing_loaded)
  \/
  (strip (TTS.texto blank_entrada) <> [] /\
   exists msg,
     HTTPException 400 D_texto_vacio
     = HTTPException 500 (D_error_sintetizar ++ msg)).
Proof.
  exact (sintetizar_failures str sample_engine nothing_loaded nothing_loaded
           blank_entrada _ blank_synthesis).
Defined.

Lemma sintetizar_without_compression_witness :
  sintetizar sample_engine nothing_loaded (TTS.entrada_of_call hola en)
  = (Ok (sample_wav, en), en_loaded).
Proof.
  apply (sintetizar_without_compression str sample_engine nothing_loaded
           en_loaded (TTS.entrada_of_call hola en) model_en en sample_wav).
  - vm_compute. discriminate.
  - vm_compute. reflexivity.
  - reflexivity.
  - reflexivity.
Defined.

Lemma klingon_model :
  obtener_modelo sample_engine nothing_loaded klingon
  = (Ok (model_es, es), es_loaded).
Proof. vm_compute. reflexivity. Qed.

Lemma obtener_modelo_cached_witness :
  obtener_modelo engine_without_loader es_loaded klingon
  = (Ok (model_es, es), es_loaded) /\
  (~ In klingon TTS.MODELOS_TTS ->
   es = es /\
   obtener_modelo engine_without_loader es_loaded es
   = (Ok (model_es, es), es_loaded)).
Proof.
  exact (obtener_modelo_cached str sample_engine engine_without_loader
           nothing_loaded es_loaded klingon es model_es klingon_model).
Defined.

(** * The STT service (stack_data/stt/app/main.py and
    dockerfiles/app/stt/main.py) *)

(** [s.rfind(c)]: the index of the last [c], or -1. *)
Fixpoint rfind (c : N) (s : str) : Z :=
  match s with
  | [] => -1
  | x :: t =>
    let r := rfind c t in
    if (r >=? 0)%Z then (r + 1)%Z
    else if (x =? c)%N then 0%Z else (-1)%Z
  end.

(** posixpath.splitext: the extension starts at the last dot, when that
    dot comes after the last slash and some character between the two is
    not a dot. *)
Definition splitext (p : str) : str * str :=
  let sepIndex := rfind 47%N p in
  let dotIndex := rfind 46%N p in
  if (dotIndex >? sepIndex)%Z
     && existsb (fun x => negb (x =? 46)%N)
                (slice (Z.to_nat (sepIndex + 1)) (Z.to_nat dotIndex) p)
  then (firstn (Z.to_nat dotIndex) p, skipn (Z.to_nat dotIndex) p)
  else (p, []).

Definition EXT_ogg : str := Eval cbv in py ".ogg".
Definition EXT_wav : str := Eval cbv in py ".wav".
Definition D_error_transcribir : str := Eval cbv in py "Error al transcribir: ".
Definition D_sin_archivo : str := Eval cbv in
  py "No se proporcionó archivo de audio".
Definition K_text : str := Eval cbv in py "'text'".
Definition K_language : str := Eval cbv in py "'language'".

(** [os.path.splitext(audio.filename or "audio.ogg")[1] or ".ogg"] *)
Definition extension_of (name : option str) : str :=
  let ext := snd (splitext (py_or name audio_ogg)) in
  if is_empty ext then EXT_ogg else ext.

(** The keys read from the result of Whisper; None is an absent key. The
    probability, a float, is left out. *)
Record WhisperResult := { w_text : option str; w_language : option str }.

Record TranscripcionResponse := { t_texto : str; t_idioma : str }.

Section Transcriber.

(** [Whisper] is a loaded model. *)
Variable Whisper : Type.

(** The libraries the service calls: Whisper, and the temporary file
    (NamedTemporaryFile with delete=False gives the path of a file it has
    created; writing to it may fail). *)
Record WhisperLib := {
  load_model : outcome Whisper;
  transcribe : Whisper -> str -> outcome WhisperResult;
  mkstemp : str -> outcome str;
  write_temp : str -> bytes -> outcome unit
}.

(** The global [modelo] and the temporary files that exist. *)
Record Disk := { stt_modelo : option Whisper; temp_files : list str }.

Variable L : WhisperLib.

Definition cargar_modelo (d : Disk) : result Whisper * Disk :=
  match stt_modelo d with
  | Some m => (Ok m, d)
  | None =>
    match load_model L with
    | Returned m =>
      (Ok m, {| stt_modelo := Some m; temp_files := temp_files d |})
    | Failed msg => (Raise (Exception msg), d)
    end
  end.

(** [os.unlink(path)], after [os.path.exists(path)]. *)
Definition unlink (path : str) (d : Disk) : Disk :=
  {| stt_modelo := stt_modelo d;
     temp_files := filter (fun f => negb (str_eqb f path)) (temp_files d) |}.

Definition created (path : str) (d : Disk) : Disk :=
  {| stt_modelo := stt_modelo d; temp_files := path :: temp_files d |}.

Definition error_500 (msg : str) : exn :=
  HTTPException 500 (D_error_transcribir ++ msg).

(** [resultado["text"].strip()] and [resultado["language"]]: a missing key
    is a KeyError, which the handler catches like any other exception. *)
Definition read_result (resultado : WhisperResult)
  : result TranscripcionResponse :=
  match w_text resultado with
  | None => Raise (error_500 K_text)
  | Some text =>
    match w_language resultado with
    | None => Raise (error_500 K_language)
    | Some language => Ok {| t_texto := strip text; t_idioma := language |}
    end
  end.

(** POST /transcribe, stack_data: [tmp_path] is set once the file is
    written, and the finally clause removes the file it names. *)
Definition transcribir (d : Disk) (audio : UploadFile)
  : result TranscripcionResponse * Disk :=
  let extension := extension_of (filename audio) in
  let contenido := file_content audio in
  if is_empty contenido
  then (Raise (HTTPException 400 D_audio_vacio), d)
  else
    match mkstemp L extension with
    | Failed msg => (Raise (error_500 msg), d)
    | Returned tmp_path =>
      let d1 := created tmp_path d in
      match write_temp L tmp_path contenido with
      | Failed msg => (Raise (error_500 msg), d1)
      | Returned _ =>
        match cargar_modelo d1 with
        | (Raise e, d2) =>
          (Raise (error_500 (str_of_exn e)), unlink tmp_path d2)
        | (Ok modelo, d2) =>
          match transcribe L modelo tmp_path with
          | Failed msg => (Raise (error_500 msg), unlink tmp_path d2)
          | Returned resultado => (read_result resultado, unlink tmp_path d2)
          end
        end
      end
    end.

(** POST /transcribe, dockerfiles: the file is removed after the
    transcription, on that path only. *)
Definition transcribir_dockerfiles (d : Disk) (audio : UploadFile)
  : result TranscripcionResponse * Disk :=
  if is_empty (py_or (filename audio) [])
  then (Raise (HTTPException 400 D_sin_archivo), d)
  else
    match mkstemp L EXT_wav with
    | Failed msg => (Raise (error_500 msg), d)
    | Returned tmp_path =>
      let d1 := created tmp_path d in
      match write_temp L tmp_path (file_content audio) with
      | Failed msg => (Raise (error_500 msg), d1)
      | Returned _ =>
        match cargar_modelo d1 with
        | (Raise e, d2) => (Raise (error_500 (str_of_exn e)), d2)
        | (Ok modelo, d2) =>
          match transcribe L modelo tmp_path with
          | Failed msg => (Raise (error_500 msg), d2)
          | Returned resultado => (read_result resultado, unlink tmp_path d2)
          end
        end
      end
    end.

End Transcriber.

Arguments load_model {Whisper} _.
Arguments transcribe {Whisper} _ _ _.
Arguments mkstemp {Whisper} _ _.
Arguments write_temp {Whisper} _ _ _.
Arguments stt_modelo {Whisper} _.
Arguments temp_files {Whisper} _.
Arguments cargar_modelo {Whisper} L d.
Arguments unlink {Whisper} path d.
Arguments created {Whisper} path d.
Arguments transcribir {Whisper} L d audio.
Arguments transcribir_dockerfiles {Whisper} L d audio.

(** ** The suffix of the temporary file *)

Lemma rfind_spec (c : N) (s : str) :
  (rfind c s = (-1)%Z /\ ~ In c s)
  \/ (exists rest,
        (0 <= rfind c s)%Z /\
        skipn (Z.to_nat (rfind c s)) s = c :: rest /\ ~ In c rest).
Proof.
  induction s as [|x t IH]; cbn [rfind].
  - left. split; [reflexivity | intros []].
  - destruct IH as [[Hr Hn] | [rest [Hr [Hs Hn]]]].
    + rewrite Hr. cbn [Z.geb Z.compare]. destruct (x =? c)%N eqn:E.
      * apply N.eqb_eq in E. subst x. right. exists t.
        repeat split; [lia | exact Hn].
      * apply N.eqb_neq in E. left. split; [reflexivity|].
        intros [Hx | Hin]; [congruence | contradiction].
    + assert (Hge : (rfind c t >=? 0)%Z = true) by (apply Z.geb_le; lia).
      rewrite Hge. right. exists rest. split; [lia|]. split; [|exact Hn].
      replace (Z.to_nat (rfind c t + 1)) with (S (Z.to_nat (rfind c t)))
        by lia.
      exact Hs.
Qed.

Lemma In_skipn_le {A} (x : A) (l : list A) (m n : nat) :
  m <= n -> In x (skipn n l) -> In x (skipn m l).
Proof.
  intros Hle Hin. replace n with ((n - m) + m) in Hin by lia.
  rewrite <- skipn_skipn in Hin.
  pose proof (firstn_skipn (n - m) (skipn m l)) as E.
  rewrite <- E. apply in_or_app. now right.
Qed.

Lemma In_skipn {A} (x : A) (l : list A) (n : nat) :
  In x (skipn n l) -> In x l.
Proof.
  intros Hin. rewrite <- (firstn_skipn n l). apply in_or_app. now right.
Qed.

Lemma splitext_extension (p : str) :
  snd (splitext p) = []
  \/ exists rest,
       snd (splitext p) = 46%N :: rest /\ ~ In 46%N rest /\ ~ In 47%N rest.
Proof.
  unfold splitext.
  destruct ((rfind 46 p >? rfind 47 p)%Z && _) eqn:Hc; [|left; reflexivity].
  apply andb_prop in Hc. destruct Hc as [Hgt _]. apply Z.gtb_lt in Hgt.
  right. cbn [snd].
  destruct (rfind_spec 46%N p) as [[Hd _] | [rest [Hd [Hs Hn]]]].
  - destruct (rfind_spec 47%N p) as [[Hp _] | [rest' [Hp _]]]; lia.
  - exists rest. split; [exact Hs|]. split; [exact Hn|].
    assert (Hrest : rest = skipn (S (Z.to_nat (rfind 46 p))) p).
    { change (S (Z.to_nat (rfind 46 p))) with (1 + Z.to_nat (rfind 46 p)).
      rewrite <- skipn_skipn, Hs. reflexivity. }
    intros Hin. rewrite Hrest in Hin.
    destruct (rfind_spec 47%N p) as [[_ Hp] | [rest' [Hp [Hs' Hn']]]].
    + apply Hp. exact (In_skipn _ _ _ Hin).
    + apply Hn'.
      assert (Hrest' : rest' = skipn (S (Z.to_nat (rfind 47 p))) p).
      { change (S (Z.to_nat (rfind 47 p))) with (1 + Z.to_nat (rfind 47 p)).
        rewrite <- skipn_skipn, Hs'. reflexivity. }
      rewrite Hrest'. revert Hin. apply In_skipn_le. lia.
Qed.

(** X18: whatever the name of the upload, the suffix given to the
    temporary file of /transcribe is a dot followed by characters among
    which there is no dot and no slash: never empty, [.ogg] when the name
    is missing or has no extension, and never a path. *)
Theorem temp_suffix_shape (name : option str) :
  exists rest,
    extension_of name = 46%N :: rest /\ ~ In 46%N rest /\ ~ In 47%N rest.
Proof.
  unfold extension_of.
  destruct (splitext_extension (py_or name audio_ogg))
    as [-> | [rest [-> Hrest]]].
  - cbn [is_empty]. eexists. split; [reflexivity|].
    split; intros Hin; cbv in Hin;
      repeat (destruct Hin as [Hin|Hin]; [discriminate Hin|]); exact Hin.
  - cbn [is_empty]. exists rest. split; [reflexivity | exact Hrest].
Qed.

Example extension_of_examples :
  extension_of None = py ".ogg" /\
  extension_of (Some (py "nota.de.voz.OPUS")) = py ".OPUS" /\
  extension_of (Some (py "../../etc/passwd")) = py ".ogg" /\
  extension_of (Some (py "a.b/c")) = py ".ogg" /\
  extension_of (Some (py ".bashrc")) = py ".ogg" /\
  extension_of (Some (py "audio.")) = py ".".
Proof. vm_compute. repeat split; reflexivity. Qed.

(** ** The temporary file *)

Section TranscriberFacts.
Variable Whisper : Type.

Lemma unlink_created (path : str) (files : list str) :
  ~ In path files ->
  filter (fun f => negb (str_eqb f path)) (path :: files) = files.
Proof.
  intros Hn. cbn [filter]. rewrite str_eqb_refl. cbn [negb].
  induction files as [|f files IH]; cbn [filter]; [reflexivity|].
  destruct (str_eqb f path) eqn:E.
  - apply str_eqb_eq in E. subst f. exfalso. apply Hn. now left.
  - cbn [negb]. rewrite IH; [reflexivity|]. intros Hin. apply Hn. now right.
Qed.

Lemma cargar_modelo_files (L : WhisperLib Whisper) (d d' : Disk Whisper)
      (r : result Whisper) :
  cargar_modelo L d = (r, d') -> temp_files d' = temp_files d.
Proof.
  unfold cargar_modelo. destruct (stt_modelo d).
  - intros E. now inversion E.
  - destruct (load_model L); intros E; now inversion E.
Qed.

End TranscriberFacts.

(** X19: in the service under stack_data, once the upload has been written
    to its temporary file, that file is gone when /transcribe returns,
    whether the model loads or not and whether the transcription succeeds
    or not: the temporary files are those there were before. *)
Theorem transcribir_removes_temp_file (Whisper : Type)
        (L : WhisperLib Whisper) (d : Disk Whisper) (audio : UploadFile)
        (tmp_path : str) :
  file_content audio <> [] ->
  mkstemp L (extension_of (filename audio)) = Returned tmp_path ->
  ~ In tmp_path (temp_files d) ->
  write_temp L tmp_path (file_content audio) = Returned tt ->
  temp_files (snd (transcribir L d audio)) = temp_files d.
Proof.
  intros Hne Hm Hfresh Hw. unfold transcribir.
  destruct (file_content audio) as [|b0 rest] eqn:Ec; [contradiction|].
  cbn [is_empty]. rewrite Hm, Hw.
  destruct (cargar_modelo L (created tmp_path d)) as [[modelo|e] d2] eqn:El;
    apply cargar_modelo_files in El; cbn [created temp_files] in El.
  - destruct (transcribe L modelo tmp_path); cbn [snd unlink temp_files];
      rewrite El; now apply unlink_created.
  - cbn [snd unlink temp_files]. rewrite El. now apply unlink_created.
Qed.

(** X20: in the variant under dockerfiles the temporary file is removed
    only after a transcription: when the model cannot be loaded or the
    transcription fails, the request ends with a 500 and the file is
    still there. *)
Theorem transcribir_dockerfiles_leaves_temp_file (Whisper : Type)
        (L : WhisperLib Whisper) (d : Disk Whisper) (audio : UploadFile)
        (tmp_path : str) :
  py_or (filename audio) [] <> [] ->
  mkstemp L EXT_wav = Returned tmp_path ->
  write_temp L tmp_path (file_content audio) = Returned tt ->
  (forall modelo d2, cargar_modelo L (created tmp_path d) = (Ok modelo, d2) ->
                     exists msg, transcribe L modelo tmp_path = Failed msg) ->
  In tmp_path (temp_files (snd (transcribir_dockerfiles L d audio))) /\
  exists msg,
    fst (transcribir_dockerfiles L d audio)
    = Raise (HTTPException 500 (D_error_transcribir ++ msg)).
Proof.
  intros Hname Hm Hw Hfail. unfold transcribir_dockerfiles.
  destruct (py_or (filename audio) []) as [|c0 rest]; [contradiction|].
  cbn [is_empty]. rewrite Hm, Hw.
  destruct (cargar_modelo L (created tmp_path d)) as [[modelo|e] d2] eqn:El.
  - destruct (Hfail modelo d2 eq_refl) as [msg ->].
    apply cargar_modelo_files in El. cbn [created temp_files] in El.
    cbn [fst snd]. rewrite El. split; [now left | eexists; reflexivity].
  - apply cargar_modelo_files in El. cbn [created temp_files] in El.
    cbn [fst snd]. rewrite El. split; [now left | eexists; reflexivity].
Qed.

(** X21: a successful /transcribe of the service under stack_data returns a
    text with no blank at either end; a failed one raises the 400
    [Archivo de audio vacío] exactly when the upload is empty, in which
    case nothing is written or loaded, and a 500 whose detail starts with
    [Error al transcribir: ] otherwise. *)
Theorem transcribir_result (Whisper : Type) (L : WhisperLib Whisper)
        (d d' : Disk Whisper) (audio : UploadFile) :
  (forall reply,
     transcribir L d audio = (Ok reply, d') ->
     strip (t_texto reply) = t_texto reply /\ file_content audio <> []) /\
  (forall e,
     transcribir L d audio = (Raise e, d') ->
     (file_content audio = [] /\ e = HTTPException 400 D_audio_vacio /\ d' = d)
     \/
     (file_content audio <> [] /\
      exists msg, e = HTTPException 500 (D_error_transcribir ++ msg))).
Proof.
  unfold transcribir. destruct (file_content audio) as [|b0 rest];
    cbn [is_empty].
  - split; [discriminate|]. intros e E. inversion E. left. auto.
  - assert (Hread : forall resultado,
      (forall reply, read_result resultado = Ok reply ->
                     strip (t_texto reply) = t_texto reply) /\
      (forall e, read_result resultado = Raise e ->
                 exists msg, e = HTTPException 500
                                   (D_error_transcribir ++ msg))).
    { intros resultado. unfold read_result, error_500.
      destruct (w_text resultado); [destruct (w_language resultado)|];
        split; intros x E; inversion E; subst;
        first [apply strip_idem | eexists; reflexivity]. }
    split.
    + intros reply E. split; [|discriminate]. revert E.
      destruct (mkstemp L _); [|discriminate].
      destruct (write_temp L _ _); [|discriminate].
      destruct (cargar_modelo L _) as [[modelo|e] d2]; [|discriminate].
      destruct (transcribe L modelo _) as [resultado|msg]; [|discriminate].
      intros E. inversion E as [[Hr Hd]]. exact (proj1 (Hread resultado) _ Hr).
    + intros e E. right. split; [discriminate|]. revert E. unfold error_500.
      destruct (mkstemp L _);
        [|intros E; inversion E; eexists; reflexivity].
      destruct (write_temp L _ _);
        [|intros E; inversion E; eexists; reflexivity].
      destruct (cargar_modelo L _) as [[modelo|e0] d2];
        [|intros E; inversion E; eexists; reflexivity].
      destruct (transcribe L modelo _) as [resultado|msg];
        [|intros E; inversion E; eexists; reflexivity].
      intros E. inversion E as [[Hr Hd]]. exact (proj2 (Hread resultado) _ Hr).
Qed.

Definition tmp_prefix : str := Eval cbv in py "/tmp/tmpk3v9x2".
Definition padded_hola : str := Eval cbv in py "  hola  ".

(** Whisper transcribes, and Whisper fails on the file. *)
Definition whisper_ok : WhisperLib unit :=
  {| load_model := Returned tt;
     transcribe := fun _ _ =>
       Returned {| w_text := Some padded_hola; w_language := Some es |};
     mkstemp := fun suffix => Returned (tmp_prefix ++ suffix);
     write_temp := fun _ _ => Returned tt |}.

Definition whisper_fails : WhisperLib unit :=
  {| load_model := Returned tt;
     transcribe := fun _ _ => Failed sample_stderr;
     mkstemp := fun suffix => Returned (tmp_prefix ++ suffix);
     write_temp := fun _ _ => Returned tt |}.

Definition empty_disk : Disk unit := {| stt_modelo := None; temp_files := [] |}.

Definition nota_opus : str := Eval cbv in py "nota.opus".

Definition voice_note : UploadFile :=
  {| filename := Some nota_opus; file_content := sample_ogg |}.

Definition voice_note_path : str := Eval cbv in tmp_prefix ++ py ".opus".
Definition voice_note_path_wav : str := Eval cbv in tmp_prefix ++ py ".wav".

Lemma transcribir_removes_temp_file_witness :
  temp_files (snd (transcribir whisper_fails empty_disk voice_note))
  = temp_files empty_disk.
Proof.
  apply (transcribir_removes_temp_file unit whisper_fails empty_disk
           voice_note voice_note_path).
  - discriminate.
  - vm_compute. reflexivity.
  - intros [].
  - reflexivity.
Defined.

Lemma transcribir_dockerfiles_leaves_temp_file_witness :
  In voice_note_path_wav
     (temp_files (snd (transcribir_dockerfiles whisper_fails empty_disk
                                               voice_note))) /\
  exists msg,
    fst (transcribir_dockerfiles whisper_fails empty_disk voice_note)
    = Raise (HTTPException 500 (D_error_transcribir ++ msg)).
Proof.
  apply (transcribir_dockerfiles_leaves_temp_file unit whisper_fails
           empty_disk voice_note voice_note_path_wav).
  - discriminate.
  - vm_compute. reflexivity.
  - reflexivity.
  - intros modelo d2 _. eexists. reflexivity.
Defined.

Definition transcribed : TranscripcionResponse :=
  {| t_texto := hola; t_idioma := es |}.

Definition disk_after : Disk unit :=
  {| stt_modelo := Some tt; temp_files := [] |}.

Lemma sample_transcription :
  transcribir whisper_ok empty_disk voice_note = (Ok transcribed, disk_after).
Proof. vm_compute. reflexivity. Qed.

Lemma transcribir_result_witness :
  strip (t_texto transcribed) = t_texto transcribed /\
  file_content voice_note <> [].
Proof.
  exact (proj1 (transcribir_result unit whisper_ok empty_disk disk_after
                                   voice_note)
               transcribed sample_transcription).
Defined.

(** * Base64 (image_to_base64, wav_to_ogg_base64) *)

Lemma b64_char_inj (n m : N) :
  (n < 64)%N -> (m < 64)%N -> b64_char n = b64_char m -> n = m.
Proof.
  unfold b64_char. intros Hn Hm.
  repeat match goal with
         | |- context [if ?c then _ else _] => destruct c eqn:?
         end;
    repeat match goal with
           | H : (_ <? _)%N = true |- _ => apply N.ltb_lt in H
           | H : (_ <? _)%N = false |- _ => apply N.ltb_ge in H
           | H : (_ =? _)%N = true |- _ => apply N.eqb_eq in H
           | H : (_ =? _)%N = false |- _ => apply N.eqb_neq in H
           end; lia.
Qed.

Lemma b64_char_not_pad (n : N) : (n < 64)%N -> b64_char n <> 61%N.
Proof.
  unfold b64_char. intros Hn.
  repeat match goal with
         | |- context [if ?c then _ else _] => destruct c eqn:?
         end;
    repeat match goal with
           | H : (_ <? _)%N = true |- _ => apply N.ltb_lt in H
           | H : (_ <? _)%N = false |- _ => apply N.ltb_ge in H
           | H : (_ =? _)%N = true |- _ => apply N.eqb_eq in H
           | H : (_ =? _)%N = false |- _ => apply N.eqb_neq in H
           end; lia.
Qed.

Definition is_byte (x : N) : Prop := (x < 256)%N.

Ltac euclid x d :=
  let q := fresh "q" in
  let r := fresh "r" in
  pose proof (N.div_mod x d ltac:(discriminate));
  pose proof (N.mod_lt x d ltac:(discriminate));
  set (q := (x / d)%N) in *; set (r := (x mod d)%N) in *;
  clearbody q r.

Lemma sextet_1 (x : N) : is_byte x -> (x / 4 < 64)%N.
Proof. unfold is_byte. intros. euclid x 4%N. lia. Qed.

Lemma sextet_2 (x y : N) : is_byte y -> ((x mod 4) * 16 + y / 16 < 64)%N.
Proof. unfold is_byte. intros. euclid x 4%N. euclid y 16%N. lia. Qed.

Lemma sextet_3 (y z : N) : is_byte z -> ((y mod 16) * 4 + z / 64 < 64)%N.
Proof. unfold is_byte. intros. euclid y 16%N. euclid z 64%N. lia. Qed.

Lemma sextet_4 (z : N) : (z mod 64 < 64)%N.
Proof. apply N.mod_lt. discriminate. Qed.

Lemma sextet_2_last (x : N) : ((x mod 4) * 16 < 64)%N.
Proof. euclid x 4%N. lia. Qed.

Lemma sextet_3_last (y : N) : ((y mod 16) * 4 < 64)%N.
Proof. euclid y 16%N. lia. Qed.

Lemma group_1_inj (x x' : N) :
  (x / 4 = x' / 4)%N -> ((x mod 4) * 16 = (x' mod 4) * 16)%N -> x = x'.
Proof. intros. euclid x 4%N. euclid x' 4%N. lia. Qed.

Lemma group_2_inj (x y x' y' : N) :
  is_byte y -> is_byte y' ->
  (x / 4 = x' / 4)%N ->
  ((x mod 4) * 16 + y / 16 = (x' mod 4) * 16 + y' / 16)%N ->
  ((y mod 16) * 4 = (y' mod 16) * 4)%N -> x = x' /\ y = y'.
Proof.
  unfold is_byte. intros.
  euclid x 4%N. euclid x' 4%N. euclid y 16%N. euclid y' 16%N. lia.
Qed.

Lemma group_3_inj (x y z x' y' z' : N) :
  is_byte y -> is_byte y' -> is_byte z -> is_byte z' ->
  (x / 4 = x' / 4)%N ->
  ((x mod 4) * 16 + y / 16 = (x' mod 4) * 16 + y' / 16)%N ->
  ((y mod 16) * 4 + z / 64 = (y' mod 16) * 4 + z' / 64)%N ->
  (z mod 64 = z' mod 64)%N -> x = x' /\ y = y' /\ z = z'.
Proof.
  unfold is_byte. intros.
  euclid x 4%N. euclid x' 4%N. euclid y 16%N. euclid y' 16%N.
  euclid z 64%N. euclid z' 64%N. lia.
Qed.

(** Induction in steps of three, the way [b64encode_N] recurses. *)
Lemma list_ind3 {A} (P : list A -> Prop) :
  P [] -> (forall x, P [x]) -> (forall x y, P [x; y]) ->
  (forall x y z rest, P rest -> P (x :: y :: z :: rest)) ->
  forall l, P l.
Proof.
  intros H0 H1 H2 H3.
  assert (Hall : forall l, P l /\ (forall x, P (x :: l))
                           /\ (forall x y, P (x :: y :: l))).
  { induction l as [| a l [IH0 [IH1 IH2]]].
    - repeat split; auto.
    - repeat split; auto. }
  intros l. apply Hall.
Qed.

Ltac bounds :=
  first [ apply sextet_1; assumption | apply sextet_2; assumption
        | apply sextet_3; assumption | apply sextet_4
        | apply sextet_2_last | apply sextet_3_last ].

Lemma cons_eq {A} (a b : A) (l l' : list A) : a :: l = b :: l' -> a = b /\ l = l'.
Proof. intros E. injection E. auto. Qed.

Lemma b64encode_N_inj (a : list N) :
  forall b, Forall is_byte a -> Forall is_byte b ->
            b64encode_N a = b64encode_N b -> a = b.
Proof.
  induction a as [| x | x y | x y z rest IH] using list_ind3;
    intros [| x' [| y' [| z' rest']]] Ha Hb E;
    cbn [b64encode_N app] in E.
  all: try reflexivity.
  all: try (exfalso; apply (f_equal (@List.length N)) in E;
            cbn [List.length] in E; discriminate E).
  all: repeat match goal with
              | H : Forall _ (_ :: _) |- _ => inversion H; subst; clear H
              end.
  all: repeat match goal with
              | H : _ :: _ = _ :: _ |- _ =>
                apply cons_eq in H; destruct H as [? H]
              end.
  all: try match goal with
           | H : 61%N = b64_char _ |- _ => symmetry in H
           end.
  all: try match goal with
           | H : b64_char _ = 61%N |- _ =>
             exfalso; revert H; apply b64_char_not_pad; bounds
           end.
  all: repeat match goal with
              | H : b64_char ?n = b64_char ?m |- _ =>
                assert (n = m)
                  by (apply b64_char_inj; [| | exact H]; bounds);
                clear H
              end.
  - f_equal. apply group_1_inj; assumption.
  - destruct (group_2_inj x y x' y') as [-> ->]; auto.
  - destruct (group_3_inj x y z x' y' z') as [-> [-> ->]]; auto.
    f_equal. f_equal. f_equal. apply IH; assumption.
Qed.

Lemma to_N_inj (a b : byte) : Byte.to_N a = Byte.to_N b -> a = b.
Proof.
  intros E. pose proof (Byte.of_to_N a) as Ha.
  rewrite E, Byte.of_to_N in Ha. now inversion Ha.
Qed.

Lemma map_to_N_inj (a : bytes) :
  forall b, map Byte.to_N a = map Byte.to_N b -> a = b.
Proof.
  induction a as [| x a IH]; intros [| y b] E; try discriminate E.
  - reflexivity.
  - cbn [map] in E. injection E as E1 E2.
    apply to_N_inj in E1. subst. f_equal. now apply IH.
Qed.

Lemma to_N_is_byte (data : bytes) : Forall is_byte (map Byte.to_N data).
Proof.
  induction data as [| x data IH]; constructor; [| exact IH].
  unfold is_byte. pose proof (Byte.to_N_bounded x). lia.
Qed.

(** X22: the base64 text sent to the vision model determines the image:
    two byte strings with the same encoding are the same byte string. *)
Theorem image_to_base64_injective (a b : bytes) :
  image_to_base64 a = image_to_base64 b -> a = b.
Proof.
  unfold image_to_base64, b64encode. intros E.
  apply map_to_N_inj. apply b64encode_N_inj; auto using to_N_is_byte.
Qed.

Lemma image_to_base64_injective_witness :
  image_to_base64 sample_png = image_to_base64 sample_png /\
  sample_png = sample_png.
Proof.
  split; [reflexivity |].
  apply (image_to_base64_injective sample_png sample_png). reflexivity.
Defined.

(** The characters of the base64 alphabet, and the padding. *)
Definition b64_alphabet (c : N) : bool :=
  ((65 <=? c) && (c <=? 90) || (97 <=? c) && (c <=? 122)
   || (48 <=? c) && (c <=? 57) || (c =? 43) || (c =? 47) || (c =? 61))%N.

Lemma b64_char_alphabet (n : N) : b64_alphabet (b64_char n) = true.
Proof.
  unfold b64_char, b64_alphabet.
  repeat match goal with
         | |- context [if ?c then _ else _] => destruct c eqn:?
         end;
    repeat match goal with
           | H : (_ <? _)%N = true |- _ => apply N.ltb_lt in H
           | H : (_ <? _)%N = false |- _ => apply N.ltb_ge in H
           | H : (_ =? _)%N = true |- _ => apply N.eqb_eq in H
           | H : (_ =? _)%N = false |- _ => apply N.eqb_neq in H
           end.
  - replace ((65 <=? 65 + n) && (65 + n <=? 90))%N with true; [reflexivity |].
    symmetry. apply andb_true_iff. split; apply N.leb_le; lia.
  - replace ((97 <=? 97 + (n - 26)) && (97 + (n - 26) <=? 122))%N with true;
      [now rewrite orb_true_r |].
    symmetry. apply andb_true_iff. split; apply N.leb_le; lia.
  - replace ((48 <=? 48 + (n - 52)) && (48 + (n - 52) <=? 57))%N with true;
      [now rewrite !orb_true_r |].
    symmetry. apply andb_true_iff. split; apply N.leb_le; lia.
  - reflexivity.
  - reflexivity.
Qed.

Lemma b64encode_N_shape (l : list N) :
  forallb b64_alphabet (b64encode_N l) = true /\
  List.length (b64encode_N l) = 4 * ((List.length l + 2) / 3).
Proof.
  induction l as [| x | x y | x y z rest [IHa IHl]] using list_ind3.
  - split; reflexivity.
  - split; [| reflexivity].
    cbn [b64encode_N forallb]. now rewrite !b64_char_alphabet.
  - split; [| reflexivity].
    cbn [b64encode_N forallb]. now rewrite !b64_char_alphabet.
  - split.
    + cbn [b64encode_N forallb app]. now rewrite !b64_char_alphabet, IHa.
    + cbn [b64encode_N List.length app]. rewrite IHl.
      replace (S (S (S (List.length rest))) + 2)
        with (List.length rest + 2 + 1 * 3) by lia.
      rewrite Nat.div_add by discriminate. lia.
Qed.

(** X23: the base64 text of the image has four characters for every three
    bytes, rounded up, and holds only letters, digits, plus, slash and the
    padding sign. *)
Theorem image_to_base64_shape (image_bytes : bytes) :
  forallb b64_alphabet (image_to_base64 image_bytes) = true /\
  List.length (image_to_base64 image_bytes)
  = 4 * ((List.length image_bytes + 2) / 3).
Proof.
  unfold image_to_base64, b64encode.
  destruct (b64encode_N_shape (map Byte.to_N image_bytes)) as [Ha Hl].
  split; [exact Ha |]. rewrite Hl, length_map. reflexivity.
Qed.
